(** * Litgrid analysis pipeline: fetch, normalise, merge, trim, process

    A shallow embedding of [run_analysis.py] (the data acquisition and
    temporal alignment core) together with the properties its
    specification states about it.

    Conventions of the embedding:
    - a pandas timestamp is the number of nanoseconds since the epoch, as an
      unbounded [Z]; [timedelta(days=d)] is [d * 86400 * 10^9];
    - a numeric reading is held as an integer [Z]; [process_data] adds and
      subtracts readings as exact integers, [process_data_with] in the
      arithmetic of the columns (int64 or float64), which it takes as a
      parameter;
    - every pandas missing marker (NaN, NaT, None) is the one cell [NA];
    - a row of a [DataFrame] is a finite map from column name to cell, the
      frame keeps the column order and every row its index label;
    - string-to-datetime parsing is a parameter [parse_datetime] of the
      development, applied per value; what pandas makes of a number in a
      date column depends on the rest of the column, and the statements
      that depend on it are made for date columns without numbers;
    - where the installed pandas decides what a line does (the negation of
      line 239), the two behaviours are a parameter;
    - the network, the clock and the console are a world: an oracle answers
      the n-th GET, and every request, printed line and sleep is appended to
      a trace;
    - a Python exception is the [Raise] case of a result. *)

From Stdlib Require Import ZArith Lia List Ascii String Sorting.Sorted Permutation.
From stdpp Require Import base option list gmap strings.
Import ListNotations.
Open Scope string_scope.
Open Scope list_scope.
Open Scope Z_scope.

(** ** Tables *)

Inductive cell : Type :=
  | Str (s : string)
  | Time (t : Z)
  | Num (v : Z)
  | NA.

Record Row : Type := mkRow { label : Z; cells : gmap string cell }.

Record DataFrame : Type := mkDF { columns : list string; rows : list Row }.

Definition get_cell (r : Row) (c : string) : cell := default NA (cells r !! c).

Definition set_cell (r : Row) (c : string) (v : cell) : Row :=
  mkRow (label r) (<[c := v]> (cells r)).

(** [df.empty]: some axis has length zero. *)
Definition df_empty (df : DataFrame) : bool :=
  match columns df, rows df with
  | [], _ => true
  | _, [] => true
  | _, _ => false
  end.

(** [c in df.columns] *)
Definition has_column (df : DataFrame) (c : string) : bool :=
  bool_decide (c ∈ columns df).

(** [df[c]] as the list of its cells, in row order. *)
Definition column (df : DataFrame) (c : string) : list cell :=
  map (fun r => get_cell r c) (rows df).

(** [df[c] = vals]: replaces the column, or appends a new one. *)
Definition assign (df : DataFrame) (c : string) (vals : list cell) : DataFrame :=
  mkDF (if has_column df c then columns df else columns df ++ [c])
       (zip_with (fun r v => set_cell r c v) (rows df) vals).

(** [df[mask]]: the rows whose mask entry is true, labels kept. *)
Definition select (df : DataFrame) (mask : list bool) : DataFrame :=
  mkDF (columns df) (map fst (List.filter snd (zip (rows df) mask))).

Definition ts_of (c : cell) : option Z :=
  match c with Time t => Some t | _ => None end.

(** [Series.max()] of a datetime column, missing values skipped; [None] is
    NaT. *)
Definition series_max (col : list cell) : option Z :=
  foldr (fun c acc =>
           match ts_of c, acc with
           | Some t, Some m => Some (Z.max t m)
           | Some t, None => Some t
           | None, a => a
           end) None col.

(** [col >= cutoff] on a datetime column: a missing value compares false. *)
Definition ge_cutoff (cutoff : Z) (c : cell) : bool :=
  match ts_of c with Some t => cutoff <=? t | None => false end.

Definition timedelta_days (d : Z) : Z := d * 86400000000000.

Definition SIX_MONTH_DAYS : Z := 182.

(** [pd.Timestamp.min], the least nanosecond timestamp: below it the
    subtraction of line 35 raises instead of giving a cutoff. *)
Definition Timestamp_min : Z := -9223372036854775807.

Section Trim.

(** The datetime parser behind [pd.to_datetime]: [None] when the string
    does not parse. *)
Variable parse_datetime : string -> option Z.

(** [pd.to_datetime(..., errors="coerce")] on one value: unparseable strings
    become NaT, datetimes and missing values stay.  A number is read as epoch
    nanoseconds, which is what pandas does in a column of numbers only; in a
    column where a string came first pandas turns a number into NaT, so the
    statement that fixes the exact rows kept (the window theorem) is made
    for date columns without numbers. *)
Definition to_datetime_coerce (c : cell) : cell :=
  match c with
  | Str s => match parse_datetime s with Some t => Time t | None => NA end
  | Time t => Time t
  | Num v => Time v
  | NA => NA
  end.

Definition _limit_to_last_6_months (df : DataFrame) (date_col : string) : DataFrame :=
  if df_empty df || negb (has_column df date_col) then df
  else
    let df := assign df date_col (map to_datetime_coerce (column df date_col)) in
    match series_max (column df date_col) with
    | None => df
    | Some max_dt =>
        let cutoff := max_dt - timedelta_days SIX_MONTH_DAYS in
        select df (map (ge_cutoff cutoff) (column df date_col))
    end.

(** The timestamp a row carries in [date_col], once parsed. *)
Definition timestamp (date_col : string) (r : Row) : option Z :=
  ts_of (to_datetime_coerce (get_cell r date_col)).

(** The row with its [date_col] value parsed to a datetime. *)
Definition parse_row (date_col : string) (r : Row) : Row :=
  set_cell r date_col (to_datetime_coerce (get_cell r date_col)).

(** [T] is the greatest timestamp of the table. *)
Definition max_timestamp (df : DataFrame) (date_col : string) (T : Z) : Prop :=
  (exists r, r ∈ rows df /\ timestamp date_col r = Some T) /\
  (forall r t, r ∈ rows df -> timestamp date_col r = Some t -> t <= T).

(** Membership of a row's timestamp in the closed window ending at [T]: 182
    days of 86400 seconds, in nanoseconds. *)
Definition in_window (T : Z) (date_col : string) (r : Row) : bool :=
  match timestamp date_col r with
  | Some t => (T - 182 * 86400 * 1000000000 <=? t) && (t <=? T)
  | None => false
  end.

(** The date column holds no number: every value is a string, a datetime or
    missing. *)
Definition no_numeric_dates (df : DataFrame) (date_col : string) : Prop :=
  forall (r : Row) (v : Z), r ∈ rows df -> get_cell r date_col <> Num v.

End Trim.

(** ** Exceptions, the world and the IO monad *)

Inductive exn : Type :=
  | KeyError (missing : list string)
  | ValueError (value : string)
  | TypeError.

Inductive result (A : Type) : Type :=
  | Ok (a : A)
  | Raise (e : exn).
Arguments Ok {A} a.
Arguments Raise {A} e.

Definition rbind {A B : Type} (c : result A) (k : A -> result B) : result B :=
  match c with Ok a => k a | Raise e => Raise e end.

Fixpoint rmapM {A B : Type} (f : A -> result B) (l : list A) : result (list B) :=
  match l with
  | [] => Ok []
  | a :: tl => rbind (f a) (fun b => rbind (rmapM f tl) (fun bs => Ok (b :: bs)))
  end.

(** A JSON value of a record field, and a record (a JSON object). *)
Inductive jval : Type :=
  | JNull
  | JNum (z : Z)
  | JStr (s : string).

Definition record : Type := gmap string jval.

(** What [response.json()] does: the decoded list of records, or the
    decoding error it raises. *)
Inductive body : Type :=
  | JsonOk (data : list record)
  | JsonError (e : string).

(** What one [requests.get] does: a response with its status code, or an
    exception (transport error, timeout, ...). *)
Inductive outcome : Type :=
  | Response (status_code : Z) (json : body)
  | Raised (e : string).

(** The lines the program prints, by format string. *)
Inductive message : Type :=
  | AttemptFailedStatus (attempt : nat) (status_code : Z)
      (* "  Bandymas {attempt + 1} nepavyko su statusu {status_code}" *)
  | AttemptFailedError (attempt : nat) (e : string)
      (* "  Bandymas {attempt + 1} nepavyko su klaida: {e}" *)
  | ReadingRange (start_date end_date : string)
  | Reading (name ds_id : string)
  | Received (n : nat)
  | UnexpectedColumns
  | NoData (name : string)
  | ProcessingAborted
  | PipelineFailed.

Inductive event : Type :=
  | Get (url : string) (params : list (string * string)) (timeout : Z) (verify : bool)
  | Print (m : message)
  | Sleep (seconds : Z).

Definition World : Type := list event.

Definition is_get (e : event) : bool :=
  match e with Get _ _ _ _ => true | _ => false end.

(** Number of requests issued so far. *)
Definition gets (w : World) : nat := length (List.filter is_get w).

(** The remote side: the answer to the n-th request, given its URL and
    query parameters. *)
Definition network : Type := nat -> string -> list (string * string) -> outcome.

Definition IO (A : Type) : Type := World -> result A * World.

Definition ret {A : Type} (a : A) : IO A := fun w => (Ok a, w).

Definition bind {A B : Type} (c : IO A) (k : A -> IO B) : IO B :=
  fun w => match c w with
           | (Ok a, w') => k a w'
           | (Raise e, w') => (Raise e, w')
           end.

Definition lift {A : Type} (r : result A) : IO A := fun w => (r, w).

Definition print (m : message) : IO unit := fun w => (Ok tt, w ++ [Print m]).

Definition sleep (seconds : Z) : IO unit := fun w => (Ok tt, w ++ [Sleep seconds]).

Notation "x <- c ;; k" := (bind c (fun x => k))
  (at level 100, c at next level, k at level 200, right associativity).

(** ** Retrying fetcher *)

Section Fetch.

Variable net : network.

(** [requests.get(url, params=params, timeout=timeout, verify=verify)] *)
Definition requests_get (url : string) (params : list (string * string))
    (timeout : Z) (verify : bool) : IO outcome :=
  fun w => (Ok (net (gets w) url params), w ++ [Get url params timeout verify]).

(** The body of [for attempt in range(3)], over the attempts left. *)
Fixpoint attempts (url : string) (params : list (string * string))
    (range : list nat) : IO (list record) :=
  match range with
  | [] => ret []
  | attempt :: range' =>
      o <- requests_get url params 120 false ;;
      match o with
      | Response status_code json =>
          if status_code =? 200 then
            match json with
            | JsonOk data => ret data
            | JsonError e =>
                _ <- print (AttemptFailedError (attempt + 1) e) ;;
                _ <- sleep 5 ;;
                attempts url params range'
            end
          else
            _ <- print (AttemptFailedStatus (attempt + 1) status_code) ;;
            _ <- sleep 5 ;;
            attempts url params range'
      | Raised e =>
          _ <- print (AttemptFailedError (attempt + 1) e) ;;
          _ <- sleep 5 ;;
          attempts url params range'
      end
  end.

Definition fetch_dataset (category dataset_id start_date end_date : string)
    : IO (list record) :=
  let url := "https://openapi.litgrid.eu/v1/kategorijos/" +:+ category +:+ "/" +:+ dataset_id in
  let params := [("nuo", start_date); ("iki", end_date)] in
  attempts url params (seq 0 3).

End Fetch.

(** ** Series normaliser and merger *)

(** One fetched series once normalised: the frame indexed by [data] with
    the single value column [series_name]. A key [None] is NaT. *)
Record Series : Type := mkSeries { series_name : string; entries : list (option Z * cell) }.

Definition cell_of_json (v : option jval) : cell :=
  match v with
  | Some (JNum z) => Num z
  | Some (JStr s) => Str s
  | Some JNull | None => NA
  end.

Definition cell_of_ts (k : option Z) : cell :=
  match k with Some t => Time t | None => NA end.

(** [c in pd.DataFrame(data).columns]: some record has the field. *)
Definition has_field (c : string) (data : list record) : bool :=
  existsb (fun r => bool_decide (is_Some (r !! c))) data.

(** [pd.DataFrame(data)[["ltu", "value"]]], as (date, value) pairs. *)
Definition frame_of (data : list record) : list (cell * cell) :=
  map (fun r => (cell_of_json (r !! "ltu"), cell_of_json (r !! "value"))) data.

(** [drop_duplicates(subset="data")]: an entry is kept unless its key was
    seen earlier in the list. *)
Fixpoint drop_duplicates_from {V : Type} (seen : list (option Z))
    (l : list (option Z * V)) : list (option Z * V) :=
  match l with
  | [] => []
  | e :: tl =>
      if bool_decide (e.1 ∈ seen) then drop_duplicates_from seen tl
      else e :: drop_duplicates_from (e.1 :: seen) tl
  end.

Definition drop_duplicates {V : Type} (l : list (option Z * V)) : list (option Z * V) :=
  drop_duplicates_from [] l.

(** The value of the first entry with key [k], [NA] when there is none. *)
Fixpoint entry_at (k : option Z) (l : list (option Z * cell)) : cell :=
  match l with
  | [] => NA
  | e :: tl => if bool_decide (e.1 = k) then e.2 else entry_at k tl
  end.

(** Order of [sort_index] on a datetime index: ascending, NaT last. *)
Definition key_leb (a b : option Z) : bool :=
  match a, b with
  | Some x, Some y => x <=? y
  | _, None => true
  | None, Some _ => false
  end.

Fixpoint insert_sorted {V : Type} (e : option Z * V) (l : list (option Z * V))
    : list (option Z * V) :=
  match l with
  | [] => [e]
  | e' :: tl => if key_leb e.1 e'.1 then e :: l else e' :: insert_sorted e tl
  end.

Definition sort_index {V : Type} (l : list (option Z * V)) : list (option Z * V) :=
  foldr insert_sorted [] l.

(** The union of the frames' indexes, each key once. *)
Definition index_union (dfs : list Series) : list (option Z) :=
  map fst (drop_duplicates (concat (map entries dfs))).

(** [pd.concat(dfs, axis=1, join="outer")] of frames with unique indexes:
    one row per key of the union, one column per frame, [NA] where the
    frame has no entry at the key. *)
Definition joined_row (dfs : list Series) (k : option Z) : gmap string cell :=
  foldr (fun s m => <[series_name s := entry_at k (entries s)]> m) ∅ dfs.

Definition concat_outer (dfs : list Series) : list (option Z * gmap string cell) :=
  map (fun k => (k, joined_row dfs k)) (index_union dfs).

(** [reset_index()]: the index becomes the column [data], rows are
    labelled 0, 1, ... *)
Definition reset_index (names : list string) (l : list (option Z * gmap string cell))
    : DataFrame :=
  mkDF ("data" :: names)
       (imap (fun i e => mkRow (Z.of_nat i) (<["data" := cell_of_ts e.1]> e.2)) l).

(** Line 115: [pd.concat(all_dfs, axis=1, join="outer").sort_index().reset_index()] *)
Definition merge (all_dfs : list Series) : DataFrame :=
  reset_index (map series_name all_dfs) (sort_index (concat_outer all_dfs)).

Section Normalize.

Variable parse_datetime : string -> option Z.

(** [pd.to_datetime] on one value (errors raise): a string that does not
    parse raises, a missing value is NaT.  A number is read as epoch
    nanoseconds, which is what pandas does in a column of numbers only; in a
    column where a string came first pandas raises on a number, so the
    statement about what raises is made for series without numeric
    dates. *)
Definition to_datetime (c : cell) : result (option Z) :=
  match c with
  | Str s => match parse_datetime s with Some t => Ok (Some t) | None => Raise (ValueError s) end
  | Time t => Ok (Some t)
  | Num v => Ok (Some v)
  | NA => Ok None
  end.

(** Line 101: [df["data"] = pd.to_datetime(df["data"])]. *)
Definition parse_dates (df : list (cell * cell)) : result (list (option Z * cell)) :=
  rmapM (fun e => rbind (to_datetime e.1) (fun k => Ok (k, e.2))) df.

(** Lines 101-102 on the (date, value) pairs of one series: parse the
    dates, drop later duplicates, index by date. *)
Definition normalize_frame (df : list (cell * cell)) : result (list (option Z * cell)) :=
  rbind (parse_dates df) (fun l => Ok (drop_duplicates l)).

End Normalize.

(** A normalised series seen again as (date, value) pairs. *)
Definition as_frame (l : list (option Z * cell)) : list (cell * cell) :=
  map (fun e => (cell_of_ts e.1, e.2)) l.

(** ** Processor *)

Definition sources : list string :=
  ["Kaupimo"; "Saules"; "Kitu"; "Siluminiu"; "Hidro"; "Vejo"].

(** Selecting [df[cols]] raises [KeyError] with the columns that are not in
    the frame. *)
Definition require_columns (df : DataFrame) (cols : list string) : result unit :=
  match List.filter (fun c => negb (has_column df c)) cols with
  | [] => Ok tt
  | missing => Raise (KeyError missing)
  end.

(** [fillna(v)] on one value. *)
Definition fillna (v : Z) (c : cell) : cell :=
  match c with NA => Num v | _ => c end.

(** [ffill()] down a column, [last] being the last value seen. *)
Fixpoint ffill_from (last : cell) (col : list cell) : list cell :=
  match col with
  | [] => []
  | NA :: tl => last :: ffill_from last tl
  | c :: tl => c :: ffill_from c tl
  end.

Definition ffill (col : list cell) : list cell := ffill_from NA col.

(** [sum(axis=1)] over the cells of one row, in exact integers: missing
    values are skipped, a value that is not a number raises. *)
Fixpoint sum_cells (cs : list cell) : result Z :=
  match cs with
  | [] => Ok 0
  | Num v :: tl => rbind (sum_cells tl) (fun s => Ok (v + s))
  | NA :: tl => sum_cells tl
  | _ :: tl => Raise TypeError
  end.

(** [a - b] on two values of numeric columns, in exact integers: missing
    if either is. *)
Definition sub_cells (a b : cell) : result cell :=
  match a, b with
  | Num x, Num y => Ok (Num (x - y))
  | Num _, NA | NA, Num _ | NA, NA => Ok NA
  | _, _ => Raise TypeError
  end.

Section Pipeline.

Variable parse_datetime : string -> option Z.
Variable net : network.
(** [datetime.now()] and [strftime("%Y-%m-%d")]. *)
Variable now : Z.
Variable strftime : Z -> string.

Definition process_data (df : DataFrame) : IO DataFrame :=
  if df_empty df then
    _ <- print ProcessingAborted ;;
    ret df
  else
    let df := _limit_to_last_6_months parse_datetime df "data" in
    _ <- lift (require_columns df sources) ;;
    let df := foldl (fun d c => assign d c (map (fillna 0) (column d c))) df sources in
    _ <- lift (require_columns df ["Vartojimas"]) ;;
    let df := assign df "Vartojimas" (ffill (column df "Vartojimas")) in
    total <- lift (rmapM (fun r => rbind (sum_cells (map (get_cell r) sources))
                                         (fun s => Ok (Num s))) (rows df)) ;;
    let df := assign df "Sumine_Generacija" total in
    diff <- lift (rmapM (fun p => sub_cells p.1 p.2)
                        (zip (column df "Sumine_Generacija") (column df "Vartojimas"))) ;;
    let df := assign df "Disbalansas" diff in
    ret df.

Definition datasets : list (string * string) :=
  [("101", "Kaupimo"); ("102", "Saules"); ("103", "Kitu"); ("104", "Siluminiu");
   ("105", "Hidro"); ("106", "Vejo"); ("203", "Vartojimas")].

(** The loop [for ds_id, name in datasets.items()] over the datasets left,
    [all_dfs] being the frames appended so far. *)
Fixpoint fetch_loop (start_date end_date : string) (ds : list (string * string))
    (all_dfs : list Series) : IO (list Series) :=
  match ds with
  | [] => ret all_dfs
  | (ds_id, name) :: ds' =>
      let cat := if String.prefix "1" ds_id then "gamyba" else "vartojimas" in
      _ <- print (Reading name ds_id) ;;
      data <- fetch_dataset net cat ds_id start_date end_date ;;
      all_dfs <-
        match data with
        | _ :: _ =>
            if has_field "ltu" data && has_field "value" data then
              df <- lift (normalize_frame parse_datetime (frame_of data)) ;;
              _ <- print (Received (length df)) ;;
              ret (all_dfs ++ [mkSeries name df])
            else
              _ <- print UnexpectedColumns ;;
              ret all_dfs
        | [] =>
            _ <- print (NoData name) ;;
            ret all_dfs
        end ;;
      _ <- sleep 1 ;;
      fetch_loop start_date end_date ds' all_dfs
  end.

Definition fetch_all_data : IO DataFrame :=
  let end_dt := now in
  let start_dt := end_dt - timedelta_days SIX_MONTH_DAYS in
  let start_date := strftime start_dt in
  let end_date := strftime end_dt in
  _ <- print (ReadingRange start_date end_date) ;;
  all_dfs <- fetch_loop start_date end_date datasets [] ;;
  match all_dfs with
  | [] => ret (mkDF [] [])
  | _ =>
      let final_df := merge all_dfs in
      ret (_limit_to_last_6_months parse_datetime final_df "data")
  end.

(** The script body up to the processed table: the export and the
    reports that consume it are not modelled. *)
Definition main : IO DataFrame :=
  df <- fetch_all_data ;;
  if negb (df_empty df) then process_data df
  else
    _ <- print PipelineFailed ;;
    ret df.

End Pipeline.

(** ** Sample data *)

Module Sample.

Definition digit (a : ascii) : option Z :=
  let n := Z.of_nat (nat_of_ascii a) in
  if (48 <=? n) && (n <=? 57) then Some (n - 48) else None.

Fixpoint digits (acc : Z) (l : list ascii) : option Z :=
  match l with
  | [] => Some acc
  | a :: tl => match digit a with Some d => digits (10 * acc + d) tl | None => None end
  end.

(** Days since 1970-01-01 of a proleptic Gregorian date. *)
Definition days_from_civil (y m d : Z) : Z :=
  let y := if m <=? 2 then y - 1 else y in
  let era := y / 400 in
  let yoe := y - era * 400 in
  let doy := (153 * (if 2 <? m then m - 3 else m + 9) + 2) / 5 + d - 1 in
  let doe := yoe * 365 + yoe / 4 - yoe / 100 + doy in
  era * 146097 + doe - 719468.

(** A parser of dates written YYYY-MM-DD, to nanoseconds since the
    epoch. *)
Definition parse_iso (s : string) : option Z :=
  match list_ascii_of_string s with
  | [y1; y2; y3; y4; h1; m1; m2; h2; d1; d2] =>
      if Ascii.eqb h1 "-" && Ascii.eqb h2 "-" then
        match digits 0 [y1; y2; y3; y4], digits 0 [m1; m2], digits 0 [d1; d2] with
        | Some y, Some m, Some d =>
            if (1 <=? m) && (m <=? 12) && (1 <=? d) && (d <=? 31)
            then Some (timedelta_days (days_from_civil y m d))
            else None
        | _, _, _ => None
        end
      else None
  | _ => None
  end.

Definition row (l : Z) (kvs : list (string * cell)) : Row := mkRow l (list_to_map kvs).

(** A table with string dates, one of them unparseable; 2024-03-03 is 182
    days before 2024-09-01. *)
Definition df_dates : DataFrame :=
  mkDF ["data"; "Saules"]
       [ row 0 [("data", Str "2024-01-01"); ("Saules", Num 1)];
         row 1 [("data", Str "2024-03-02"); ("Saules", Num 2)];
         row 2 [("data", Str "2024-03-03"); ("Saules", Num 3)];
         row 3 [("data", Str "n/a"); ("Saules", Num 4)];
         row 4 [("data", Str "2024-09-01"); ("Saules", Num 5)];
         row 5 [("data", Str "2024-06-15"); ("Saules", NA)] ].

Definition T_dates : Z := timedelta_days 19967.

(** A table none of whose dates parses. *)
Definition df_unparseable : DataFrame :=
  mkDF ["data"; "Saules"]
       [ row 0 [("data", Str "yesterday"); ("Saules", Num 1)];
         row 1 [("data", Str "n/a"); ("Saules", Num 2)] ].

(** A table without rows, and one without the date column. *)
Definition df_no_rows : DataFrame := mkDF ["data"; "Saules"] [].

Definition df_no_date : DataFrame :=
  mkDF ["Saules"] [ row 0 [("Saules", Num 1)] ].

End Sample.

(** An attempt that fails: the request raised, the status is not 2xx, or
    decoding the response raised. *)
Definition failed_attempt (o : outcome) : Prop :=
  match o with
  | Response status_code json =>
      status_code < 200 \/ 299 < status_code \/ exists e, json = JsonError e
  | Raised _ => True
  end.

(** The URL and the query parameters [fetch_dataset] requests. *)
Definition dataset_url (category dataset_id : string) : string :=
  "https://openapi.litgrid.eu/v1/kategorijos/" +:+ category +:+ "/" +:+ dataset_id.

Definition dataset_params (start_date end_date : string) : list (string * string) :=
  [("nuo", start_date); ("iki", end_date)].

Module SampleNet.

(** A remote side that answers every request with status 503. *)
Definition unavailable : network := fun _ _ _ => Response 503 (JsonOk []).

End SampleNet.

Module SampleRaw.

Definition rec (ltu : string) (value : Z) : record :=
  {[ "ltu" := JStr ltu; "value" := JNum value ]}.

(** Raw records with the timestamp 2024-03-01 three times. *)
Definition duplicated : list record :=
  [ rec "2024-03-01" 10; rec "2024-03-02" 20; rec "2024-03-01" 11;
    rec "2024-03-03" 30; rec "2024-03-01" 12 ].

Definition duplicated_parsed : list (option Z * cell) :=
  [ (Some (timedelta_days 19783), Num 10); (Some (timedelta_days 19784), Num 20);
    (Some (timedelta_days 19783), Num 11); (Some (timedelta_days 19785), Num 30);
    (Some (timedelta_days 19783), Num 12) ].

End SampleRaw.

(** Ascending order on the keys of a datetime index, NaT after every
    timestamp. *)
Definition ts_le (a b : option Z) : Prop :=
  match a, b with
  | Some x, Some y => x <= y
  | _, None => True
  | None, Some _ => False
  end.

(** A normalised series: unique keys, numeric values. *)
Definition normalized (s : Series) : Prop :=
  NoDup (map fst (entries s)) /\
  Forall (fun e => exists v : Z, e.2 = Num v) (entries s).

Module SampleSeries.

Definition t1 : Z := timedelta_days 19783.
Definition t2 : Z := timedelta_days 19784.
Definition t3 : Z := timedelta_days 19785.

(** Series A over t1, t2 and series B over t2, t3. *)
Definition A : Series := mkSeries "A" [(Some t2, Num 12); (Some t1, Num 11)].
Definition B : Series := mkSeries "B" [(Some t2, Num 22); (Some t3, Num 23)].

End SampleSeries.

(** The timestamp of a row of a merged table, and the timestamps of the
    table in row order. *)
Definition row_key (r : Row) : option Z := ts_of (get_cell r "data").

Definition row_keys (df : DataFrame) : list (option Z) := map row_key (rows df).

(** ** Row-wise reading of the processor *)

Definition consumption : string := "Vartojimas".

(** A cell of a numeric column: a number or missing. *)
Definition numeric_cell (c : cell) : Prop :=
  match c with Num _ | NA => True | _ => False end.

(** The seven series columns of every row are numeric. *)
Definition numeric_table (df : DataFrame) : Prop :=
  forall r c, r ∈ rows df -> c ∈ sources ++ [consumption] -> numeric_cell (get_cell r c).

Definition value_of (c : cell) : Z :=
  match c with Num v => v | _ => 0 end.

Definition sumZ (l : list Z) : Z := foldr Z.add 0 l.

(** The row with the missing cells of the generation columns set to 0. *)
Definition fill_row (r : Row) : Row :=
  foldl (fun r c => set_cell r c (fillna 0 (get_cell r c))) r sources.

(** The sum of the generation columns of a row. *)
Definition generation (r : Row) : Z :=
  sumZ (map (fun s => value_of (get_cell r s)) sources).

Definition imbalance (r : Row) : cell :=
  match get_cell r consumption with
  | Num c => Num (value_of (get_cell r "Sumine_Generacija") - c)
  | _ => NA
  end.

(** What the processor makes of a row [r] whose forward-filled consumption
    is [v]. *)
Definition processed_row (r : Row) (v : cell) : Row :=
  let r := set_cell (fill_row r) consumption v in
  let r := set_cell r "Sumine_Generacija" (Num (generation r)) in
  set_cell r "Disbalansas" (imbalance r).

Definition known (c : cell) : bool :=
  match c with NA => false | _ => true end.

(** The nearest non-missing value at or before position [i] of a column,
    missing when there is none. *)
Definition last_known (col : list cell) (i : nat) : cell :=
  List.last (List.filter known (take (S i) col)) NA.

(** [v] is what forward fill leaves at position [i] of [col]: the nearest
    non-missing value at or before [i], or missing when every value up to
    [i] is missing. *)
Definition forward_filled (col : list cell) (i : nat) (v : cell) : Prop :=
  (exists j : nat,
     (j <= i)%nat /\ col !! j = Some v /\ v <> NA /\
     forall j' : nat, (j < j' <= i)%nat -> col !! j' = Some NA) \/
  (v = NA /\ forall j' : nat, (j' <= i)%nat -> col !! j' = Some NA).

Module SampleTable.

Definition day (n : Z) : cell := Time (timedelta_days n).

(** A merged table of four hours: consumption is unknown in the first row
    and in the third, some generation readings are missing. *)
Definition df_merged : DataFrame :=
  mkDF ["data"; "Kaupimo"; "Saules"; "Kitu"; "Siluminiu"; "Hidro"; "Vejo"; "Vartojimas"]
       [ Sample.row 0 [("data", day 1); ("Kaupimo", Num 1); ("Saules", NA); ("Kitu", Num 2);
                       ("Siluminiu", Num 3); ("Hidro", NA); ("Vejo", Num 4);
                       ("Vartojimas", NA)];
         Sample.row 1 [("data", day 2); ("Kaupimo", NA); ("Saules", Num 10); ("Kitu", Num 2);
                       ("Siluminiu", Num 3); ("Hidro", Num 5); ("Vejo", Num 4);
                       ("Vartojimas", Num 30)];
         Sample.row 2 [("data", day 3); ("Kaupimo", Num 1); ("Saules", Num 20); ("Kitu", NA);
                       ("Siluminiu", NA); ("Hidro", NA); ("Vejo", NA);
                       ("Vartojimas", NA)];
         Sample.row 3 [("data", day 4); ("Kaupimo", Num 1); ("Saules", Num 5); ("Kitu", Num 2);
                       ("Siluminiu", Num 3); ("Hidro", Num 6); ("Vejo", Num 4);
                       ("Vartojimas", Num 18)] ].

End SampleTable.

(** ** The processor over the columns' own arithmetic

    Lines 139 and 140 add and subtract in the dtype pandas gave the
    columns: int64, where a sum wraps around, or float64, where it is
    rounded and can be infinite or NaN.  [process_data] computes over exact
    integers, which is that arithmetic while the readings are integers and
    no sum leaves the exact range.  [process_data_with] is the same
    processor with the arithmetic as a parameter.  A reading is held as an
    integer: a reading with an integer value as that integer (so the 0 that
    [fillna(0)] writes is 0), any other float64 value under a number of its
    own, which the arithmetic knows how to read.  [None] is NaN, which
    pandas holds as a missing value. *)

Record Arithmetic : Type := mkArithmetic {
  (* [sum(axis=1)] on the readings of one row, in column order *)
  row_sum : list Z -> option Z;
  (* [a - b] on two readings *)
  minus : Z -> Z -> option Z
}.

Definition cell_of_number (o : option Z) : cell :=
  match o with Some v => Num v | None => NA end.

(** The readings [sum(axis=1)] adds up in one row: missing values are
    skipped, a value that is not a number raises. *)
Fixpoint numbers_of (cs : list cell) : result (list Z) :=
  match cs with
  | [] => Ok []
  | Num v :: tl => rbind (numbers_of tl) (fun vs => Ok (v :: vs))
  | NA :: tl => numbers_of tl
  | _ :: tl => Raise TypeError
  end.

Definition sum_cells_with (ar : Arithmetic) (cs : list cell) : result cell :=
  rbind (numbers_of cs) (fun vs => Ok (cell_of_number (row_sum ar vs))).

Definition sub_cells_with (ar : Arithmetic) (a b : cell) : result cell :=
  match a, b with
  | Num x, Num y => Ok (cell_of_number (minus ar x y))
  | Num _, NA | NA, Num _ | NA, NA => Ok NA
  | _, _ => Raise TypeError
  end.

Section ColumnArithmetic.

Variable ar : Arithmetic.
Variable parse_datetime : string -> option Z.

Definition process_data_with (df : DataFrame) : IO DataFrame :=
  if df_empty df then
    _ <- print ProcessingAborted ;;
    ret df
  else
    let df := _limit_to_last_6_months parse_datetime df "data" in
    _ <- lift (require_columns df sources) ;;
    let df := foldl (fun d c => assign d c (map (fillna 0) (column d c))) df sources in
    _ <- lift (require_columns df ["Vartojimas"]) ;;
    let df := assign df "Vartojimas" (ffill (column df "Vartojimas")) in
    total <- lift (rmapM (fun r => sum_cells_with ar (map (get_cell r) sources))
                         (rows df)) ;;
    let df := assign df "Sumine_Generacija" total in
    diff <- lift (rmapM (fun p => sub_cells_with ar p.1 p.2)
                        (zip (column df "Sumine_Generacija") (column df "Vartojimas"))) ;;
    let df := assign df "Disbalansas" diff in
    ret df.




End ColumnArithmetic.

(** Exact integers: no rounding, no wrap-around. *)
Definition exact_arithmetic : Arithmetic :=
  mkArithmetic (fun vs => Some (sumZ vs)) (fun a b => Some (a - b)).

(** The value of an integer in 64 bits, two's complement. *)
Definition wrap_int64 (z : Z) : Z := (z + 2 ^ 63) mod 2 ^ 64 - 2 ^ 63.

(** int64 columns: every sum and difference wraps around. *)
Definition int64_arithmetic : Arithmetic :=
  mkArithmetic (fun vs => Some (foldl (fun a v => wrap_int64 (a + v)) 0 vs))
               (fun a b => Some (wrap_int64 (a - b))).

Module SampleInt64.

(** Two hours of int64 readings; the generation of the second hour adds up
    to 2^63, one more than the greatest int64. *)
Definition df_large : DataFrame :=
  mkDF ["data"; "Kaupimo"; "Saules"; "Kitu"; "Siluminiu"; "Hidro"; "Vejo"; "Vartojimas"]
       [ Sample.row 0 [("data", SampleTable.day 1); ("Kaupimo", Num 1); ("Saules", Num 2);
                       ("Kitu", Num 3); ("Siluminiu", Num 4); ("Hidro", Num 5);
                       ("Vejo", Num 6); ("Vartojimas", Num 20)];
         Sample.row 1 [("data", SampleTable.day 2); ("Kaupimo", Num 9223372036854775807);
                       ("Saules", Num 1); ("Kitu", Num 0); ("Siluminiu", Num 0);
                       ("Hidro", Num 0); ("Vejo", Num 0); ("Vartojimas", Num 0)] ].

End SampleInt64.

(** ** Sample runs of the pipeline *)

Module Scenario.

(** Year, month and day of a number of days since 1970-01-01. *)
Definition civil_from_days (z : Z) : Z * Z * Z :=
  let z := z + 719468 in
  let era := z / 146097 in
  let doe := z - era * 146097 in
  let yoe := (doe - doe / 1460 + doe / 36524 - doe / 146096) / 365 in
  let doy := doe - (365 * yoe + yoe / 4 - yoe / 100) in
  let mp := (5 * doy + 2) / 153 in
  let d := doy - (153 * mp + 2) / 5 + 1 in
  let m := if mp <? 10 then mp + 3 else mp - 9 in
  (if m <=? 2 then yoe + era * 400 + 1 else yoe + era * 400, m, d).

Definition digit_char (n : Z) : ascii := ascii_of_nat (Z.to_nat (48 + n mod 10)).

Definition two_digits (n : Z) : string :=
  String (digit_char (n / 10)) (String (digit_char n) "").

(** [strftime("%Y-%m-%d")] of a timestamp. *)
Definition strftime (t : Z) : string :=
  let '(y, m, d) := civil_from_days (t / 86400000000000) in
  two_digits (y / 100) +:+ two_digits y +:+ "-" +:+ two_digits m +:+ "-" +:+ two_digits d.

(** The clock: 2024-03-10, 12:00. *)
Definition now : Z := timedelta_days 19792 + 43200000000000.

(** A remote side that answers each dataset with status 200 and the
    records the table has for its id, none when the id is not listed. *)
Definition serving (table : list (string * string * list record)) : network :=
  fun _ url _ =>
    Response 200
      (JsonOk (match list_find (fun e => dataset_url e.1.1 e.1.2 = url) table with
               | Some (_, e) => e.2
               | None => []
               end)).

(** Every series has one reading, except the solar one, whose fetch comes
    back empty. *)
Definition no_solar : network :=
  serving [ ("gamyba", "101", [SampleRaw.rec "2024-03-01" 1]);
            ("gamyba", "103", [SampleRaw.rec "2024-03-01" 3]);
            ("gamyba", "104", [SampleRaw.rec "2024-03-01" 4]);
            ("gamyba", "105", [SampleRaw.rec "2024-03-01" 5]);
            ("gamyba", "106", [SampleRaw.rec "2024-03-01" 6]);
            ("vartojimas", "203", [SampleRaw.rec "2024-03-01" 20]) ].

(** Exactly two series: solar on days 1 and 3, consumption on days 1, 2
    and 3. *)
Definition two_series : network :=
  serving [ ("gamyba", "102", [SampleRaw.rec "2024-03-01" 10; SampleRaw.rec "2024-03-03" 30]);
            ("vartojimas", "203", [SampleRaw.rec "2024-03-01" 5; SampleRaw.rec "2024-03-02" 6;
                                   SampleRaw.rec "2024-03-03" 7]) ].

(** The same two series, the five other sources reporting 0 on day 1. *)
Definition seven_series : network :=
  serving [ ("gamyba", "101", [SampleRaw.rec "2024-03-01" 0]);
            ("gamyba", "102", [SampleRaw.rec "2024-03-01" 10; SampleRaw.rec "2024-03-03" 30]);
            ("gamyba", "103", [SampleRaw.rec "2024-03-01" 0]);
            ("gamyba", "104", [SampleRaw.rec "2024-03-01" 0]);
            ("gamyba", "105", [SampleRaw.rec "2024-03-01" 0]);
            ("gamyba", "106", [SampleRaw.rec "2024-03-01" 0]);
            ("vartojimas", "203", [SampleRaw.rec "2024-03-01" 5; SampleRaw.rec "2024-03-02" 6;
                                   SampleRaw.rec "2024-03-03" 7]) ].

End Scenario.

(** ** Reading the trace *)

(** The data an attempt hands back: only a response with status exactly 200
    whose body decodes is accepted. *)
Definition accepted (o : outcome) : option (list record) :=
  match o with
  | Response status_code (JsonOk data) => if status_code =? 200 then Some data else None
  | _ => None
  end.

(** Seconds slept over a trace. *)
Definition slept (w : World) : Z :=
  foldr (fun e acc => match e with Sleep seconds => seconds + acc | _ => acc end) 0 w.

(** The events one call of [fetch_dataset] may add to the trace. *)
Definition fetch_event (url : string) (params : list (string * string)) (e : event) : Prop :=
  e = Get url params 120 false \/ (exists m, e = Print m) \/ e = Sleep 5.

(** A fetch result from which no frame is built: nothing was accepted, the
    list is empty, or no record has one of the two fields. *)
Definition unusable (o : outcome) : Prop :=
  match accepted o with
  | None => True
  | Some data => data = [] \/ has_field "ltu" data && has_field "value" data = false
  end.

Module SampleNet2.

(** A remote side that answers every request with status 204 and a
    decodable body. *)
Definition no_content : network :=
  fun _ _ _ => Response 204 (JsonOk [SampleRaw.rec "2024-03-01" 1]).

(** A remote side that fails twice and then answers 200. *)
Definition third_time : network :=
  fun n _ _ =>
    if (n <? 2)%nat then Raised "timeout"
    else Response 200 (JsonOk [SampleRaw.rec "2024-03-01" 1]).

(** A remote side whose records have no [value] field. *)
Definition wrong_shape : network :=
  fun _ _ _ => Response 200 (JsonOk [ {[ "ltu" := JStr "2024-03-01"; "kiekis" := JNum 1 ]} ]).

End SampleNet2.

(** ** Reading the processed table *)

(** The columns of a table after the two derived columns are assigned. *)
Definition processed_columns (cols : list string) : list string :=
  let cols := if bool_decide ("Sumine_Generacija" ∈ cols) then cols
              else cols ++ ["Sumine_Generacija"] in
  if bool_decide ("Disbalansas" ∈ cols) then cols else cols ++ ["Disbalansas"].

Section Trimmed.

Variable parse_datetime : string -> option Z.

(** Rows as the trim leaves them: the date cell is present and parsed, and
    every row passes the cutoff of the rows' own maximum. *)
Definition trimmed (date_col : string) (rs : list Row) : Prop :=
  (forall r, r ∈ rs ->
     exists x, cells r !! date_col = Some x /\ to_datetime_coerce parse_datetime x = x) /\
  (forall m,
     series_max (map (fun r => to_datetime_coerce parse_datetime (get_cell r date_col)) rs)
     = Some m ->
     forall r, r ∈ rs ->
       ge_cutoff (m - timedelta_days SIX_MONTH_DAYS) (get_cell r date_col) = true).

End Trimmed.

(** ** Analysis: hydro activity and the hour of the week *)

(** [x > 0] on one value of a numeric column: a missing value compares
    false, a value that is not a number raises. *)
Definition gt_zero (c : cell) : result bool :=
  match c with
  | Num v => Ok (0 <? v)
  | NA => Ok false
  | _ => Raise TypeError
  end.

(** [s.shift(1).fillna(False)] on a boolean column: every value moves one
    row down, the first row gets [False], the last value drops out. *)
Definition shift_fill_false (s : list bool) : list bool :=
  take (length s) (false :: s).

(** [~s] on the shifted and filled column, as the [&] of line 239 reads it.
    [shift(1)] leaves a column of dtype object.  Where [fillna(False)] casts
    it back to booleans ([downcast], pandas before 3), [~] is the negation.
    Where it stays of dtype object (pandas 3) [~] is the integer complement,
    -2 for [True] and -1 for [False], and [&] reads both as true. *)
Definition invert (downcast : bool) (p : bool) : bool :=
  if downcast then negb p else true.

(** [df["hidro_active"] & (~df["hidro_active"].shift(1).fillna(False))] *)
Definition hidro_start (downcast : bool) (hidro_active : list bool) : list bool :=
  zip_with (fun a p => a && invert downcast p) hidro_active (shift_fill_false hidro_active).

(** [int(s.sum())] of a boolean column. *)
Definition count_true (s : list bool) : Z :=
  Z.of_nat (length (List.filter (fun b => b) s)).

Section Analysis.

(** Whether [fillna] casts a filled column of dtype object back to
    booleans: the installed pandas decides, the script pins no version. *)
Variable downcast : bool.
Variable parse_datetime : string -> option Z.

(** Lines 236-242 of [perform_analysis], on a non-empty table: the pair
    ([total_starts], [total_hours]). *)
Definition hidro_statistics (df : DataFrame) : result (Z * Z) :=
  let df := _limit_to_last_6_months parse_datetime df "data" in
  rbind (require_columns df ["Hidro"]) (fun _ =>
  rbind (rmapM gt_zero (column df "Hidro")) (fun hidro_active =>
  let total_starts := count_true (hidro_start downcast hidro_active) in
  let total_hours := count_true hidro_active in
  Ok (total_starts, total_hours))).

End Analysis.

(** [dt.dayofweek] (Monday is 0; 1970-01-01 was a Thursday) and [dt.hour]
    of a timestamp. *)
Definition dayofweek (t : Z) : Z := (t / 86400000000000 + 3) mod 7.

Definition hour (t : Z) : Z := (t / 3600000000000) mod 24.

(** Line 248: [dt.dayofweek * 24 + dt.hour]. *)
Definition hour_of_week (t : Z) : Z := dayofweek t * 24 + hour t.

(** The starts of a boolean column read row by row, [prev] being the value
    of the row before. *)
Fixpoint starts_from (prev : bool) (s : list bool) : list bool :=
  match s with
  | [] => []
  | a :: tl => (a && negb prev) :: starts_from a tl
  end.

Module SampleHydro.

(** Hydro readings of eight hours: two runs of activity. *)
Definition df_hydro : DataFrame :=
  mkDF ["data"; "Hidro"]
       [ Sample.row 0 [("data", SampleTable.day 1); ("Hidro", Num 0)];
         Sample.row 1 [("data", SampleTable.day 2); ("Hidro", Num 5)];
         Sample.row 2 [("data", SampleTable.day 3); ("Hidro", Num 7)];
         Sample.row 3 [("data", SampleTable.day 4); ("Hidro", NA)];
         Sample.row 4 [("data", SampleTable.day 5); ("Hidro", Num 0)];
         Sample.row 5 [("data", SampleTable.day 6); ("Hidro", Num 2)];
         Sample.row 6 [("data", SampleTable.day 7); ("Hidro", Num 2)];
         Sample.row 7 [("data", SampleTable.day 8); ("Hidro", Num 1)] ].

End SampleHydro.

(** ** Visualisation: the monthly pie charts *)

(** [dt.to_period("M")] of a datetime value, as months since January 1970;
    [None] for NaT. *)
Definition to_period_M (c : cell) : option Z :=
  match ts_of c with
  | Some t =>
      let '(y, m, _) := Scenario.civil_from_days (t / 86400000000000) in
      Some ((y - 1970) * 12 + (m - 1))
  | None => None
  end.

(** [==] on periods: NaT is equal to nothing, itself included. *)
Definition period_eqb (a b : option Z) : bool :=
  match a, b with
  | Some x, Some y => x =? y
  | _, _ => false
  end.

(** [Series.unique()]: the values in order of first appearance. *)
Definition unique (l : list (option Z)) : list (option Z) :=
  map fst (drop_duplicates (map (fun k => (k, tt)) l)).

(** [df[df["month"] == month]] *)
Definition month_data (df : DataFrame) (month : option Z) : DataFrame :=
  select df (map (fun c => period_eqb (to_period_M c) month) (column df "data")).

(** The entry of [month_data[sources].sum()] for one source. *)
Definition monthly_sum (df : DataFrame) (month : option Z) (s : string) : result Z :=
  sum_cells (column (month_data df month) s).

(** [month_data[sources].sum()], as (source, sum) pairs. *)
Definition monthly_sums (df : DataFrame) (month : option Z) : result (list (string * Z)) :=
  rbind (require_columns (month_data df month) sources) (fun _ =>
  rmapM (fun s => rbind (monthly_sum df month s) (fun v => Ok (s, v))) sources).

Section Pies.

Variable parse_datetime : string -> option Z.

(** Lines 204-218 of [create_visualizations], from the trimmed table on:
    the charts that are saved, each with its month and its slices. *)
Definition pie_charts (df : DataFrame) : result (list (option Z * list (string * Z))) :=
  let df := _limit_to_last_6_months parse_datetime df "data" in
  rbind (require_columns df ["data"]) (fun _ =>
  rbind (rmapM (fun month =>
                  rbind (monthly_sums df month) (fun sums =>
                  Ok (month, List.filter (fun p => 0 <? p.2) sums)))
               (unique (map to_period_M (column df "data"))))
        (fun charts => Ok (List.filter (fun ch => negb (bool_decide (ch.2 = []))) charts))).

End Pies.

(** The rows of a table that carry a date. *)
Definition dated (r : Row) : bool :=
  match to_period_M (get_cell r "data") with Some _ => true | None => false end.

Module SampleMonths.

(** Readings of two months, one row without a date. *)
Definition df_months : DataFrame :=
  mkDF ["data"; "Kaupimo"; "Saules"; "Kitu"; "Siluminiu"; "Hidro"; "Vejo"]
       [ Sample.row 0 [("data", SampleTable.day 19783); ("Kaupimo", Num 0); ("Saules", Num 4);
                       ("Kitu", Num 1); ("Siluminiu", Num 0); ("Hidro", NA); ("Vejo", Num 2)];
         Sample.row 1 [("data", SampleTable.day 19784); ("Kaupimo", Num 0); ("Saules", Num 6);
                       ("Kitu", Num 1); ("Siluminiu", Num 0); ("Hidro", Num 3); ("Vejo", NA)];
         Sample.row 2 [("data", SampleTable.day 19815); ("Kaupimo", Num 0); ("Saules", Num 9);
                       ("Kitu", Num (-1)); ("Siluminiu", Num 0); ("Hidro", Num 0);
                       ("Vejo", Num 5)];
         Sample.row 3 [("data", NA); ("Kaupimo", Num 0); ("Saules", Num 100);
                       ("Kitu", Num 0); ("Siluminiu", Num 0); ("Hidro", Num 0);
                       ("Vejo", Num 0)] ].

End SampleMonths.

(** * Properties *)

(** Case analysis on membership in an explicit list. *)
Ltac list_cases H :=
  apply list_elem_of_In in H; simpl in H;
  repeat (destruct H as [H|H]; [symmetry in H; subst|]);
  try (exfalso; exact H).

(** ** Rows, columns and masks *)

Lemma get_set_same (r : Row) (c : string) (v : cell) :
  get_cell (set_cell r c v) c = v.
Proof. unfold get_cell, set_cell; simpl. by rewrite lookup_insert_eq. Qed.

Lemma get_set_other (r : Row) (c c' : string) (v : cell) :
  c <> c' -> get_cell (set_cell r c v) c' = get_cell r c'.
Proof. intros H. unfold get_cell, set_cell; simpl. by rewrite lookup_insert_ne. Qed.

Lemma set_set (r : Row) (c : string) (v v' : cell) :
  set_cell (set_cell r c v) c v' = set_cell r c v'.
Proof. unfold set_cell; simpl. by rewrite insert_insert_eq. Qed.

Lemma label_set (r : Row) (c : string) (v : cell) : label (set_cell r c v) = label r.
Proof. reflexivity. Qed.

Lemma zip_with_map_r {A B C : Type} (f : A -> B -> C) (g : A -> B) (l : list A) :
  zip_with f l (map g l) = map (fun a => f a (g a)) l.
Proof. induction l as [|a l IH]; simpl; [done | by rewrite IH]. Qed.

Lemma rows_assign_map (df : DataFrame) (c : string) (f : cell -> cell) :
  rows (assign df c (map f (column df c)))
  = map (fun r => set_cell r c (f (get_cell r c))) (rows df).
Proof.
  unfold assign, column; simpl.
  rewrite map_map. apply (zip_with_map_r (fun r v => set_cell r c v)).
Qed.

Lemma filter_zip_map {A : Type} (p : A -> bool) (l : list A) :
  map fst (List.filter snd (zip l (map p l))) = List.filter p l.
Proof.
  induction l as [|a l IH]; simpl; [done|].
  destruct (p a); simpl; by rewrite IH.
Qed.

Lemma rows_select_map (df : DataFrame) (c : string) (p : cell -> bool) :
  rows (select df (map p (column df c)))
  = List.filter (fun r => p (get_cell r c)) (rows df).
Proof.
  unfold select, column; simpl.
  rewrite map_map. apply (filter_zip_map (fun r => p (get_cell r c))).
Qed.

Lemma filter_map_comm {A B : Type} (p : B -> bool) (f : A -> B) (l : list A) :
  List.filter p (map f l) = map f (List.filter (fun a => p (f a)) l).
Proof.
  induction l as [|a l IH]; simpl; [done|].
  destruct (p (f a)); simpl; by rewrite IH.
Qed.

Lemma filter_ext_elem {A : Type} (p q : A -> bool) (l : list A) :
  (forall a, a ∈ l -> p a = q a) -> List.filter p l = List.filter q l.
Proof.
  induction l as [|a l IH]; intros H; simpl; [done|].
  rewrite (H a) by apply list_elem_of_here.
  rewrite IH; [done|]. intros b Hb. apply H. by apply list_elem_of_further.
Qed.

Lemma filter_all {A : Type} (p : A -> bool) (l : list A) :
  (forall a, a ∈ l -> p a = true) -> List.filter p l = l.
Proof.
  induction l as [|a l IH]; intros H; simpl; [done|].
  rewrite (H a) by apply list_elem_of_here.
  f_equal. apply IH. intros b Hb. apply H. by apply list_elem_of_further.
Qed.

(** ** The maximum of a datetime column *)

Lemma series_max_none (col : list cell) :
  series_max col = None <-> (forall c, c ∈ col -> ts_of c = None).
Proof.
  induction col as [|c col IH]; simpl.
  - split; [|done]. intros _ c H. by apply elem_of_nil in H.
  - split.
    + intros H c' Hc'. destruct (ts_of c) eqn:E.
      * destruct (series_max col); discriminate.
      * apply elem_of_cons in Hc' as [->|Hc']; [done|]. by apply IH.
    + intros H. rewrite (H c) by apply list_elem_of_here.
      apply IH. intros c' Hc'. apply H. by apply list_elem_of_further.
Qed.

Lemma series_max_some (col : list cell) (m : Z) :
  series_max col = Some m ->
  (exists c, c ∈ col /\ ts_of c = Some m) /\
  (forall c t, c ∈ col -> ts_of c = Some t -> t <= m).
Proof.
  revert m. induction col as [|c col IH]; simpl; intros m H; [discriminate|].
  destruct (ts_of c) as [t|] eqn:E.
  - destruct (series_max col) as [m'|] eqn:E'.
    + injection H as <-. destruct (IH m' eq_refl) as [[c0 [Hin Hc0]] Hle].
      split.
      * destruct (Z.max_spec t m') as [[_ ->]|[_ ->]].
        -- exists c0. split; [by apply list_elem_of_further | done].
        -- exists c. split; [apply list_elem_of_here | done].
      * intros c1 t1 Hin1 Ht1. apply elem_of_cons in Hin1 as [->|Hin1].
        -- rewrite E in Ht1. injection Ht1 as <-. lia.
        -- specialize (Hle c1 t1 Hin1 Ht1). lia.
    + injection H as <-. split.
      * exists c. split; [apply list_elem_of_here | done].
      * intros c1 t1 Hin1 Ht1. apply elem_of_cons in Hin1 as [->|Hin1].
        -- rewrite E in Ht1. injection Ht1 as <-. lia.
        -- apply series_max_none with (c := c1) in E'; [congruence | done].
  - destruct (IH m H) as [[c0 [Hin Hc0]] Hle]. split.
    + exists c0. split; [by apply list_elem_of_further | done].
    + intros c1 t1 Hin1 Ht1. apply elem_of_cons in Hin1 as [->|Hin1]; [congruence|].
      by apply (Hle c1 t1).
Qed.

Lemma series_max_intro (col : list cell) (m : Z) :
  (exists c, c ∈ col /\ ts_of c = Some m) ->
  (forall c t, c ∈ col -> ts_of c = Some t -> t <= m) ->
  series_max col = Some m.
Proof.
  intros [c [Hin Hc]] Hle.
  destruct (series_max col) as [m'|] eqn:E.
  - destruct (series_max_some col m' E) as [[c' [Hin' Hc']] Hle'].
    specialize (Hle c' m' Hin' Hc'). specialize (Hle' c m Hin Hc).
    f_equal. lia.
  - apply series_max_none with (c := c) in E; [congruence | done].
Qed.

Lemma df_eq (a b : DataFrame) : columns a = columns b -> rows a = rows b -> a = b.
Proof. destruct a, b; simpl. by intros -> ->. Qed.

Lemma elem_of_filter {A : Type} (p : A -> bool) (l : list A) (a : A) :
  a ∈ List.filter p l <-> a ∈ l /\ p a = true.
Proof. rewrite !list_elem_of_In. apply List.filter_In. Qed.

(** ** The rolling-window trim *)

Section TrimFacts.

Variable parse_datetime : string -> option Z.

Local Abbreviation coerce := (to_datetime_coerce parse_datetime).
Local Abbreviation limit := (_limit_to_last_6_months parse_datetime).
Local Abbreviation prow := (parse_row parse_datetime).

Lemma coerce_idem (c : cell) : coerce (coerce c) = coerce c.
Proof. destruct c as [s|t|v|]; simpl; try done. by destruct (parse_datetime s). Qed.

Lemma get_parse_row (c : string) (r : Row) :
  get_cell (prow c r) c = coerce (get_cell r c).
Proof. apply get_set_same. Qed.

Lemma parse_row_idem (c : string) (r : Row) : prow c (prow c r) = prow c r.
Proof.
  unfold parse_row at 1. rewrite get_parse_row, coerce_idem.
  unfold parse_row. apply set_set.
Qed.

Lemma timestamp_parse_row (c : string) (r : Row) :
  timestamp parse_datetime c (prow c r) = timestamp parse_datetime c r.
Proof. unfold timestamp. by rewrite get_parse_row, coerce_idem. Qed.

Lemma column_parsed (df : DataFrame) (c : string) :
  column (assign df c (map coerce (column df c))) c = map coerce (column df c).
Proof.
  unfold column at 1. rewrite rows_assign_map, map_map.
  unfold column. rewrite map_map. apply map_ext. intros r. apply get_set_same.
Qed.

(** The trim of a non-empty table that has the date column, row by row. *)
Lemma limit_unfold (df : DataFrame) (c : string) :
  df_empty df = false -> has_column df c = true ->
  limit df c =
    match series_max (map coerce (column df c)) with
    | None => mkDF (columns df) (map (prow c) (rows df))
    | Some max_dt =>
        mkDF (columns df)
             (List.filter (fun r => ge_cutoff (max_dt - timedelta_days SIX_MONTH_DAYS)
                                              (get_cell r c))
                          (map (prow c) (rows df)))
    end.
Proof.
  intros He Hc. unfold _limit_to_last_6_months. rewrite He, Hc. simpl.
  remember (assign df c (map coerce (column df c))) as df1 eqn:Hdf1.
  assert (Hcol : column df1 c = map coerce (column df c))
    by (subst df1; apply column_parsed).
  assert (Hcols : columns df1 = columns df)
    by (subst df1; simpl; by rewrite Hc).
  assert (Hrows : rows df1 = map (prow c) (rows df))
    by (subst df1; apply rows_assign_map).
  rewrite <- Hcol.
  destruct (series_max (column df1 c)) as [m|].
  - apply df_eq; [simpl; done|].
    by rewrite (rows_select_map df1 c (ge_cutoff _)), Hrows.
  - by apply df_eq.
Qed.

Lemma limit_noop (df : DataFrame) (c : string) :
  df_empty df = true \/ has_column df c = false -> limit df c = df.
Proof.
  intros H. unfold _limit_to_last_6_months.
  destruct H as [-> | ->]; [done|]. by rewrite orb_true_r.
Qed.

Lemma max_timestamp_series_max (df : DataFrame) (c : string) (T : Z) :
  max_timestamp parse_datetime df c T <->
  series_max (map coerce (column df c)) = Some T.
Proof.
  unfold max_timestamp, timestamp, column. rewrite map_map. split.
  - intros [[r [Hin Hr]] Hle]. apply series_max_intro.
    + exists (coerce (get_cell r c)). split; [|done].
      apply list_elem_of_fmap. by exists r.
    + intros c0 t Hc0 Ht. apply list_elem_of_fmap in Hc0 as [r0 [-> Hr0]].
      by apply (Hle r0).
  - intros H. apply series_max_some in H as [[c0 [Hin Hc0]] Hle]. split.
    + apply list_elem_of_fmap in Hin as [r0 [-> Hr0]]. by exists r0.
    + intros r t Hr Ht. apply (Hle (coerce (get_cell r c))); [|done].
      apply list_elem_of_fmap. by exists r.
Qed.

Lemma timedelta_days_nonneg : 0 <= timedelta_days SIX_MONTH_DAYS.
Proof. unfold timedelta_days, SIX_MONTH_DAYS. lia. Qed.

(** Under a maximum [T], the cutoff test is the window test. *)
Lemma ge_cutoff_in_window (df : DataFrame) (c : string) (T : Z) (r : Row) :
  max_timestamp parse_datetime df c T -> r ∈ rows df ->
  ge_cutoff (T - timedelta_days SIX_MONTH_DAYS) (get_cell (prow c r) c)
  = in_window parse_datetime T c r.
Proof.
  intros [_ Hle] Hr. unfold ge_cutoff, in_window. rewrite get_parse_row.
  fold (timestamp parse_datetime c r).
  destruct (timestamp parse_datetime c r) as [t|] eqn:E; [|done].
  specialize (Hle r t Hr E). unfold SIX_MONTH_DAYS, timedelta_days.
  replace (182 * 86400000000000) with (182 * 86400 * 1000000000) by lia.
  destruct (T - 182 * 86400 * 1000000000 <=? t); simpl; [|done].
  symmetry. by apply Z.leb_le.
Qed.

End TrimFacts.

Example parse_iso_epoch : Sample.parse_iso "1970-01-02" = Some 86400000000000.
Proof. reflexivity. Qed.

Example parse_iso_2024 : Sample.parse_iso "2024-09-01" = Some Sample.T_dates.
Proof. reflexivity. Qed.

Example parse_iso_bad : Sample.parse_iso "n/a" = None.
Proof. reflexivity. Qed.

Example limit_df_dates :
  map label (rows (_limit_to_last_6_months Sample.parse_iso Sample.df_dates "data"))
  = [2; 4; 5].
Proof. vm_compute. reflexivity. Qed.

Lemma has_column_true (df : DataFrame) (c : string) :
  has_column df c = true <-> c ∈ columns df.
Proof. unfold has_column. apply bool_decide_eq_true. Qed.

Lemma has_column_false (df : DataFrame) (c : string) :
  has_column df c = false <-> c ∉ columns df.
Proof. unfold has_column. apply bool_decide_eq_false. Qed.

Lemma df_empty_false (df : DataFrame) (c : string) (r : Row) :
  c ∈ columns df -> r ∈ rows df -> df_empty df = false.
Proof.
  unfold df_empty. intros Hc Hr.
  destruct (columns df); [by apply elem_of_nil in Hc|].
  destruct (rows df); [by apply elem_of_nil in Hr | done].
Qed.

(** C3. On a table that has the date column, holds strings, datetimes or
    missing values in it (no numbers) and whose greatest timestamp is [T],
    with [T] minus 182 days not below the least timestamp, the trim keeps
    the columns and retains exactly the rows whose timestamp lies in the
    closed window from [T] minus 182 days to [T] (their date value parsed);
    on an empty table, or one without the date column, it returns its
    input. *)
Theorem limit_to_last_6_months_window
    (parse_datetime : string -> option Z) (df : DataFrame) (date_col : string) :
  (df_empty df = true \/ date_col ∉ columns df ->
     _limit_to_last_6_months parse_datetime df date_col = df) /\
  (forall T : Z,
     date_col ∈ columns df ->
     no_numeric_dates df date_col ->
     max_timestamp parse_datetime df date_col T ->
     Timestamp_min <= T - 182 * 86400 * 1000000000 ->
     columns (_limit_to_last_6_months parse_datetime df date_col) = columns df /\
     rows (_limit_to_last_6_months parse_datetime df date_col)
     = map (parse_row parse_datetime date_col)
           (List.filter (in_window parse_datetime T date_col) (rows df))).
Proof.
  split.
  - intros H. apply limit_noop. destruct H as [H|H]; [by left|right].
    by apply has_column_false.
  - intros T Hc _ HT _.
    assert (He : df_empty df = false).
    { destruct HT as [[r [Hr _]] _]. by apply (df_empty_false df date_col r). }
    rewrite limit_unfold by (done || by apply has_column_true).
    pose proof HT as Hmax. apply max_timestamp_series_max in Hmax. rewrite Hmax.
    split; [done|]. simpl.
    rewrite filter_map_comm. f_equal.
    apply filter_ext_elem. intros r Hr. by apply ge_cutoff_in_window with (df := df).
Qed.

(** The window on the sample table, whose dates are strings: the rows of
    2024-03-03, 2024-09-01 and 2024-06-15 stay; the two guarded cases return
    their input. *)
Lemma limit_to_last_6_months_window_witness :
  map label (rows (_limit_to_last_6_months Sample.parse_iso Sample.df_dates "data"))
  = [2; 4; 5] /\
  _limit_to_last_6_months Sample.parse_iso Sample.df_no_rows "data" = Sample.df_no_rows /\
  _limit_to_last_6_months Sample.parse_iso Sample.df_no_date "data" = Sample.df_no_date.
Proof.
  split; [|split].
  - destruct (limit_to_last_6_months_window Sample.parse_iso Sample.df_dates "data")
      as [_ H].
    destruct (H Sample.T_dates) as [_ Hrows].
    + apply list_elem_of_here.
    + intros r v Hr. list_cases Hr; vm_compute; discriminate.
    + apply max_timestamp_series_max. vm_compute. reflexivity.
    + unfold Timestamp_min, Sample.T_dates, timedelta_days. lia.
    + rewrite Hrows. vm_compute. reflexivity.
  - apply (limit_to_last_6_months_window Sample.parse_iso Sample.df_no_rows "data").
    left. reflexivity.
  - apply (limit_to_last_6_months_window Sample.parse_iso Sample.df_no_date "data").
    right. intros H. apply list_elem_of_In in H. simpl in H.
    destruct H as [H|[]]. discriminate H.
Defined.

(** C9. The trim is idempotent: trimming its own output returns that
    output. *)
Theorem limit_to_last_6_months_idempotent
    (parse_datetime : string -> option Z) (df : DataFrame) (date_col : string) :
  _limit_to_last_6_months parse_datetime
    (_limit_to_last_6_months parse_datetime df date_col) date_col
  = _limit_to_last_6_months parse_datetime df date_col.
Proof.
  destruct (df_empty df) eqn:He.
  { assert (H : _limit_to_last_6_months parse_datetime df date_col = df)
      by (apply limit_noop; by left).
    by rewrite !H. }
  destruct (has_column df date_col) eqn:Hc; cycle 1.
  { assert (H : _limit_to_last_6_months parse_datetime df date_col = df)
      by (apply limit_noop; by right).
    by rewrite !H. }
  set (out := _limit_to_last_6_months parse_datetime df date_col).
  destruct (df_empty out) eqn:Heo; [by apply limit_noop; left|].
  assert (Hout := limit_unfold parse_datetime df date_col He Hc). fold out in Hout.
  assert (Hco : has_column out date_col = true).
  { rewrite Hout. destruct (series_max _); simpl; exact Hc. }
  rewrite (limit_unfold parse_datetime out date_col Heo Hco).
  destruct (series_max (map (to_datetime_coerce parse_datetime) (column df date_col)))
    as [m|] eqn:Em.
  - (* some date parsed: the maximum survives the trim *)
    set (p := fun r : Row =>
                ge_cutoff (m - timedelta_days SIX_MONTH_DAYS) (get_cell r date_col)) in *.
    assert (Hrows : rows out
                    = List.filter p (map (parse_row parse_datetime date_col) (rows df)))
      by (by rewrite Hout).
    assert (Hcols : columns out = columns df) by (by rewrite Hout).
    assert (Hfix : map (parse_row parse_datetime date_col) (rows out) = rows out).
    { rewrite Hrows, filter_map_comm, map_map. apply map_ext.
      intros r. apply parse_row_idem. }
    assert (Hmax : series_max (map (to_datetime_coerce parse_datetime) (column out date_col))
                   = Some m).
    { apply series_max_some in Em as [[c0 [Hin0 Hc0]] Hle].
      apply list_elem_of_fmap in Hin0 as [c1 [-> Hin1]].
      apply list_elem_of_fmap in Hin1 as [r1 [-> Hr1]].
      apply series_max_intro.
      - exists (to_datetime_coerce parse_datetime (get_cell r1 date_col)).
        split; [|done].
        apply list_elem_of_fmap.
        exists (get_cell (parse_row parse_datetime date_col r1) date_col).
        split; [by rewrite get_parse_row, coerce_idem|].
        apply list_elem_of_fmap. exists (parse_row parse_datetime date_col r1).
        split; [done|]. rewrite Hrows. apply elem_of_filter. split.
        + apply list_elem_of_fmap. by exists r1.
        + unfold p, ge_cutoff. rewrite get_parse_row, Hc0.
          apply Z.leb_le. pose proof timedelta_days_nonneg. lia.
      - intros c t Hin Ht.
        apply list_elem_of_fmap in Hin as [c2 [-> Hin2]].
        apply list_elem_of_fmap in Hin2 as [r2 [-> Hr2]].
        rewrite Hrows in Hr2. apply elem_of_filter in Hr2 as [Hr2 _].
        apply list_elem_of_fmap in Hr2 as [r3 [-> Hr3]].
        rewrite get_parse_row, coerce_idem in Ht.
        apply (Hle (to_datetime_coerce parse_datetime (get_cell r3 date_col))); [|done].
        apply list_elem_of_fmap. exists (get_cell r3 date_col). split; [done|].
        apply list_elem_of_fmap. by exists r3. }
    rewrite Hmax, Hfix. fold p. apply df_eq; simpl; [done|].
    apply filter_all. intros r Hr. rewrite Hrows in Hr.
    by apply elem_of_filter in Hr as [_ Hr].
  - (* no date parsed: the parsed copy is a fixed point *)
    assert (Hrows : rows out = map (parse_row parse_datetime date_col) (rows df))
      by (by rewrite Hout).
    assert (Hcols : columns out = columns df) by (by rewrite Hout).
    assert (Hmax : series_max (map (to_datetime_coerce parse_datetime) (column out date_col))
                   = None).
    { unfold column. rewrite Hrows, !map_map.
      unfold column in Em. rewrite map_map in Em.
      rewrite <- Em. f_equal. apply map_ext. intros r.
      by rewrite get_parse_row, coerce_idem. }
    rewrite Hmax. apply df_eq; simpl; [done|].
    rewrite Hrows, map_map. apply map_ext. intros r. apply parse_row_idem.
Qed.

(** C10, as stated, fails: when every date of [Sample.df_unparseable] fails
    to parse, the trim does not hand back its input; the returned copy has
    its dates replaced by the missing timestamp. *)
Lemma limit_unparseable_changes_input :
  df_empty Sample.df_unparseable = false /\
  has_column Sample.df_unparseable "data" = true /\
  map (timestamp Sample.parse_iso "data") (rows Sample.df_unparseable) = [None; None] /\
  column Sample.df_unparseable "data" = [Str "yesterday"; Str "n/a"] /\
  column (_limit_to_last_6_months Sample.parse_iso Sample.df_unparseable "data") "data"
  = [NA; NA] /\
  _limit_to_last_6_months Sample.parse_iso Sample.df_unparseable "data"
  <> Sample.df_unparseable.
Proof.
  repeat split; try (vm_compute; reflexivity).
  intros H. apply (f_equal (fun d => column d "data")) in H.
  vm_compute in H. discriminate H.
Qed.

(** C10 (amended). On a non-empty table that has the date column the trim
    is defined whatever the date values are. If some date parses, every
    retained row is an input row whose date parsed, so a row with an
    unparseable date is excluded. If no date parses, all rows are
    returned with their date value replaced by the missing timestamp. *)
Theorem limit_to_last_6_months_unparseable
    (parse_datetime : string -> option Z) (df : DataFrame) (date_col : string) :
  df_empty df = false ->
  date_col ∈ columns df ->
  ((exists r0, r0 ∈ rows df /\ timestamp parse_datetime date_col r0 <> None) ->
   forall r, r ∈ rows (_limit_to_last_6_months parse_datetime df date_col) ->
     exists r0 t, r0 ∈ rows df /\
                  timestamp parse_datetime date_col r0 = Some t /\
                  r = parse_row parse_datetime date_col r0 /\
                  get_cell r date_col = Time t) /\
  ((forall r0, r0 ∈ rows df -> timestamp parse_datetime date_col r0 = None) ->
   _limit_to_last_6_months parse_datetime df date_col
   = mkDF (columns df) (map (fun r0 => set_cell r0 date_col NA) (rows df))).
Proof.
  intros He Hc. apply has_column_true in Hc.
  rewrite (limit_unfold parse_datetime df date_col He Hc).
  split.
  - intros [r0 [Hr0 Ht0]].
    destruct (series_max (map (to_datetime_coerce parse_datetime) (column df date_col)))
      as [m|] eqn:Em.
    + simpl. intros r Hr. apply elem_of_filter in Hr as [Hr Hge].
      apply list_elem_of_fmap in Hr as [r1 [-> Hr1]].
      unfold ge_cutoff in Hge. rewrite get_parse_row in Hge.
      rewrite get_parse_row.
      destruct (to_datetime_coerce parse_datetime (get_cell r1 date_col)) as [|t| |] eqn:E;
        try discriminate Hge.
      exists r1, t. unfold timestamp. rewrite E. done.
    + exfalso. apply Ht0.
      apply series_max_none with (c := to_datetime_coerce parse_datetime (get_cell r0 date_col))
        in Em; [done|].
      apply list_elem_of_fmap. exists (get_cell r0 date_col). split; [done|].
      apply list_elem_of_fmap. by exists r0.
  - intros Hall.
    assert (Em : series_max (map (to_datetime_coerce parse_datetime) (column df date_col))
                 = None).
    { apply series_max_none. intros c Hin.
      apply list_elem_of_fmap in Hin as [c1 [-> Hin1]].
      apply list_elem_of_fmap in Hin1 as [r1 [-> Hr1]].
      by apply Hall. }
    rewrite Em. f_equal. apply map_ext_in. intros r Hr. apply list_elem_of_In in Hr.
    unfold parse_row. f_equal.
    specialize (Hall r Hr). unfold timestamp in Hall.
    destruct (get_cell r date_col) as [s|t|v|]; simpl in *; try done.
    by destruct (parse_datetime s).
Qed.

(** Both cases of the statement on the sample tables. *)
Lemma limit_to_last_6_months_unparseable_witness :
  (forall r, r ∈ rows (_limit_to_last_6_months Sample.parse_iso Sample.df_dates "data") ->
     exists r0 t, r0 ∈ rows Sample.df_dates /\
                  timestamp Sample.parse_iso "data" r0 = Some t /\
                  r = parse_row Sample.parse_iso "data" r0 /\
                  get_cell r "data" = Time t) /\
  _limit_to_last_6_months Sample.parse_iso Sample.df_unparseable "data"
  = mkDF (columns Sample.df_unparseable)
         (map (fun r0 => set_cell r0 "data" NA) (rows Sample.df_unparseable)).
Proof.
  split.
  - apply (limit_to_last_6_months_unparseable Sample.parse_iso Sample.df_dates "data").
    + reflexivity.
    + apply list_elem_of_here.
    + exists (Sample.row 0 [("data", Str "2024-01-01"); ("Saules", Num 1)]).
      split; [apply list_elem_of_here | vm_compute; discriminate].
  - apply (limit_to_last_6_months_unparseable Sample.parse_iso Sample.df_unparseable "data").
    + reflexivity.
    + apply list_elem_of_here.
    + intros r0 Hr0. apply list_elem_of_In in Hr0. simpl in Hr0.
      destruct Hr0 as [<-|[<-|[]]]; vm_compute; reflexivity.
Defined.

(** ** The retrying fetcher *)

Lemma gets_app (w w' : World) : gets (w ++ w') = (gets w + gets w')%nat.
Proof. unfold gets. by rewrite List.filter_app, length_app. Qed.

Section FetchFacts.

Variable net : network.

(** One failed attempt issues the request, prints one line, sleeps five
    seconds and goes on with the attempts left. *)
Lemma attempts_failed_step (url : string) (params : list (string * string))
    (attempt : nat) (range : list nat) (w : World) :
  failed_attempt (net (gets w) url params) ->
  exists m,
    attempts net url params (attempt :: range) w
    = attempts net url params range (w ++ [Get url params 120 false; Print m; Sleep 5]).
Proof.
  intros Hf. simpl. unfold bind at 1. unfold requests_get.
  destruct (net (gets w) url params) as [status_code json | e]; simpl in Hf.
  - destruct (status_code =? 200) eqn:E200.
    + apply Z.eqb_eq in E200. destruct Hf as [Hf|[Hf|[e ->]]]; try lia.
      exists (AttemptFailedError (attempt + 1) e).
      unfold bind, print, sleep. by rewrite <- !app_assoc.
    + exists (AttemptFailedStatus (attempt + 1) status_code).
      unfold bind, print, sleep. by rewrite <- !app_assoc.
  - exists (AttemptFailedError (attempt + 1) e).
    unfold bind, print, sleep. by rewrite <- !app_assoc.
Qed.

(** Whatever the remote side does, [fetch_dataset] returns a value. *)
Lemma attempts_returns (url : string) (params : list (string * string))
    (range : list nat) (w : World) :
  exists data w', attempts net url params range w = (Ok data, w').
Proof.
  revert w. induction range as [|attempt range IH]; intros w; simpl.
  - by exists [], w.
  - unfold bind at 1. unfold requests_get.
    destruct (net (gets w) url params) as [status_code json | e].
    + destruct (status_code =? 200); [destruct json as [data | e]|].
      * by eexists _, _.
      * unfold bind, print, sleep. apply IH.
      * unfold bind, print, sleep. apply IH.
    + unfold bind, print, sleep. apply IH.
Qed.

End FetchFacts.

(** C2. When every attempt fails, [fetch_dataset] issues exactly three
    requests, each followed by one printed line and a sleep of five
    seconds, and then returns the empty list; it does not raise. *)
Theorem fetch_dataset_retry_bound
    (net : network) (category dataset_id start_date end_date : string) (w : World) :
  let url := dataset_url category dataset_id in
  let params := dataset_params start_date end_date in
  (forall k : nat, (k < 3)%nat -> failed_attempt (net (gets w + k)%nat url params)) ->
  exists m1 m2 m3,
    fetch_dataset net category dataset_id start_date end_date w
    = (Ok [],
       w ++ [Get url params 120 false; Print m1; Sleep 5;
             Get url params 120 false; Print m2; Sleep 5;
             Get url params 120 false; Print m3; Sleep 5]).
Proof.
  intros url params Hf. unfold fetch_dataset.
  change (seq 0 3) with [0; 1; 2]%nat.
  fold (dataset_url category dataset_id). fold url.
  fold (dataset_params start_date end_date). fold params.
  destruct (attempts_failed_step net url params 0 [1; 2]%nat w) as [m1 H1].
  { specialize (Hf 0%nat). rewrite Nat.add_0_r in Hf. apply Hf. lia. }
  destruct (attempts_failed_step net url params 1 [2]%nat
              (w ++ [Get url params 120 false; Print m1; Sleep 5])) as [m2 H2].
  { rewrite gets_app. apply (Hf 1%nat). lia. }
  destruct (attempts_failed_step net url params 2 []
              ((w ++ [Get url params 120 false; Print m1; Sleep 5])
                 ++ [Get url params 120 false; Print m2; Sleep 5])) as [m3 H3].
  { rewrite !gets_app, <- Nat.add_assoc. apply (Hf 2%nat). lia. }
  exists m1, m2, m3. rewrite H1, H2, H3. simpl. unfold ret.
  by rewrite <- !app_assoc.
Qed.

(** The retry bound against a remote side that always answers 503. *)
Lemma fetch_dataset_retry_bound_witness :
  exists m1 m2 m3,
    fetch_dataset SampleNet.unavailable "gamyba" "101" "2024-01-01" "2024-07-01" []
    = (Ok [],
       [Get (dataset_url "gamyba" "101") (dataset_params "2024-01-01" "2024-07-01") 120 false;
        Print m1; Sleep 5;
        Get (dataset_url "gamyba" "101") (dataset_params "2024-01-01" "2024-07-01") 120 false;
        Print m2; Sleep 5;
        Get (dataset_url "gamyba" "101") (dataset_params "2024-01-01" "2024-07-01") 120 false;
        Print m3; Sleep 5]).
Proof.
  apply (fetch_dataset_retry_bound SampleNet.unavailable
           "gamyba" "101" "2024-01-01" "2024-07-01" []).
  intros k Hk. unfold SampleNet.unavailable, failed_attempt. right. left. lia.
Defined.

Example fetch_dataset_unavailable_trace :
  fetch_dataset SampleNet.unavailable "gamyba" "101" "2024-01-01" "2024-07-01" []
  = (Ok [],
     [Get "https://openapi.litgrid.eu/v1/kategorijos/gamyba/101"
          [("nuo", "2024-01-01"); ("iki", "2024-07-01")] 120 false;
      Print (AttemptFailedStatus 1 503); Sleep 5;
      Get "https://openapi.litgrid.eu/v1/kategorijos/gamyba/101"
          [("nuo", "2024-01-01"); ("iki", "2024-07-01")] 120 false;
      Print (AttemptFailedStatus 2 503); Sleep 5;
      Get "https://openapi.litgrid.eu/v1/kategorijos/gamyba/101"
          [("nuo", "2024-01-01"); ("iki", "2024-07-01")] 120 false;
      Print (AttemptFailedStatus 3 503); Sleep 5]).
Proof. reflexivity. Qed.


(** ** Normalisation: parsing and dropping duplicates *)

Section DropDuplicates.

Context {V : Type}.
Implicit Types (l : list (option Z * V)) (seen : list (option Z)) (k : option Z).

Lemma drop_duplicates_from_keys seen l k :
  k ∈ map fst (drop_duplicates_from seen l) <-> k ∈ map fst l /\ k ∉ seen.
Proof.
  revert seen. induction l as [|e l IH]; intros seen; simpl.
  - split; [intros H; by apply elem_of_nil in H | intros [H _]; by apply elem_of_nil in H].
  - destruct (bool_decide (e.1 ∈ seen)) eqn:E.
    + apply bool_decide_eq_true in E. rewrite IH, elem_of_cons. split.
      * intros [H1 H2]. split; [by right | done].
      * intros [[->|H1] H2]; [done | by split].
    + apply bool_decide_eq_false in E. simpl. rewrite !elem_of_cons, IH, elem_of_cons.
      split.
      * intros [->|[H1 H2]]; [by split; [left|] | split; [by right | tauto]].
      * intros [[->|H1] H2]; [by left|].
        destruct (decide (k = e.1)) as [->|Hne]; [by left | right; tauto].
Qed.

Lemma drop_duplicates_from_NoDup seen l :
  NoDup (map fst (drop_duplicates_from seen l)).
Proof.
  revert seen. induction l as [|e l IH]; intros seen; simpl; [constructor|].
  destruct (bool_decide (e.1 ∈ seen)); [apply IH|].
  simpl. constructor; [|apply IH].
  rewrite drop_duplicates_from_keys. intros [_ H]. apply H. apply list_elem_of_here.
Qed.

Lemma drop_duplicates_from_sublist seen l :
  sublist (drop_duplicates_from seen l) l.
Proof.
  revert seen. induction l as [|e l IH]; intros seen; simpl; [constructor|].
  destruct (bool_decide (e.1 ∈ seen)).
  - apply sublist_cons. apply IH.
  - apply sublist_skip. apply IH.
Qed.

(** The entry kept for a key is the first one the list has for it. *)
Lemma drop_duplicates_from_first seen l k :
  snd <$> list_find (fun e => e.1 = k) (drop_duplicates_from seen l)
  = if bool_decide (k ∈ seen) then None
    else snd <$> list_find (fun e => e.1 = k) l.
Proof.
  revert seen. induction l as [|e l IH]; intros seen; simpl.
  - by destruct (bool_decide (k ∈ seen)).
  - destruct (bool_decide (e.1 ∈ seen)) eqn:E.
    + apply bool_decide_eq_true in E. rewrite IH.
      destruct (bool_decide (k ∈ seen)) eqn:Ek; [done|].
      apply bool_decide_eq_false in Ek.
      destruct (decide (e.1 = k)) as [Heq|Hne]; [congruence|].
      by destruct (list_find (fun e0 => e0.1 = k) l) as [[i x]|].
    + apply bool_decide_eq_false in E. simpl.
      destruct (decide (e.1 = k)) as [Heq|Hne].
      * subst k. by rewrite bool_decide_eq_false_2.
      * rewrite <- option_fmap_compose. simpl.
        change (snd ∘ prod_map S id) with (@snd nat (option Z * V)).
        rewrite IH.
        destruct (bool_decide (k ∈ seen)) eqn:Ek.
        -- apply bool_decide_eq_true in Ek.
           rewrite bool_decide_eq_true_2 by (by apply list_elem_of_further). done.
        -- apply bool_decide_eq_false in Ek.
           rewrite bool_decide_eq_false_2.
           ++ by destruct (list_find (fun e0 => e0.1 = k) l) as [[i x]|].
           ++ intros H. apply elem_of_cons in H as [H|H]; congruence.
Qed.

(** A list whose keys are unique and unseen is left as it is. *)
Lemma drop_duplicates_from_fixed seen l :
  NoDup (map fst l) -> (forall k, k ∈ map fst l -> k ∉ seen) ->
  drop_duplicates_from seen l = l.
Proof.
  revert seen. induction l as [|e l IH]; intros seen Hnd Hseen; simpl; [done|].
  simpl in Hnd. apply NoDup_cons in Hnd as [Hne Hnd].
  rewrite bool_decide_eq_false_2 by (apply Hseen; simpl; apply list_elem_of_here).
  f_equal. apply IH; [done|].
  intros k Hk Hk'. apply elem_of_cons in Hk' as [->|Hk']; [done|].
  apply (Hseen k); [simpl; by apply list_elem_of_further | done].
Qed.

Lemma drop_duplicates_length l :
  length (drop_duplicates l) = length (remove_dups (map fst l)).
Proof.
  rewrite <- (length_map fst (drop_duplicates l)).
  apply Permutation_length. apply NoDup_Permutation.
  - apply drop_duplicates_from_NoDup.
  - apply NoDup_remove_dups.
  - intros k. unfold drop_duplicates. rewrite drop_duplicates_from_keys, elem_of_remove_dups.
    split; [tauto|]. intros H. split; [done|]. apply not_elem_of_nil.
Qed.

End DropDuplicates.

Section NormalizeFacts.

Variable parse_datetime : string -> option Z.

(** [parse_dates] keeps the rows in order, each with its date parsed. *)
Lemma parse_dates_rows (df : list (cell * cell)) (parsed : list (option Z * cell)) :
  parse_dates parse_datetime df = Ok parsed ->
  Forall2 (fun raw e => to_datetime parse_datetime raw.1 = Ok e.1 /\ e.2 = raw.2) df parsed.
Proof.
  unfold parse_dates.
  revert parsed. induction df as [|raw df IH]; intros parsed H; simpl in H.
  - injection H as <-. constructor.
  - destruct (to_datetime parse_datetime raw.1) as [k|e] eqn:Ek; simpl in H; [|discriminate].
    destruct (rmapM _ df) as [l|e]; simpl in H; [|discriminate].
    injection H as <-. constructor; [done|]. by apply IH.
Qed.

Lemma to_datetime_cell_of_ts (k : option Z) :
  to_datetime parse_datetime (cell_of_ts k) = Ok k.
Proof. by destruct k. Qed.

Lemma parse_dates_as_frame (l : list (option Z * cell)) :
  parse_dates parse_datetime (as_frame l) = Ok l.
Proof.
  unfold parse_dates, as_frame. induction l as [|[k v] l IH]; simpl; [done|].
  rewrite to_datetime_cell_of_ts. simpl. by rewrite IH.
Qed.

End NormalizeFacts.

(** C7. Normalising the (date, value) rows of a series whose dates parse
    keeps, for every timestamp, the first row that has it, in the order of
    the raw list, and drops the later ones; the result has unique
    timestamps, as many as the input has distinct ones, and normalising the
    result again returns it. *)
Theorem normalize_frame_dedup
    (parse_datetime : string -> option Z)
    (df : list (cell * cell)) (parsed : list (option Z * cell)) :
  parse_dates parse_datetime df = Ok parsed ->
  exists out,
    normalize_frame parse_datetime df = Ok out /\
    sublist out parsed /\
    (forall k : option Z,
       snd <$> list_find (fun e => e.1 = k) out
       = snd <$> list_find (fun e => e.1 = k) parsed) /\
    NoDup (map fst out) /\
    length out = length (remove_dups (map fst parsed)) /\
    normalize_frame parse_datetime (as_frame out) = Ok out.
Proof.
  intros Hp. exists (drop_duplicates parsed). unfold normalize_frame.
  rewrite Hp. simpl. repeat split.
  - apply drop_duplicates_from_sublist.
  - intros k. unfold drop_duplicates. rewrite drop_duplicates_from_first.
    by rewrite bool_decide_eq_false_2 by apply not_elem_of_nil.
  - apply drop_duplicates_from_NoDup.
  - apply drop_duplicates_length.
  - rewrite parse_dates_as_frame. simpl. f_equal.
    apply drop_duplicates_from_fixed.
    + apply drop_duplicates_from_NoDup.
    + intros k _. apply not_elem_of_nil.
Qed.

(** The statement on raw records that repeat the timestamp 2024-03-01. *)
Lemma normalize_frame_dedup_witness :
  exists out,
    normalize_frame Sample.parse_iso (frame_of SampleRaw.duplicated) = Ok out /\
    sublist out SampleRaw.duplicated_parsed /\
    (forall k : option Z,
       snd <$> list_find (fun e => e.1 = k) out
       = snd <$> list_find (fun e => e.1 = k) SampleRaw.duplicated_parsed) /\
    NoDup (map fst out) /\
    length out = length (remove_dups (map fst SampleRaw.duplicated_parsed)) /\
    normalize_frame Sample.parse_iso (as_frame out) = Ok out.
Proof.
  apply (normalize_frame_dedup Sample.parse_iso (frame_of SampleRaw.duplicated)
           SampleRaw.duplicated_parsed).
  vm_compute. reflexivity.
Defined.

Example normalize_frame_duplicated :
  normalize_frame Sample.parse_iso (frame_of SampleRaw.duplicated)
  = Ok [ (Some (timedelta_days 19783), Num 10); (Some (timedelta_days 19784), Num 20);
         (Some (timedelta_days 19785), Num 30) ].
Proof. vm_compute. reflexivity. Qed.


(** ** The merge: outer join, sort, reset of the index *)

Lemma key_leb_ts_le (a b : option Z) : key_leb a b = true <-> ts_le a b.
Proof.
  destruct a as [x|], b as [y|]; simpl.
  - apply Z.leb_le.
  - done.
  - split; [discriminate | done].
  - done.
Qed.

Lemma ts_le_total (a b : option Z) : key_leb a b = false -> ts_le b a.
Proof.
  destruct a as [x|], b as [y|]; simpl; try done.
  intros H. apply Z.leb_gt in H. lia.
Qed.

Lemma ts_le_trans (a b c : option Z) : ts_le a b -> ts_le b c -> ts_le a c.
Proof. destruct a, b, c; simpl; try done. lia. Qed.

Section SortIndex.

Context {V : Type}.
Implicit Types (e : option Z * V) (l : list (option Z * V)).

Lemma insert_sorted_perm e l : insert_sorted e l ≡ₚ e :: l.
Proof.
  induction l as [|e' l IH]; simpl; [done|].
  destruct (key_leb e.1 e'.1); [done|].
  rewrite IH. apply perm_swap.
Qed.

Lemma sort_index_perm l : sort_index l ≡ₚ l.
Proof.
  induction l as [|e l IH]; simpl; [done|].
  rewrite insert_sorted_perm. by constructor.
Qed.

Lemma insert_sorted_sorted e l :
  StronglySorted (fun a b => ts_le a.1 b.1) l ->
  StronglySorted (fun a b => ts_le a.1 b.1) (insert_sorted e l).
Proof.
  induction l as [|e' l IH]; intros Hs; simpl.
  - constructor; [constructor | constructor].
  - apply StronglySorted_inv in Hs as [Hs Hall].
    destruct (key_leb e.1 e'.1) eqn:E.
    + apply key_leb_ts_le in E. constructor.
      * by constructor.
      * constructor; [done|].
        eapply Forall_impl; [exact Hall|]. simpl. intros x Hx.
        by apply ts_le_trans with (b := e'.1).
    + apply ts_le_total in E. constructor; [by apply IH|].
      rewrite insert_sorted_perm. by constructor.
Qed.

Lemma sort_index_sorted l :
  StronglySorted (fun a b => ts_le a.1 b.1) (sort_index l).
Proof.
  induction l as [|e l IH]; simpl; [constructor|].
  by apply insert_sorted_sorted.
Qed.

End SortIndex.

Lemma StronglySorted_map {A B : Type} (R : B -> B -> Prop) (f : A -> B) (l : list A) :
  StronglySorted (fun a b => R (f a) (f b)) l -> StronglySorted R (map f l).
Proof.
  induction 1 as [|a l Hs IH Hall]; simpl; constructor; [done|].
  by apply Forall_fmap.
Qed.

Lemma map_imap_const {A B C : Type} (f : B -> C) (g : nat -> A -> B) (h : A -> C)
    (l : list A) :
  (forall i a, f (g i a) = h a) -> map f (imap g l) = map h l.
Proof.
  revert g. induction l as [|a l IH]; intros g H; simpl; [done|].
  rewrite H. f_equal. apply IH. intros i a'. apply H.
Qed.

Lemma elem_of_imap_inv {A B : Type} (g : nat -> A -> B) (l : list A) (b : B) :
  b ∈ imap g l -> exists i a, a ∈ l /\ b = g i a.
Proof.
  revert g. induction l as [|a l IH]; intros g H; simpl in H.
  - by apply elem_of_nil in H.
  - apply elem_of_cons in H as [->|H].
    + exists 0%nat, a. split; [apply list_elem_of_here | done].
    + apply IH in H as [i [a' [Ha' ->]]]. exists (S i), a'.
      split; [by apply list_elem_of_further | done].
Qed.

Lemma elem_of_concat {A : Type} (x : A) (ls : list (list A)) :
  x ∈ concat ls <-> exists l, x ∈ l /\ l ∈ ls.
Proof.
  rewrite list_elem_of_In, in_concat. split.
  - intros [l [Hl Hx]]. exists l. by rewrite !list_elem_of_In.
  - intros [l [Hx Hl]]. exists l. by rewrite <- !list_elem_of_In.
Qed.

(** The keys of the union are the keys of the frames. *)
Lemma index_union_keys (dfs : list Series) (k : option Z) :
  k ∈ index_union dfs <-> exists s, s ∈ dfs /\ k ∈ map fst (entries s).
Proof.
  unfold index_union, drop_duplicates. rewrite drop_duplicates_from_keys.
  split.
  - intros [H _]. apply list_elem_of_fmap in H as [e [-> He]].
    apply elem_of_concat in He as [l [He Hl]].
    apply list_elem_of_fmap in Hl as [s [-> Hs]].
    exists s. split; [done|]. apply list_elem_of_fmap. by exists e.
  - intros [s [Hs Hk]]. split; [|apply not_elem_of_nil].
    apply list_elem_of_fmap in Hk as [e [-> He]].
    apply list_elem_of_fmap. exists e. split; [done|].
    apply elem_of_concat. exists (entries s). split; [done|].
    apply list_elem_of_fmap. by exists s.
Qed.

Lemma index_union_NoDup (dfs : list Series) : NoDup (index_union dfs).
Proof. apply drop_duplicates_from_NoDup. Qed.

(** The value a frame has at a key. *)
Lemma entry_at_in (k : option Z) (v : cell) (l : list (option Z * cell)) :
  NoDup (map fst l) -> (k, v) ∈ l -> entry_at k l = v.
Proof.
  induction l as [|e l IH]; intros Hnd Hin; simpl.
  - by apply elem_of_nil in Hin.
  - simpl in Hnd. apply NoDup_cons in Hnd as [Hne Hnd].
    apply elem_of_cons in Hin as [<-|Hin].
    + simpl. by rewrite bool_decide_eq_true_2.
    + rewrite bool_decide_eq_false_2; [by apply IH|].
      intros Heq. apply Hne. rewrite Heq.
      apply list_elem_of_fmap. by exists (k, v).
Qed.

Lemma entry_at_absent (k : option Z) (l : list (option Z * cell)) :
  k ∉ map fst l -> entry_at k l = NA.
Proof.
  induction l as [|e l IH]; intros Hk; simpl; [done|].
  rewrite bool_decide_eq_false_2.
  - apply IH. intros H. apply Hk. simpl. by apply list_elem_of_further.
  - intros Heq. apply Hk. simpl. rewrite Heq. apply list_elem_of_here.
Qed.

Lemma entry_at_present (k : option Z) (l : list (option Z * cell)) :
  Forall (fun e => exists v : Z, e.2 = Num v) l ->
  k ∈ map fst l -> entry_at k l <> NA.
Proof.
  induction l as [|e l IH]; intros Hall Hk; simpl.
  - by apply elem_of_nil in Hk.
  - apply Forall_cons in Hall as [[v Hv] Hall].
    destruct (bool_decide (e.1 = k)) eqn:E.
    + by rewrite Hv.
    + apply bool_decide_eq_false in E. apply IH; [done|].
      simpl in Hk. apply elem_of_cons in Hk as [Hk|Hk]; [congruence | done].
Qed.

(** The cell of the joined row at key [k] in the column of frame [s]. *)
Lemma concat_outer_cell (dfs : list Series) (s : Series) (k : option Z) :
  NoDup (map series_name dfs) -> s ∈ dfs ->
  joined_row dfs k !! series_name s = Some (entry_at k (entries s)).
Proof.
  unfold joined_row.
  induction dfs as [|s0 dfs IH]; intros Hnd Hs; simpl.
  - by apply elem_of_nil in Hs.
  - simpl in Hnd. apply NoDup_cons in Hnd as [Hne Hnd].
    apply elem_of_cons in Hs as [->|Hs].
    + by rewrite lookup_insert_eq.
    + rewrite lookup_insert_ne; [by apply IH|].
      intros Heq. apply Hne. rewrite Heq. apply list_elem_of_fmap. by exists s.
Qed.


Lemma rows_merge (dfs : list Series) :
  rows (merge dfs)
  = imap (fun i e => mkRow (Z.of_nat i) (<["data" := cell_of_ts e.1]> e.2))
         (sort_index (concat_outer dfs)).
Proof. reflexivity. Qed.

Lemma ts_of_cell_of_ts (k : option Z) : ts_of (cell_of_ts k) = k.
Proof. by destruct k. Qed.

Lemma row_keys_merge (dfs : list Series) :
  row_keys (merge dfs) = map fst (sort_index (concat_outer dfs)).
Proof.
  unfold row_keys. rewrite rows_merge. apply map_imap_const.
  intros i e. unfold row_key, get_cell. simpl.
  rewrite lookup_insert_eq. simpl. apply ts_of_cell_of_ts.
Qed.

Lemma row_keys_merge_perm (dfs : list Series) :
  row_keys (merge dfs) ≡ₚ index_union dfs.
Proof.
  rewrite row_keys_merge.
  assert (H : map fst (concat_outer dfs) = index_union dfs).
  { unfold concat_outer. rewrite map_map. simpl. apply map_id. }
  rewrite <- H. apply fmap_Permutation. apply sort_index_perm.
Qed.

(** C4. The merge of normalised series in distinct columns is a full outer
    join on the timestamp: its rows carry exactly the timestamps of the input
    series, each once, in ascending order; the cell of a row in a series'
    column is that series' value at the row's timestamp and is missing
    exactly when the series has no record there. *)
Theorem merge_outer_join (dfs : list Series) :
  Forall normalized dfs ->
  NoDup (map series_name dfs) ->
  "data" ∉ map series_name dfs ->
  (forall k : option Z,
     k ∈ row_keys (merge dfs) <-> exists s, s ∈ dfs /\ k ∈ map fst (entries s)) /\
  NoDup (row_keys (merge dfs)) /\
  StronglySorted ts_le (row_keys (merge dfs)) /\
  (forall (r : Row) (s : Series),
     r ∈ rows (merge dfs) -> s ∈ dfs ->
     (get_cell r (series_name s) = NA <-> row_key r ∉ map fst (entries s)) /\
     (forall v : cell, (row_key r, v) ∈ entries s -> get_cell r (series_name s) = v)).
Proof.
  intros Hnorm Hnames Hdata. split; [|split; [|split]].
  - intros k. rewrite row_keys_merge_perm. apply index_union_keys.
  - rewrite row_keys_merge_perm. apply index_union_NoDup.
  - rewrite row_keys_merge. apply StronglySorted_map. apply sort_index_sorted.
  - intros r s Hr Hs. rewrite rows_merge in Hr.
    apply elem_of_imap_inv in Hr as [i [e [He ->]]].
    rewrite sort_index_perm in He. unfold concat_outer in He.
    apply list_elem_of_fmap in He as [k [-> _]]. simpl.
    assert (Hne : "data" <> series_name s).
    { intros Heq. apply Hdata. rewrite Heq. apply list_elem_of_fmap. by exists s. }
    assert (Hkey : row_key (mkRow (Z.of_nat i) (<["data" := cell_of_ts k]> (joined_row dfs k)))
                   = k).
    { unfold row_key, get_cell. simpl. rewrite lookup_insert_eq. simpl.
      apply ts_of_cell_of_ts. }
    assert (Hcell : get_cell (mkRow (Z.of_nat i) (<["data" := cell_of_ts k]> (joined_row dfs k)))
                             (series_name s)
                    = entry_at k (entries s)).
    { unfold get_cell. simpl. rewrite lookup_insert_ne by done.
      by rewrite (concat_outer_cell dfs s k Hnames Hs). }
    rewrite Hkey, Hcell.
    rewrite Forall_forall in Hnorm. destruct (Hnorm s Hs) as [Hnd Hnum].
    split.
    + split.
      * intros HNA Hin. by apply (entry_at_present k (entries s) Hnum Hin).
      * apply entry_at_absent.
    + intros v Hv. by apply entry_at_in.
Qed.

(** The statement on series A over t1, t2 and series B over t2, t3. *)
Lemma merge_outer_join_witness :
  (forall k : option Z,
     k ∈ row_keys (merge [SampleSeries.A; SampleSeries.B])
     <-> exists s, s ∈ [SampleSeries.A; SampleSeries.B] /\ k ∈ map fst (entries s)) /\
  NoDup (row_keys (merge [SampleSeries.A; SampleSeries.B])) /\
  StronglySorted ts_le (row_keys (merge [SampleSeries.A; SampleSeries.B])) /\
  (forall (r : Row) (s : Series),
     r ∈ rows (merge [SampleSeries.A; SampleSeries.B]) ->
     s ∈ [SampleSeries.A; SampleSeries.B] ->
     (get_cell r (series_name s) = NA <-> row_key r ∉ map fst (entries s)) /\
     (forall v : cell, (row_key r, v) ∈ entries s -> get_cell r (series_name s) = v)).
Proof.
  apply (merge_outer_join [SampleSeries.A; SampleSeries.B]).
  - repeat constructor; simpl; try (by eexists);
      rewrite list_elem_of_In; simpl; intros H;
      repeat (destruct H as [H|H]; [discriminate H|]); exact H.
  - repeat constructor; rewrite list_elem_of_In; simpl; intros H;
      repeat (destruct H as [H|H]; [discriminate H|]); exact H.
  - rewrite list_elem_of_In; simpl; intros H;
      repeat (destruct H as [H|H]; [discriminate H|]); exact H.
Defined.

Example merge_A_B :
  column (merge [SampleSeries.A; SampleSeries.B]) "data"
  = [Time SampleSeries.t1; Time SampleSeries.t2; Time SampleSeries.t3] /\
  column (merge [SampleSeries.A; SampleSeries.B]) "A" = [Num 11; Num 12; NA] /\
  column (merge [SampleSeries.A; SampleSeries.B]) "B" = [NA; Num 22; Num 23] /\
  columns (merge [SampleSeries.A; SampleSeries.B]) = ["data"; "A"; "B"] /\
  map label (rows (merge [SampleSeries.A; SampleSeries.B])) = [0; 1; 2].
Proof. repeat split; vm_compute; reflexivity. Qed.


(** ** The processor *)

Lemma rmapM_ok {A B : Type} (f : A -> result B) (g : A -> B) (l : list A) :
  (forall a, a ∈ l -> f a = Ok (g a)) -> rmapM f l = Ok (map g l).
Proof.
  induction l as [|a l IH]; intros H; simpl; [done|].
  rewrite (H a) by apply list_elem_of_here. simpl.
  rewrite IH; [done|]. intros b Hb. apply H. by apply list_elem_of_further.
Qed.

Lemma require_columns_ok (df : DataFrame) (cs : list string) :
  (forall c, c ∈ cs -> c ∈ columns df) -> require_columns df cs = Ok tt.
Proof.
  intros H. unfold require_columns.
  assert (E : List.filter (fun c => negb (has_column df c)) cs = []).
  { induction cs as [|c cs IH]; simpl; [done|].
    assert (Hc : has_column df c = true)
      by (apply has_column_true, H, list_elem_of_here).
    rewrite Hc. simpl. apply IH. intros c' Hc'. apply H. by apply list_elem_of_further. }
  by rewrite E.
Qed.

Lemma columns_assign_present (df : DataFrame) (c : string) (vals : list cell) :
  c ∈ columns df -> columns (assign df c vals) = columns df.
Proof. intros H. apply has_column_true in H. unfold assign; simpl. by rewrite H. Qed.

Lemma fill_columns_rows (df : DataFrame) (cs : list string) :
  rows (foldl (fun d c => assign d c (map (fillna 0) (column d c))) df cs)
  = map (fun r => foldl (fun r c => set_cell r c (fillna 0 (get_cell r c))) r cs) (rows df).
Proof.
  revert df. induction cs as [|c cs IH]; intros df; simpl.
  - by rewrite map_id.
  - by rewrite IH, rows_assign_map, map_map.
Qed.

Lemma fill_columns_columns (df : DataFrame) (cs : list string) :
  (forall c, c ∈ cs -> c ∈ columns df) ->
  columns (foldl (fun d c => assign d c (map (fillna 0) (column d c))) df cs) = columns df.
Proof.
  revert df. induction cs as [|c cs IH]; intros df H; simpl; [done|].
  assert (Hc : columns (assign df c (map (fillna 0) (column df c))) = columns df)
    by (apply columns_assign_present, H, list_elem_of_here).
  rewrite IH; [done|]. intros c' Hc'. rewrite Hc. apply H. by apply list_elem_of_further.
Qed.

Lemma fillna_idem (v : Z) (c : cell) : fillna v (fillna v c) = fillna v c.
Proof. by destruct c. Qed.

(** A cell of a row once the columns [cs] are zero-filled. *)
Lemma get_fill_cells (r : Row) (cs : list string) (c : string) :
  get_cell (foldl (fun r c => set_cell r c (fillna 0 (get_cell r c))) r cs) c
  = if bool_decide (c ∈ cs) then fillna 0 (get_cell r c) else get_cell r c.
Proof.
  revert r. induction cs as [|c0 cs IH]; intros r.
  - by rewrite bool_decide_eq_false_2 by apply not_elem_of_nil.
  - change (foldl ?f r (c0 :: cs)) with (foldl f (f r c0) cs).
    rewrite IH. destruct (decide (c = c0)) as [->|Hne].
    + rewrite get_set_same, fillna_idem.
      rewrite (bool_decide_eq_true_2 (c0 ∈ c0 :: cs)) by apply list_elem_of_here.
      by destruct (bool_decide (c0 ∈ cs)).
    + rewrite get_set_other by done.
      destruct (bool_decide (c ∈ cs)) eqn:E.
      * apply bool_decide_eq_true in E.
        by rewrite bool_decide_eq_true_2 by (by apply list_elem_of_further).
      * apply bool_decide_eq_false in E.
        rewrite bool_decide_eq_false_2; [done|].
        intros H. apply elem_of_cons in H as [H|H]; done.
Qed.

Lemma get_fill_row_source (r : Row) (s : string) :
  s ∈ sources -> get_cell (fill_row r) s = fillna 0 (get_cell r s).
Proof.
  intros H. unfold fill_row. rewrite get_fill_cells. by rewrite bool_decide_eq_true_2.
Qed.

Lemma get_fill_row_other (r : Row) (c : string) :
  c ∉ sources -> get_cell (fill_row r) c = get_cell r c.
Proof.
  intros H. unfold fill_row. rewrite get_fill_cells. by rewrite bool_decide_eq_false_2.
Qed.

Lemma sum_cells_numbers (cs : list cell) :
  Forall (fun c => exists v : Z, c = Num v) cs ->
  sum_cells cs = Ok (sumZ (map value_of cs)).
Proof.
  induction 1 as [|c cs [v ->] _ IH]; simpl; [done|]. by rewrite IH.
Qed.

(** ** Forward fill *)

Lemma ffill_from_length (last : cell) (col : list cell) :
  length (ffill_from last col) = length col.
Proof.
  revert last. induction col as [|c col IH]; intros last; simpl; [done|].
  destruct c; simpl; by rewrite IH.
Qed.

Lemma ffill_from_elem (last : cell) (col : list cell) (v : cell) :
  v ∈ ffill_from last col -> v = last \/ v ∈ col.
Proof.
  revert last. induction col as [|c col IH]; intros last H; simpl in H.
  - by apply elem_of_nil in H.
  - destruct c; apply elem_of_cons in H as [->|H];
      try (right; apply list_elem_of_here);
      try (left; reflexivity);
      apply IH in H as [->|H];
      try (right; apply list_elem_of_here);
      try (left; reflexivity);
      right; by apply list_elem_of_further.
Qed.

Lemma last_cons_default {A : Type} (a d : A) (l : list A) :
  List.last (a :: l) d = List.last l a.
Proof.
  revert a d. induction l as [|b l IH]; intros a d; [done|].
  change (List.last (a :: b :: l) d) with (List.last (b :: l) d).
  by rewrite (IH b d), (IH b a).
Qed.

(** Position [i] of the forward-filled column holds the last known value
    at or before [i]. *)
Lemma ffill_from_lookup (last : cell) (col : list cell) (i : nat) :
  (i < length col)%nat ->
  ffill_from last col !! i
  = Some (List.last (List.filter known (take (S i) col)) last).
Proof.
  revert last i. induction col as [|c col IH]; intros last i Hi; simpl in Hi; [lia|].
  destruct i as [|i].
  - destruct c; simpl; rewrite ?take_0; done.
  - assert (Hi' : (i < length col)%nat) by lia.
    change (take (S (S i)) (c :: col)) with (c :: take (S i) col).
    destruct (known c) eqn:K.
    + transitivity (ffill_from c col !! i); [by destruct c|].
      rewrite (IH c i Hi'). f_equal.
      change (List.filter known (c :: take (S i) col))
        with (if known c then c :: List.filter known (take (S i) col)
              else List.filter known (take (S i) col)).
      rewrite K. symmetry. apply last_cons_default.
    + transitivity (ffill_from last col !! i); [by destruct c|].
      rewrite (IH last i Hi'). f_equal.
      change (List.filter known (c :: take (S i) col))
        with (if known c then c :: List.filter known (take (S i) col)
              else List.filter known (take (S i) col)).
      by rewrite K.
Qed.

Lemma not_source (c : string) :
  c = consumption \/ c = "data" \/ c = "Sumine_Generacija" \/ c = "Disbalansas" ->
  c ∉ sources.
Proof.
  intros H Hin. apply list_elem_of_In in Hin. simpl in Hin.
  destruct H as [-> | [-> | [-> | ->]]];
    repeat (destruct Hin as [Hin|Hin]; [discriminate Hin|]); exact Hin.
Qed.

Lemma series_column_not_data (c : string) :
  c ∈ sources ++ [consumption] -> c <> "data".
Proof.
  intros Hin ->. apply list_elem_of_In in Hin. simpl in Hin.
  repeat (destruct Hin as [Hin|Hin]; [discriminate Hin|]); exact Hin.
Qed.

Lemma map_zip_with {A B C D : Type} (g : C -> D) (f : A -> B -> C)
    (l : list A) (k : list B) :
  map g (zip_with f l k) = zip_with (fun a b => g (f a b)) l k.
Proof.
  revert k. induction l as [|a l IH]; intros [|b k]; simpl; try done. by rewrite IH.
Qed.

Lemma zip_with_map_l {A A' B C : Type} (f : A' -> B -> C) (h : A -> A')
    (l : list A) (k : list B) :
  zip_with f (map h l) k = zip_with (fun a b => f (h a) b) l k.
Proof.
  revert k. induction l as [|a l IH]; intros [|b k]; simpl; try done. by rewrite IH.
Qed.

Lemma zip_map_map {A B C : Type} (f : A -> B) (g : A -> C) (l : list A) :
  zip (map f l) (map g l) = map (fun a => (f a, g a)) l.
Proof. induction l as [|a l IH]; simpl; [done | by rewrite IH]. Qed.

Lemma rmapM_map {A A' B : Type} (f : A' -> result B) (h : A -> A') (l : list A) :
  rmapM f (map h l) = rmapM (fun a => f (h a)) l.
Proof. induction l as [|a l IH]; simpl; [done | by rewrite IH]. Qed.

Lemma elem_of_zip_with_inv {A B C : Type} (f : A -> B -> C) (l : list A) (k : list B)
    (c : C) :
  c ∈ zip_with f l k -> exists a b, a ∈ l /\ b ∈ k /\ c = f a b.
Proof.
  revert k. induction l as [|a l IH]; intros [|b k] H; simpl in H;
    try (by apply elem_of_nil in H).
  apply elem_of_cons in H as [->|H].
  - exists a, b. repeat split; apply list_elem_of_here.
  - apply IH in H as [a' [b' [Ha [Hb ->]]]]. exists a', b'.
    repeat split; by apply list_elem_of_further.
Qed.

Section ProcessFacts.

Variable parse_datetime : string -> option Z.

Local Abbreviation limit := (_limit_to_last_6_months parse_datetime).

Lemma columns_limit (df : DataFrame) (c : string) : columns (limit df c) = columns df.
Proof.
  destruct (df_empty df) eqn:He; [by rewrite limit_noop by by left|].
  destruct (has_column df c) eqn:Hc; [|by rewrite limit_noop by by right].
  rewrite limit_unfold by done. by destruct (series_max _).
Qed.

(** A row of the trimmed table is a row of the input, up to its parsed
    date. *)
Lemma rows_limit_origin (df : DataFrame) (c : string) (r : Row) :
  r ∈ rows (limit df c) ->
  exists r0, r0 ∈ rows df /\ forall c', c' <> c -> get_cell r c' = get_cell r0 c'.
Proof.
  destruct (df_empty df) eqn:He.
  { rewrite limit_noop by by left. intros H. by exists r. }
  destruct (has_column df c) eqn:Hc; cycle 1.
  { rewrite limit_noop by by right. intros H. by exists r. }
  rewrite limit_unfold by done.
  assert (Hp : r ∈ map (parse_row parse_datetime c) (rows df) ->
               exists r0, r0 ∈ rows df /\ forall c', c' <> c -> get_cell r c' = get_cell r0 c').
  { intros H. apply list_elem_of_fmap in H as [r0 [-> Hr0]]. exists r0. split; [done|].
    intros c' Hc'. unfold parse_row. by rewrite get_set_other. }
  destruct (series_max _); simpl; intros H; [|by apply Hp].
  apply elem_of_filter in H as [H _]. by apply Hp.
Qed.

Lemma numeric_limit (df : DataFrame) :
  numeric_table df -> numeric_table (limit df "data").
Proof.
  intros Hn r c Hr Hc. apply rows_limit_origin in Hr as [r0 [Hr0 Heq]].
  rewrite Heq by (by apply series_column_not_data). by apply Hn.
Qed.

End ProcessFacts.

Section ProcessRows.

Variable parse_datetime : string -> option Z.

(** The processed table, row by row: on a non-empty table with the seven
    numeric series columns the processor returns, for every row of the
    trimmed table, its [processed_row] with the forward-filled
    consumption. *)
Lemma process_data_rows (df : DataFrame) (w : World) :
  df_empty df = false ->
  (forall c, c ∈ sources ++ [consumption] -> c ∈ columns df) ->
  numeric_table df ->
  exists cols,
    process_data parse_datetime df w
    = (Ok (mkDF cols
             (zip_with processed_row
                (rows (_limit_to_last_6_months parse_datetime df "data"))
                (ffill (column (_limit_to_last_6_months parse_datetime df "data")
                               consumption)))),
       w).
Proof.
  intros He Hcols Hnum. unfold process_data. rewrite He.
  set (tdf := _limit_to_last_6_months parse_datetime df "data").
  assert (Htcols : forall c, c ∈ sources ++ [consumption] -> c ∈ columns tdf).
  { intros c Hc. unfold tdf. rewrite columns_limit. by apply Hcols. }
  assert (Htnum : numeric_table tdf) by (by apply numeric_limit).
  clearbody tdf. clear He Hcols Hnum df.
  set (F := fun (d : DataFrame) (c : string) => assign d c (map (fillna 0) (column d c))).
  set (df1 := foldl F tdf sources).
  assert (H1rows : rows df1 = map fill_row (rows tdf)) by apply fill_columns_rows.
  assert (H1cols : columns df1 = columns tdf).
  { apply fill_columns_columns. intros c Hc. apply Htcols. apply elem_of_app. by left. }
  assert (Hcons : consumption ∈ columns tdf).
  { apply Htcols. apply elem_of_app. right. apply list_elem_of_here. }
  set (col := column tdf consumption).
  assert (Hcol1 : column df1 consumption = col).
  { unfold column. rewrite H1rows, map_map. apply map_ext. intros r.
    apply get_fill_row_other. apply not_source. by left. }
  unfold bind at 1. unfold lift at 1.
  rewrite require_columns_ok
    by (intros c Hc; apply Htcols; apply elem_of_app; by left).
  unfold bind at 1. unfold lift at 1.
  rewrite require_columns_ok
    by (intros c Hc; apply list_elem_of_singleton in Hc as ->; by rewrite H1cols).
  fold consumption. rewrite Hcol1.
  set (df2 := assign df1 consumption (ffill col)).
  set (f1 := fun (r : Row) (v : cell) => set_cell (fill_row r) consumption v).
  assert (H2rows : rows df2 = zip_with f1 (rows tdf) (ffill col)).
  { change (rows df2)
      with (zip_with (fun r v => set_cell r consumption v) (rows df1) (ffill col)).
    rewrite H1rows.
    apply (zip_with_map_l (fun r v => set_cell r consumption v) fill_row). }
  assert (H2elem : forall r2, r2 ∈ rows df2 ->
            exists r v, r ∈ rows tdf /\ numeric_cell v /\ r2 = f1 r v).
  { intros r2 Hr2. rewrite H2rows in Hr2.
    apply elem_of_zip_with_inv in Hr2 as [r [v [Hr [Hv ->]]]].
    exists r, v. repeat split; [done|].
    apply ffill_from_elem in Hv as [->|Hv]; [done|].
    apply list_elem_of_fmap in Hv as [r' [-> Hr']]. apply Htnum; [done|].
    apply elem_of_app. right. apply list_elem_of_here. }
  set (g := fun r : Row => Num (generation r)).
  assert (Htotal : rmapM (fun r => rbind (sum_cells (map (get_cell r) sources))
                                        (fun s => Ok (Num s))) (rows df2)
                   = Ok (map g (rows df2))).
  { apply rmapM_ok. intros r2 Hr2.
    destruct (H2elem r2 Hr2) as [r [v [Hr [Hv ->]]]].
    rewrite sum_cells_numbers.
    - unfold rbind, g, generation. by rewrite map_map.
    - apply Forall_fmap. apply Forall_forall. intros s Hs. simpl.
      unfold f1. rewrite get_set_other.
      + rewrite get_fill_row_source by done.
        assert (Hn : numeric_cell (get_cell r s))
          by (apply Htnum; [done | apply elem_of_app; by left]).
        destruct (get_cell r s); simpl in *; try done; by eexists.
      + intros Heq. apply (not_source consumption); [by left | by rewrite Heq]. }
  unfold bind at 1. unfold lift at 1. rewrite Htotal.
  set (df3 := assign df2 "Sumine_Generacija" (map g (rows df2))).
  assert (H3rows : rows df3
                   = map (fun r => set_cell r "Sumine_Generacija" (g r)) (rows df2)).
  { change (rows df3)
      with (zip_with (fun r v => set_cell r "Sumine_Generacija" v) (rows df2)
                     (map g (rows df2))).
    apply (zip_with_map_r (fun r v => set_cell r "Sumine_Generacija" v)). }
  assert (Hdiff : rmapM (fun p : cell * cell => sub_cells p.1 p.2)
                    (zip (column df3 "Sumine_Generacija") (column df3 consumption))
                  = Ok (map imbalance (rows df3))).
  { unfold column. rewrite zip_map_map, rmapM_map. apply rmapM_ok.
    intros r3 Hr3. simpl. rewrite H3rows in Hr3.
    apply list_elem_of_fmap in Hr3 as [r2 [-> Hr2]].
    destruct (H2elem r2 Hr2) as [r [v [Hr [Hv ->]]]].
    unfold imbalance. rewrite get_set_same, get_set_other by done.
    unfold f1. rewrite get_set_same. unfold g. simpl.
    by destruct v. }
  unfold bind at 1. unfold lift at 1. fold consumption. rewrite Hdiff.
  unfold ret. eexists. f_equal. f_equal. apply df_eq; [reflexivity|].
  change (rows (assign df3 "Disbalansas" (map imbalance (rows df3))))
    with (zip_with (fun r v => set_cell r "Disbalansas" v) (rows df3)
                   (map imbalance (rows df3))).
  rewrite (zip_with_map_r (fun r v => set_cell r "Disbalansas" v)).
  rewrite H3rows, map_map, H2rows, map_zip_with. reflexivity.
Qed.

End ProcessRows.


Lemma ffill_from_forward (last : cell) (col : list cell) (i : nat) (v : cell) :
  ffill_from last col !! i = Some v ->
  (exists j : nat,
     (j <= i)%nat /\ col !! j = Some v /\ v <> NA /\
     forall j' : nat, (j < j' <= i)%nat -> col !! j' = Some NA) \/
  (v = last /\ forall j' : nat, (j' <= i)%nat -> col !! j' = Some NA).
Proof.
  revert last i. induction col as [|c col IH]; intros last i H; [done|].
  assert (Hstep : ffill_from last (c :: col)
                  = (if known c then c else last)
                      :: ffill_from (if known c then c else last) col)
    by (by destruct c).
  rewrite Hstep in H. clear Hstep.
  destruct i as [|i].
  - injection H as <-. destruct (known c) eqn:K.
    + left. exists 0%nat. repeat split; [lia | by destruct c |].
      intros j' Hj'. lia.
    + right. split; [done|]. intros j' Hj'. assert (j' = 0%nat) as -> by lia.
      by destruct c.
  - change (ffill_from (if known c then c else last) col !! i = Some v) in H.
    apply IH in H as [[j [Hj [Hv [Hne Hgap]]]] | [-> Hgap]].
    + left. exists (S j). repeat split; [lia | done | done |].
      intros j' Hj'. destruct j' as [|j']; [lia|]. apply Hgap. lia.
    + destruct (known c) eqn:K.
      * left. exists 0%nat. repeat split; [lia | by destruct c |].
        intros j' Hj'. destruct j' as [|j']; [lia|]. apply Hgap. lia.
      * right. split; [done|]. intros j' Hj'. destruct j' as [|j']; [by destruct c|].
        apply Hgap. lia.
Qed.

Lemma ffill_lookup_last_known (col : list cell) (i : nat) :
  (i < length col)%nat -> ffill col !! i = Some (last_known col i).
Proof. apply ffill_from_lookup. Qed.

Lemma ffill_forward (col : list cell) (i : nat) (v : cell) :
  ffill col !! i = Some v -> forward_filled col i v.
Proof. apply ffill_from_forward. Qed.

(** ** The columns of a processed row *)

Lemma label_fill_cells (r : Row) (cs : list string) :
  label (foldl (fun r c => set_cell r c (fillna 0 (get_cell r c))) r cs) = label r.
Proof.
  revert r. induction cs as [|c cs IH]; intros r; [done|].
  change (foldl ?f r (c :: cs)) with (foldl f (f r c) cs).
  rewrite IH. apply label_set.
Qed.

Lemma label_processed (r : Row) (v : cell) : label (processed_row r v) = label r.
Proof. unfold processed_row, fill_row. cbv zeta. by rewrite !label_set, label_fill_cells. Qed.

Lemma get_processed_source (r : Row) (v : cell) (s : string) :
  s ∈ sources -> get_cell (processed_row r v) s = fillna 0 (get_cell r s).
Proof.
  intros Hs. unfold processed_row. cbv zeta.
  rewrite !get_set_other.
  - by apply get_fill_row_source.
  - intros Heq. apply (not_source consumption); [by left | by rewrite Heq].
  - intros Heq. apply (not_source "Sumine_Generacija"); [tauto | by rewrite Heq].
  - intros Heq. apply (not_source "Disbalansas"); [tauto | by rewrite Heq].
Qed.

Lemma get_processed_consumption (r : Row) (v : cell) :
  get_cell (processed_row r v) consumption = v.
Proof.
  unfold processed_row. cbv zeta.
  rewrite !get_set_other by done. apply get_set_same.
Qed.

Lemma generation_ext (r r' : Row) :
  (forall s, s ∈ sources -> get_cell r s = get_cell r' s) -> generation r = generation r'.
Proof.
  intros H. unfold generation. f_equal. apply map_ext_in. intros s Hs.
  apply list_elem_of_In in Hs. by rewrite H.
Qed.

Lemma get_processed_total (r : Row) (v : cell) :
  get_cell (processed_row r v) "Sumine_Generacija" = Num (generation (processed_row r v)).
Proof.
  unfold processed_row at 1. cbv zeta.
  rewrite get_set_other by done. rewrite get_set_same. f_equal.
  apply generation_ext. intros s Hs. rewrite get_processed_source by done.
  rewrite get_set_other.
  - by apply get_fill_row_source.
  - intros Heq. apply (not_source consumption); [by left | by rewrite Heq].
Qed.


Lemma lookup_zip_with_pair {A B C : Type} (f : A -> B -> C) (l : list A) (k : list B)
    (i : nat) (a : A) (b : B) :
  l !! i = Some a -> k !! i = Some b -> zip_with f l k !! i = Some (f a b).
Proof.
  revert k i. induction l as [|a' l IH]; intros [|b' k] [|i] Ha Hb; try done.
  - injection Ha as ->. by injection Hb as ->.
  - by apply (IH k i).
Qed.

(** C5. After processing, row by row of the trimmed table: a generation
    cell that was missing is 0 and one that was known is unchanged; the
    consumption cell is the nearest known consumption at or before the row,
    and stays missing when no consumption is known up to the row. *)
Theorem process_data_gap_fill
    (parse_datetime : string -> option Z) (df : DataFrame) (w : World) :
  df_empty df = false ->
  (forall c, c ∈ sources ++ [consumption] -> c ∈ columns df) ->
  numeric_table df ->
  exists out,
    process_data parse_datetime df w = (Ok out, w) /\
    length (rows out) = length (rows (_limit_to_last_6_months parse_datetime df "data")) /\
    forall (i : nat) (r : Row),
      rows (_limit_to_last_6_months parse_datetime df "data") !! i = Some r ->
      exists r',
        rows out !! i = Some r' /\
        label r' = label r /\
        (forall s, s ∈ sources ->
           (get_cell r s = NA -> get_cell r' s = Num 0) /\
           (get_cell r s <> NA -> get_cell r' s = get_cell r s)) /\
        forward_filled (column (_limit_to_last_6_months parse_datetime df "data") consumption)
                       i (get_cell r' consumption).
Proof.
  intros He Hcols Hnum.
  destruct (process_data_rows parse_datetime df w He Hcols Hnum) as [cols Hp].
  set (tdf := _limit_to_last_6_months parse_datetime df "data") in *.
  eexists. split; [exact Hp|]. simpl.
  assert (Hlen : length (ffill (column tdf consumption)) = length (rows tdf)).
  { unfold ffill. rewrite ffill_from_length. unfold column. apply length_map. }
  split.
  - rewrite length_zip_with, Hlen. lia.
  - intros i r Hr.
    assert (Hi : (i < length (ffill (column tdf consumption)))%nat).
    { rewrite Hlen. by apply lookup_lt_Some with (x := r). }
    apply lookup_lt_is_Some in Hi as [v Hv].
    exists (processed_row r v). split; [exact (lookup_zip_with_pair processed_row _ _ i r v Hr Hv)|].
    split; [apply label_processed|]. split.
    + intros s Hs. rewrite get_processed_source by done.
      by destruct (get_cell r s).
    + rewrite get_processed_consumption. by apply ffill_forward.
Qed.

(** ** The processor over the columns' own arithmetic *)


Lemma rmapM_ext {A B : Type} (f g : A -> result B) (l : list A) :
  (forall a, f a = g a) -> rmapM f l = rmapM g l.
Proof. intros H. induction l as [|a l IH]; simpl; [done|]. by rewrite H, IH. Qed.

Lemma sum_cells_exact (cs : list cell) :
  sum_cells_with exact_arithmetic cs = rbind (sum_cells cs) (fun s => Ok (Num s)).
Proof.
  unfold sum_cells_with. induction cs as [|c cs IH]; simpl; [done|].
  destruct c; try done.
  destruct (numbers_of cs) as [vs|e], (sum_cells cs) as [t|e']; simpl in *;
    try discriminate; [|done].
  injection IH as <-. reflexivity.
Qed.

Lemma sub_cells_exact (a b : cell) : sub_cells_with exact_arithmetic a b = sub_cells a b.
Proof. by destruct a, b. Qed.

(** [process_data] is [process_data_with] on exact integers. *)
Lemma process_data_exact
    (parse_datetime : string -> option Z) (df : DataFrame) (w : World) :
  process_data_with exact_arithmetic parse_datetime df w = process_data parse_datetime df w.
Proof.
  unfold process_data_with, process_data.
  destruct (df_empty df); [done|].
  unfold bind, lift, ret. cbv beta zeta.
  destruct (require_columns _ sources); [|done].
  destruct (require_columns _ ["Vartojimas"]); [|done].
  rewrite (rmapM_ext (fun r => sum_cells_with exact_arithmetic (map (get_cell r) sources))
             (fun r => rbind (sum_cells (map (get_cell r) sources)) (fun s => Ok (Num s))))
    by (intros r; apply sum_cells_exact).
  destruct (rmapM _ _) as [total|e]; [|done].
  rewrite (rmapM_ext (fun p : cell * cell => sub_cells_with exact_arithmetic p.1 p.2)
             (fun p => sub_cells p.1 p.2))
    by (intros p; apply sub_cells_exact).
  reflexivity.
Qed.

Section ArithmeticRows.

Variable ar : Arithmetic.
Variable parse_datetime : string -> option Z.








End ArithmeticRows.


(** The sample merged table has the seven series columns, all numeric. *)
Lemma df_merged_columns (c : string) :
  c ∈ sources ++ [consumption] -> c ∈ columns SampleTable.df_merged.
Proof.
  intros Hc. list_cases Hc; apply list_elem_of_In; simpl; tauto.
Defined.

Lemma df_merged_numeric : numeric_table SampleTable.df_merged.
Proof.
  intros r c Hr Hc. list_cases Hr; list_cases Hc; vm_compute; exact I.
Defined.

(** The gap-fill statement on the sample merged table. *)
Lemma process_data_gap_fill_witness :
  exists out,
    process_data Sample.parse_iso SampleTable.df_merged [] = (Ok out, []) /\
    length (rows out)
    = length (rows (_limit_to_last_6_months Sample.parse_iso SampleTable.df_merged "data")) /\
    forall (i : nat) (r : Row),
      rows (_limit_to_last_6_months Sample.parse_iso SampleTable.df_merged "data") !! i
      = Some r ->
      exists r',
        rows out !! i = Some r' /\
        label r' = label r /\
        (forall s, s ∈ sources ->
           (get_cell r s = NA -> get_cell r' s = Num 0) /\
           (get_cell r s <> NA -> get_cell r' s = get_cell r s)) /\
        forward_filled
          (column (_limit_to_last_6_months Sample.parse_iso SampleTable.df_merged "data")
                  consumption)
          i (get_cell r' consumption).
Proof.
  apply (process_data_gap_fill Sample.parse_iso SampleTable.df_merged []).
  - reflexivity.
  - exact df_merged_columns.
  - exact df_merged_numeric.
Defined.


(** The processed sample table, column by column. *)
Example process_df_merged :
  exists out,
    process_data Sample.parse_iso SampleTable.df_merged [] = (Ok out, []) /\
    column out "Saules" = [Num 0; Num 10; Num 20; Num 5] /\
    column out "Hidro" = [Num 0; Num 5; Num 0; Num 6] /\
    column out "Vartojimas" = [NA; Num 30; Num 30; Num 18] /\
    column out "Sumine_Generacija" = [Num 10; Num 24; Num 21; Num 21] /\
    column out "Disbalansas" = [NA; Num (-6); Num (-9); Num 3].
Proof. eexists. split; [vm_compute; reflexivity|]. repeat split; vm_compute; reflexivity. Qed.

(** The same table in int64 arithmetic: the same numbers, none being near
    the ends of the range. *)
Example process_df_merged_int64 :
  exists out,
    process_data_with int64_arithmetic Sample.parse_iso SampleTable.df_merged []
    = (Ok out, []) /\
    column out "Sumine_Generacija" = [Num 10; Num 24; Num 21; Num 21] /\
    column out "Disbalansas" = [NA; Num (-6); Num (-9); Num 3].
Proof. eexists. split; [vm_compute; reflexivity|]. repeat split; vm_compute; reflexivity. Qed.

(** Where a row adds up to 2^63, the int64 sum wraps around to -2^63 and the
    imbalance is taken from the wrapped sum; exact integers give 2^63. *)
Example process_df_large_int64 :
  exists out,
    process_data_with int64_arithmetic Sample.parse_iso SampleInt64.df_large []
    = (Ok out, []) /\
    column out "Sumine_Generacija" = [Num 21; Num (-9223372036854775808)] /\
    column out "Disbalansas" = [Num 1; Num (-9223372036854775808)].
Proof. eexists. split; [vm_compute; reflexivity|]. repeat split; vm_compute; reflexivity. Qed.

Example process_df_large_exact :
  exists out,
    process_data Sample.parse_iso SampleInt64.df_large [] = (Ok out, []) /\
    column out "Sumine_Generacija" = [Num 21; Num 9223372036854775808] /\
    column out "Disbalansas" = [Num 1; Num 9223372036854775808].
Proof. eexists. split; [vm_compute; reflexivity|]. repeat split; vm_compute; reflexivity. Qed.


(** ** Runs of the whole pipeline *)

Example strftime_now : Scenario.strftime Scenario.now = "2024-03-10".
Proof. reflexivity. Qed.

Example strftime_start :
  Scenario.strftime (Scenario.now - timedelta_days SIX_MONTH_DAYS) = "2023-09-10".
Proof. reflexivity. Qed.

(** C1. With the solar fetch empty and the six other series fetched, the
    fetch stage returns a non-empty table without the [Saules] column, and
    the processor raises [KeyError] on it instead of returning a processed
    table. *)
Theorem main_partial_fetch_raises :
  (exists df,
     fst (fetch_all_data Sample.parse_iso Scenario.no_solar Scenario.now Scenario.strftime [])
     = Ok df /\
     df_empty df = false /\
     columns df = ["data"; "Kaupimo"; "Kitu"; "Siluminiu"; "Hidro"; "Vejo"; "Vartojimas"]) /\
  fst (main Sample.parse_iso Scenario.no_solar Scenario.now Scenario.strftime [])
  = Raise (KeyError ["Saules"]).
Proof.
  split.
  - eexists. split; [vm_compute; reflexivity|]. split; vm_compute; reflexivity.
  - vm_compute. reflexivity.
Qed.

(** C8. With exactly the two series of the scenario fetched, the merged
    table has the three rows, and the processor raises [KeyError] for the
    five generation columns that are absent. *)
Theorem main_two_series_raises :
  (exists df,
     fst (fetch_all_data Sample.parse_iso Scenario.two_series Scenario.now Scenario.strftime [])
     = Ok df /\
     columns df = ["data"; "Saules"; "Vartojimas"] /\
     column df "data" = [SampleTable.day 19783; SampleTable.day 19784; SampleTable.day 19785] /\
     column df "Saules" = [Num 10; NA; Num 30] /\
     column df "Vartojimas" = [Num 5; Num 6; Num 7]) /\
  fst (main Sample.parse_iso Scenario.two_series Scenario.now Scenario.strftime [])
  = Raise (KeyError ["Kaupimo"; "Kitu"; "Siluminiu"; "Hidro"; "Vejo"]).
Proof.
  split.
  - eexists. split; [vm_compute; reflexivity|]. repeat split; vm_compute; reflexivity.
  - vm_compute. reflexivity.
Qed.

(** The scenario's numbers, once the five other sources are in the table. *)
Example main_seven_series :
  exists out,
    fst (main Sample.parse_iso Scenario.seven_series Scenario.now Scenario.strftime [])
    = Ok out /\
    length (rows out) = 3%nat /\
    column out "Saules" = [Num 10; Num 0; Num 30] /\
    column out "Sumine_Generacija" = [Num 10; Num 0; Num 30] /\
    column out "Vartojimas" = [Num 5; Num 6; Num 7] /\
    column out "Disbalansas" = [Num 5; Num (-6); Num 23].
Proof.
  eexists. split; [vm_compute; reflexivity|]. repeat split; vm_compute; reflexivity.
Qed.

(** On any non-empty table that lacks a generation column the processor
    raises [KeyError]. *)
Lemma process_data_missing_source
    (parse_datetime : string -> option Z) (df : DataFrame) (w : World) (s : string) :
  df_empty df = false -> s ∈ sources -> s ∉ columns df ->
  exists missing,
    s ∈ missing /\ process_data parse_datetime df w = (Raise (KeyError missing), w).
Proof.
  intros He Hs Hc. unfold process_data. rewrite He.
  set (tdf := _limit_to_last_6_months parse_datetime df "data").
  assert (Hin : s ∈ List.filter (fun c => negb (has_column tdf c)) sources).
  { apply elem_of_filter. split; [done|]. apply negb_true_iff.
    apply has_column_false. unfold tdf. by rewrite columns_limit. }
  unfold bind at 1. unfold lift at 1. unfold require_columns.
  destruct (List.filter (fun c => negb (has_column tdf c)) sources) as [|c l] eqn:E.
  - by apply elem_of_nil in Hin.
  - by exists (c :: l).
Qed.


(** * Further properties of the code *)

(** ** The fetcher on arbitrary remote sides *)

Lemma slept_app (w w' : World) : slept (w ++ w') = slept w + slept w'.
Proof.
  unfold slept. induction w as [|e w IH]; simpl; [lia|].
  destruct e; rewrite ?IH; lia.
Qed.

Section FetchTrace.

Variable net : network.

(** What one attempt does, by whether its answer is accepted. *)
Lemma attempts_step (url : string) (params : list (string * string))
    (attempt : nat) (range : list nat) (w : World) :
  match accepted (net (gets w) url params) with
  | Some data =>
      attempts net url params (attempt :: range) w
      = (Ok data, w ++ [Get url params 120 false])
  | None =>
      exists m,
        attempts net url params (attempt :: range) w
        = attempts net url params range (w ++ [Get url params 120 false; Print m; Sleep 5])
  end.
Proof.
  simpl. unfold bind, requests_get, print, sleep. cbv beta iota.
  destruct (net (gets w) url params) as [status_code json | e]; simpl.
  - destruct json as [data | e]; destruct (status_code =? 200) eqn:E200; cbn iota.
    + reflexivity.
    + exists (AttemptFailedStatus (attempt + 1) status_code). by rewrite <- !app_assoc.
    + exists (AttemptFailedError (attempt + 1) e). by rewrite <- !app_assoc.
    + exists (AttemptFailedStatus (attempt + 1) status_code). by rewrite <- !app_assoc.
  - exists (AttemptFailedError (attempt + 1) e). by rewrite <- !app_assoc.
Qed.

Lemma attempts_trace (url : string) (params : list (string * string))
    (range : list nat) (w : World) :
  exists data evs,
    attempts net url params range w = (Ok data, w ++ evs) /\
    (gets evs <= length range)%nat /\
    (range <> [] -> (1 <= gets evs)%nat) /\
    Forall (fetch_event url params) evs.
Proof.
  revert w. induction range as [|attempt range IH]; intros w.
  - exists [], []. simpl. rewrite app_nil_r. repeat split; try done; lia.
  - pose proof (attempts_step url params attempt range w) as Hstep.
    destruct (accepted (net (gets w) url params)) as [data|].
    + exists data, [Get url params 120 false]. rewrite Hstep.
      split; [done|]. split; [unfold gets; simpl; lia|].
      split; [intros _; unfold gets; simpl; lia|].
      constructor; [by left | constructor].
    + destruct Hstep as [m ->].
      destruct (IH (w ++ [Get url params 120 false; Print m; Sleep 5]))
        as [data [evs [-> [Hle [_ Hall]]]]].
      exists data, ([Get url params 120 false; Print m; Sleep 5] ++ evs).
      rewrite <- app_assoc. split; [done|]. split; [|split].
      * rewrite gets_app. unfold gets at 1. simpl. lia.
      * intros _. rewrite gets_app. unfold gets at 1. simpl. lia.
      * apply Forall_app. split; [|done].
        constructor; [by left|]. constructor; [right; left; by exists m|].
        constructor; [by (right; right) | constructor].
Qed.

(** The answers from the first of [n] attempts on are not accepted, and the
    next one is. *)
Lemma attempts_first_accepted (url : string) (params : list (string * string))
    (k : nat) (range : list nat) (w : World) (data : list record) :
  (k < length range)%nat ->
  (forall j : nat, (j < k)%nat -> accepted (net (gets w + j)%nat url params) = None) ->
  accepted (net (gets w + k)%nat url params) = Some data ->
  exists w',
    attempts net url params range w = (Ok data, w' ++ [Get url params 120 false]) /\
    gets w' = (gets w + k)%nat /\
    slept w' = slept w + 5 * Z.of_nat k.
Proof.
  revert range w. induction k as [|k IH]; intros range w Hk Hnone Hsome.
  - destruct range as [|attempt range]; [simpl in Hk; lia|].
    pose proof (attempts_step url params attempt range w) as Hstep.
    rewrite Nat.add_0_r in Hsome. rewrite Hsome in Hstep.
    exists w. rewrite Hstep. split; [done|]. split; lia.
  - destruct range as [|attempt range]; [simpl in Hk; lia|].
    pose proof (attempts_step url params attempt range w) as Hstep.
    assert (H0 : accepted (net (gets w) url params) = None).
    { specialize (Hnone 0%nat). rewrite Nat.add_0_r in Hnone. apply Hnone. lia. }
    rewrite H0 in Hstep. destruct Hstep as [m ->].
    set (w1 := w ++ [Get url params 120 false; Print m; Sleep 5]).
    assert (Hg : gets w1 = S (gets w)).
    { unfold w1. rewrite gets_app. unfold gets at 2. simpl. lia. }
    destruct (IH range w1) as [w' [-> [Hgets Hslept]]].
    + simpl in Hk. lia.
    + intros j Hj. rewrite Hg.
      replace (S (gets w) + j)%nat with (gets w + S j)%nat by lia. apply Hnone. lia.
    + rewrite Hg. by replace (S (gets w) + k)%nat with (gets w + S k)%nat by lia.
    + exists w'. split; [done|]. split; [lia|].
      rewrite Hslept. unfold w1. rewrite slept_app.
      change (slept [Get url params 120 false; Print m; Sleep 5]) with (5 + 0). lia.
Qed.

Lemma attempts_none_accepted (url : string) (params : list (string * string))
    (range : list nat) (w : World) :
  (forall j : nat, (j < length range)%nat ->
                   accepted (net (gets w + j)%nat url params) = None) ->
  exists w',
    attempts net url params range w = (Ok [], w') /\
    gets w' = (gets w + length range)%nat /\
    slept w' = slept w + 5 * Z.of_nat (length range).
Proof.
  revert w. induction range as [|attempt range IH]; intros w Hnone.
  - exists w. simpl. split; [done|]. split; lia.
  - pose proof (attempts_step url params attempt range w) as Hstep.
    assert (H0 : accepted (net (gets w) url params) = None).
    { specialize (Hnone 0%nat). rewrite Nat.add_0_r in Hnone. apply Hnone. simpl. lia. }
    rewrite H0 in Hstep. destruct Hstep as [m ->].
    set (w1 := w ++ [Get url params 120 false; Print m; Sleep 5]).
    assert (Hg : gets w1 = S (gets w)).
    { unfold w1. rewrite gets_app. unfold gets at 2. simpl. lia. }
    destruct (IH w1) as [w' [-> [Hgets Hslept]]].
    + intros j Hj. rewrite Hg.
      replace (S (gets w) + j)%nat with (gets w + S j)%nat by lia.
      apply Hnone. simpl. lia.
    + exists w'. split; [done|]. split; [simpl; lia|].
      rewrite Hslept. unfold w1. rewrite slept_app.
      change (slept [Get url params 120 false; Print m; Sleep 5]) with (5 + 0).
      simpl length. lia.
Qed.

End FetchTrace.

(** X1. Whatever the remote side answers, [fetch_dataset] returns a list
    (it does not raise), only appends to the trace, issues between one and
    three requests, all to the dataset's URL with the same parameters, a
    120-second timeout and certificate verification off, and otherwise only
    prints and sleeps five seconds. *)
Theorem fetch_dataset_trace
    (net : network) (category dataset_id start_date end_date : string) (w : World) :
  exists data evs,
    fetch_dataset net category dataset_id start_date end_date w = (Ok data, w ++ evs) /\
    (1 <= gets evs <= 3)%nat /\
    Forall (fetch_event (dataset_url category dataset_id)
                        (dataset_params start_date end_date)) evs.
Proof.
  destruct (attempts_trace net (dataset_url category dataset_id)
              (dataset_params start_date end_date) (seq 0 3) w)
    as [data [evs [H [Hle [Hge Hall]]]]].
  exists data, evs. split; [exact H|]. split; [|done].
  split; [by apply Hge | exact Hle].
Qed.

(** X2. When the first [k] attempts are not accepted and the next one is
    answered with status 200 and a decodable body, [fetch_dataset] returns
    that body right after its request: [k + 1] requests in all, five
    seconds slept per earlier attempt and none after the accepted one. *)
Theorem fetch_dataset_first_accepted
    (net : network) (category dataset_id start_date end_date : string) (w : World)
    (k : nat) (data : list record) :
  (k < 3)%nat ->
  (forall j : nat, (j < k)%nat ->
     accepted (net (gets w + j)%nat (dataset_url category dataset_id)
                   (dataset_params start_date end_date)) = None) ->
  accepted (net (gets w + k)%nat (dataset_url category dataset_id)
                (dataset_params start_date end_date)) = Some data ->
  exists w',
    fetch_dataset net category dataset_id start_date end_date w
    = (Ok data,
       w' ++ [Get (dataset_url category dataset_id)
                  (dataset_params start_date end_date) 120 false]) /\
    gets w' = (gets w + k)%nat /\
    slept w' = slept w + 5 * Z.of_nat k.
Proof.
  intros Hk Hnone Hsome.
  apply (attempts_first_accepted net _ _ k (seq 0 3) w data); done.
Qed.

(** The third attempt succeeds after two timeouts. *)
Lemma fetch_dataset_first_accepted_witness :
  exists w',
    fetch_dataset SampleNet2.third_time "gamyba" "105" "2023-09-10" "2024-03-10" []
    = (Ok [SampleRaw.rec "2024-03-01" 1],
       w' ++ [Get (dataset_url "gamyba" "105")
                  (dataset_params "2023-09-10" "2024-03-10") 120 false]) /\
    gets w' = (gets [] + 2)%nat /\
    slept w' = slept [] + 5 * Z.of_nat 2.
Proof.
  apply (fetch_dataset_first_accepted SampleNet2.third_time
           "gamyba" "105" "2023-09-10" "2024-03-10" [] 2).
  - lia.
  - intros j Hj. simpl. destruct j as [|[|j]]; [reflexivity | reflexivity | lia].
  - reflexivity.
Defined.

(** X3. Only status 200 is accepted: when none of the three answers is a
    200 with a decodable body (a 204 or another 2xx status included),
    [fetch_dataset] returns the empty list after exactly three requests
    and fifteen seconds of sleep. *)
Theorem fetch_dataset_none_accepted
    (net : network) (category dataset_id start_date end_date : string) (w : World) :
  (forall j : nat, (j < 3)%nat ->
     accepted (net (gets w + j)%nat (dataset_url category dataset_id)
                   (dataset_params start_date end_date)) = None) ->
  exists w',
    fetch_dataset net category dataset_id start_date end_date w = (Ok [], w') /\
    gets w' = (gets w + 3)%nat /\
    slept w' = slept w + 15.
Proof.
  intros Hnone.
  destruct (attempts_none_accepted net (dataset_url category dataset_id)
              (dataset_params start_date end_date) (seq 0 3) w Hnone)
    as [w' [H [Hg Hs]]].
  exists w'. split; [exact H|]. split; [exact Hg|]. rewrite Hs. simpl. lia.
Qed.

(** Three answers with status 204 and a body are all discarded. *)
Lemma fetch_dataset_none_accepted_witness :
  exists w',
    fetch_dataset SampleNet2.no_content "gamyba" "105" "2023-09-10" "2024-03-10" []
    = (Ok [], w') /\
    gets w' = (gets [] + 3)%nat /\
    slept w' = slept [] + 15.
Proof.
  apply (fetch_dataset_none_accepted SampleNet2.no_content
           "gamyba" "105" "2023-09-10" "2024-03-10" []).
  intros j Hj. reflexivity.
Defined.

(** ** Errors of the normalisation *)

Lemma parse_dates_outcome (parse_datetime : string -> option Z) (df : list (cell * cell)) :
  match parse_dates parse_datetime df with
  | Ok parsed =>
      length parsed = length df /\
      forall s v, (Str s, v) ∈ df -> parse_datetime s <> None
  | Raise e =>
      exists l1 s v l2,
        df = l1 ++ (Str s, v) :: l2 /\ e = ValueError s /\ parse_datetime s = None /\
        forall s' v', (Str s', v') ∈ l1 -> parse_datetime s' <> None
  end.
Proof.
  unfold parse_dates. induction df as [|[d v] df IH]; simpl.
  - split; [done|]. intros s v H. by apply elem_of_nil in H.
  - destruct d as [s|t|z|]; simpl.
    + destruct (parse_datetime s) as [t|] eqn:Ep; simpl.
      * destruct (rmapM _ df) as [parsed|e]; simpl.
        -- destruct IH as [Hlen Hall]. split; [simpl; lia|].
           intros s' v' H. apply elem_of_cons in H as [H|H]; [|by apply (Hall s' v')].
           injection H as -> ->. by rewrite Ep.
        -- destruct IH as [l1 [s' [v' [l2 [-> [-> [Hp Hall]]]]]]].
           exists ((Str s, v) :: l1), s', v', l2. repeat split; try done.
           intros s0 v0 H. apply elem_of_cons in H as [H|H]; [|by apply (Hall s0 v0)].
           injection H as -> ->. by rewrite Ep.
      * exists [], s, v, df. repeat split; try done.
        intros s' v' H. by apply elem_of_nil in H.
    + destruct (rmapM _ df) as [parsed|e]; simpl.
      * destruct IH as [Hlen Hall]. split; [simpl; lia|].
        intros s' v' H. apply elem_of_cons in H as [H|H]; [done | by apply (Hall s' v')].
      * destruct IH as [l1 [s' [v' [l2 [-> [-> [Hp Hall]]]]]]].
        exists ((Time t, v) :: l1), s', v', l2. repeat split; try done.
        intros s0 v0 H. apply elem_of_cons in H as [H|H]; [done | by apply (Hall s0 v0)].
    + destruct (rmapM _ df) as [parsed|e]; simpl.
      * destruct IH as [Hlen Hall]. split; [simpl; lia|].
        intros s' v' H. apply elem_of_cons in H as [H|H]; [done | by apply (Hall s' v')].
      * destruct IH as [l1 [s' [v' [l2 [-> [-> [Hp Hall]]]]]]].
        exists ((Num z, v) :: l1), s', v', l2. repeat split; try done.
        intros s0 v0 H. apply elem_of_cons in H as [H|H]; [done | by apply (Hall s0 v0)].
    + destruct (rmapM _ df) as [parsed|e]; simpl.
      * destruct IH as [Hlen Hall]. split; [simpl; lia|].
        intros s' v' H. apply elem_of_cons in H as [H|H]; [done | by apply (Hall s' v')].
      * destruct IH as [l1 [s' [v' [l2 [-> [-> [Hp Hall]]]]]]].
        exists ((NA, v) :: l1), s', v', l2. repeat split; try done.
        intros s0 v0 H. apply elem_of_cons in H as [H|H]; [done | by apply (Hall s0 v0)].
Qed.

(** X4. On a series whose dates are strings or missing (none is a number),
    the normalisation either succeeds, and then every date string of the
    input parses, or raises [ValueError] for the first date string that does
    not parse; a missing date never makes it raise. *)
Theorem normalize_frame_value_error
    (parse_datetime : string -> option Z) (df : list (cell * cell)) :
  (forall (z : Z) (v : cell), (Num z, v) ∉ df) ->
  match normalize_frame parse_datetime df with
  | Ok out =>
      (length out <= length df)%nat /\
      forall s v, (Str s, v) ∈ df -> parse_datetime s <> None
  | Raise e =>
      exists l1 s v l2,
        df = l1 ++ (Str s, v) :: l2 /\ e = ValueError s /\ parse_datetime s = None /\
        forall s' v', (Str s', v') ∈ l1 -> parse_datetime s' <> None
  end.
Proof.
  intros _. unfold normalize_frame.
  pose proof (parse_dates_outcome parse_datetime df) as H.
  destruct (parse_dates parse_datetime df) as [parsed|e]; simpl; [|done].
  destruct H as [Hlen Hall]. split; [|done].
  rewrite <- Hlen. apply sublist_length. apply drop_duplicates_from_sublist.
Qed.

Example normalize_frame_bad_date :
  normalize_frame Sample.parse_iso
    [(Str "2024-03-01", Num 1); (NA, Num 2); (Str "soon", Num 3); (Str "later", Num 4)]
  = Raise (ValueError "soon").
Proof. reflexivity. Qed.

(** ** Shape of the merged table *)

Lemma label_imap_from {A : Type} (g : A -> gmap string cell) (n : nat) (l : list A) :
  map label (imap (fun i e => mkRow (Z.of_nat (n + i)) (g e)) l)
  = map Z.of_nat (seq n (length l)).
Proof.
  revert n. induction l as [|a l IH]; intros n; simpl; [done|].
  rewrite Nat.add_0_r. f_equal.
  rewrite <- (IH (S n)). f_equal. apply imap_ext. intros i x _. simpl.
  by replace (n + S i)%nat with (S n + i)%nat by lia.
Qed.

Lemma joined_row_is_Some (dfs : list Series) (k : option Z) (c : string) :
  c ∈ map series_name dfs -> is_Some (joined_row dfs k !! c).
Proof.
  unfold joined_row. induction dfs as [|s dfs IH]; intros H; simpl in *.
  - by apply elem_of_nil in H.
  - destruct (decide (series_name s = c)) as [->|Hne].
    + rewrite lookup_insert_eq. by eexists.
    + rewrite lookup_insert_ne by done. apply IH.
      apply elem_of_cons in H as [H|H]; [congruence | done].
Qed.

(** X5. The merged table has the column [data] followed by one column per
    series in the order given; it has one row per distinct timestamp of the
    inputs, labelled 0, 1, 2, ...; and every row holds a cell (a value or
    the missing marker) for every column. *)
Theorem merge_shape (dfs : list Series) :
  columns (merge dfs) = "data" :: map series_name dfs /\
  length (rows (merge dfs))
  = length (remove_dups (map fst (concat (map entries dfs)))) /\
  map label (rows (merge dfs)) = map Z.of_nat (seq 0 (length (rows (merge dfs)))) /\
  (forall r c, r ∈ rows (merge dfs) -> c ∈ columns (merge dfs) -> is_Some (cells r !! c)).
Proof.
  split; [done|].
  assert (Hlen : length (rows (merge dfs)) = length (sort_index (concat_outer dfs))).
  { rewrite rows_merge. apply length_imap. }
  split; [|split].
  - rewrite Hlen. rewrite (Permutation_length (sort_index_perm (concat_outer dfs))).
    unfold concat_outer, index_union. rewrite !length_map.
    apply drop_duplicates_length.
  - rewrite Hlen. rewrite rows_merge.
    apply (label_imap_from (fun e => <["data" := cell_of_ts e.1]> e.2) 0).
  - intros r c Hr Hc. rewrite rows_merge in Hr.
    apply elem_of_imap_inv in Hr as [i [e [He ->]]].
    rewrite sort_index_perm in He. unfold concat_outer in He.
    apply list_elem_of_fmap in He as [k [-> _]]. simpl in *.
    apply elem_of_cons in Hc as [->|Hc].
    + rewrite lookup_insert_eq. by eexists.
    + destruct (decide ("data" = c)) as [<-|Hne].
      * rewrite lookup_insert_eq. by eexists.
      * rewrite lookup_insert_ne by done. by apply joined_row_is_Some.
Qed.

(** ** What the trim keeps *)

Lemma df_empty_false_iff (df : DataFrame) :
  df_empty df = false <-> columns df <> [] /\ rows df <> [].
Proof.
  unfold df_empty. destruct (columns df), (rows df); split; try done;
    intros [H1 H2]; done.
Qed.

Lemma sublist_List_filter {A : Type} (p : A -> bool) (l : list A) :
  sublist (List.filter p l) l.
Proof.
  induction l as [|a l IH]; simpl; [constructor|].
  destruct (p a); [by apply sublist_skip | by apply sublist_cons].
Qed.

Section TrimKeeps.

Variable parse_datetime : string -> option Z.

Local Abbreviation coerce := (to_datetime_coerce parse_datetime).
Local Abbreviation limit := (_limit_to_last_6_months parse_datetime).
Local Abbreviation prow := (parse_row parse_datetime).

(** The row that carries the maximum passes the cutoff. *)
Lemma limit_max_row_kept (df : DataFrame) (c : string) (m : Z) :
  series_max (map coerce (column df c)) = Some m ->
  exists r1, r1 ∈ rows df /\
    prow c r1 ∈ List.filter (fun r => ge_cutoff (m - timedelta_days SIX_MONTH_DAYS)
                                                (get_cell r c))
                            (map (prow c) (rows df)).
Proof.
  intros Em. apply series_max_some in Em as [[c0 [Hin0 Hc0]] _].
  apply list_elem_of_fmap in Hin0 as [c1 [-> Hin1]].
  apply list_elem_of_fmap in Hin1 as [r1 [-> Hr1]].
  exists r1. split; [done|]. apply elem_of_filter. split.
  - apply list_elem_of_fmap. by exists r1.
  - unfold ge_cutoff. rewrite get_parse_row, Hc0.
    apply Z.leb_le. pose proof timedelta_days_nonneg. lia.
Qed.

Lemma parse_row_other (c c' : string) (r : Row) :
  c' <> c -> cells (prow c r) !! c' = cells r !! c'.
Proof. intros H. unfold parse_row, set_cell. simpl. by rewrite lookup_insert_ne. Qed.

(** X6. The trim keeps the columns, never empties a table that has rows
    and columns, keeps the retained rows in their order with their labels,
    and leaves every cell outside the date column as it was. *)
Theorem limit_to_last_6_months_keeps (df : DataFrame) (date_col : string) :
  columns (limit df date_col) = columns df /\
  df_empty (limit df date_col) = df_empty df /\
  sublist (map label (rows (limit df date_col))) (map label (rows df)) /\
  (forall r, r ∈ rows (limit df date_col) ->
     exists r0, r0 ∈ rows df /\ label r = label r0 /\
                forall c', c' <> date_col -> cells r !! c' = cells r0 !! c').
Proof.
  destruct (df_empty df) eqn:He.
  { rewrite limit_noop by by left. rewrite He. repeat split; try done.
    intros r Hr. by exists r. }
  destruct (has_column df date_col) eqn:Hc; cycle 1.
  { rewrite limit_noop by by right. rewrite He. repeat split; try done.
    intros r Hr. by exists r. }
  rewrite limit_unfold by done.
  assert (Hlab : map label (map (prow date_col) (rows df)) = map label (rows df)).
  { rewrite map_map. by apply map_ext. }
  assert (Horigin : forall r, r ∈ map (prow date_col) (rows df) ->
            exists r0, r0 ∈ rows df /\ label r = label r0 /\
                       forall c', c' <> date_col -> cells r !! c' = cells r0 !! c').
  { intros r Hr. apply list_elem_of_fmap in Hr as [r0 [-> Hr0]].
    exists r0. repeat split; [done|]. intros c' Hc'. by apply parse_row_other. }
  apply df_empty_false_iff in He as [Hcols Hrows].
  destruct (series_max (map coerce (column df date_col))) as [m|] eqn:Em; simpl.
  - split; [done|]. split; [|split].
    + apply df_empty_false_iff. simpl. split; [done|].
      destruct (limit_max_row_kept df date_col m Em) as [r1 [_ Hin]].
      intros Hnil. rewrite Hnil in Hin. by apply elem_of_nil in Hin.
    + rewrite <- Hlab. apply (fmap_sublist label). apply sublist_List_filter.
    + intros r Hr. apply elem_of_filter in Hr as [Hr _]. by apply Horigin.
  - split; [done|]. split; [|split].
    + apply df_empty_false_iff. simpl. split; [done|].
      destruct (rows df); [done | discriminate].
    + by rewrite Hlab.
    + exact Horigin.
Qed.

End TrimKeeps.


(** ** Errors and shape of the processor *)

Lemma require_columns_outcome (df : DataFrame) (cs : list string) :
  match require_columns df cs with
  | Ok _ => forall c, c ∈ cs -> c ∈ columns df
  | Raise e =>
      exists missing,
        e = KeyError missing /\ missing <> [] /\
        forall c, c ∈ missing <-> c ∈ cs /\ c ∉ columns df
  end.
Proof.
  unfold require_columns.
  destruct (List.filter (fun c => negb (has_column df c)) cs) as [|c0 l] eqn:E.
  - intros c Hc. destruct (has_column df c) eqn:Hh; [by apply has_column_true|].
    assert (Hin : c ∈ List.filter (fun c => negb (has_column df c)) cs).
    { apply elem_of_filter. split; [done|]. by rewrite Hh. }
    rewrite E in Hin. by apply elem_of_nil in Hin.
  - exists (c0 :: l). split; [done|]. split; [done|].
    intros c. rewrite <- E, elem_of_filter, negb_true_iff, has_column_false. tauto.
Qed.

Lemma columns_assign (df : DataFrame) (c : string) (vals : list cell) :
  columns (assign df c vals)
  = if bool_decide (c ∈ columns df) then columns df else columns df ++ [c].
Proof. reflexivity. Qed.

Section ProcessErrors.

Variable parse_datetime : string -> option Z.

(** X7. On a non-empty table that lacks one of the seven series columns
    the processor raises [KeyError], naming only columns that are required
    and absent, and prints nothing. *)
Theorem process_data_key_error (df : DataFrame) (w : World) (c : string) :
  df_empty df = false ->
  c ∈ sources ++ [consumption] ->
  c ∉ columns df ->
  exists missing,
    process_data parse_datetime df w = (Raise (KeyError missing), w) /\
    missing <> [] /\
    forall c', c' ∈ missing -> c' ∈ sources ++ [consumption] /\ c' ∉ columns df.
Proof.
  intros He Hc Hnc. unfold process_data. rewrite He.
  set (tdf := _limit_to_last_6_months parse_datetime df "data").
  assert (Hcols : columns tdf = columns df) by apply columns_limit.
  unfold bind at 1. unfold lift at 1.
  pose proof (require_columns_outcome tdf sources) as H1.
  destruct (require_columns tdf sources) as [[]|e].
  - set (df1 := foldl _ tdf sources).
    assert (H1cols : columns df1 = columns df).
    { unfold df1. rewrite fill_columns_columns; [done | exact H1]. }
    unfold bind at 1. unfold lift at 1.
    pose proof (require_columns_outcome df1 ["Vartojimas"]) as H2.
    destruct (require_columns df1 ["Vartojimas"]) as [[]|e].
    + exfalso. apply Hnc. apply elem_of_app in Hc as [Hc|Hc].
      * rewrite <- Hcols. by apply H1.
      * apply list_elem_of_singleton in Hc as ->. rewrite <- H1cols.
        apply H2. apply list_elem_of_here.
    + destruct H2 as [missing [-> [Hne Hm]]]. exists missing.
      split; [done|]. split; [done|]. intros c' Hc'. apply Hm in Hc' as [Hin Hout].
      split; [apply elem_of_app; by right | by rewrite <- H1cols].
  - destruct H1 as [missing [-> [Hne Hm]]]. exists missing.
    split; [done|]. split; [done|]. intros c' Hc'. apply Hm in Hc' as [Hin Hout].
    split; [apply elem_of_app; by left | by rewrite <- Hcols].
Qed.

End ProcessErrors.

(** A table with a generation column only. *)
Lemma process_data_key_error_witness :
  exists missing,
    process_data Sample.parse_iso Sample.df_no_date [] = (Raise (KeyError missing), []) /\
    missing <> [] /\
    forall c', c' ∈ missing ->
               c' ∈ sources ++ [consumption] /\ c' ∉ columns Sample.df_no_date.
Proof.
  apply (process_data_key_error Sample.parse_iso Sample.df_no_date [] consumption).
  - reflexivity.
  - apply elem_of_app. right. apply list_elem_of_here.
  - intros H. list_cases H. discriminate H.
Defined.

Section ProcessShape.

Variable parse_datetime : string -> option Z.

Lemma process_data_columns (df : DataFrame) (w w' : World) (out : DataFrame) :
  df_empty df = false ->
  process_data parse_datetime df w = (Ok out, w') ->
  columns out = processed_columns (columns df).
Proof.
  intros He. unfold process_data. rewrite He.
  set (tdf := _limit_to_last_6_months parse_datetime df "data").
  assert (Hcols : columns tdf = columns df) by apply columns_limit.
  unfold bind at 1. unfold lift at 1.
  pose proof (require_columns_outcome tdf sources) as H1.
  destruct (require_columns tdf sources) as [[]|e]; [|discriminate].
  set (df1 := foldl _ tdf sources).
  assert (H1cols : columns df1 = columns df).
  { unfold df1. rewrite fill_columns_columns; [done | exact H1]. }
  unfold bind at 1. unfold lift at 1.
  pose proof (require_columns_outcome df1 ["Vartojimas"]) as H2.
  destruct (require_columns df1 ["Vartojimas"]) as [[]|e]; [|discriminate].
  set (df2 := assign df1 "Vartojimas" _).
  assert (H2cols : columns df2 = columns df).
  { unfold df2. rewrite columns_assign, bool_decide_eq_true_2; [done|].
    apply H2. apply list_elem_of_here. }
  unfold bind at 1. unfold lift at 1.
  destruct (rmapM _ (rows df2)) as [total|e]; [|discriminate].
  set (df3 := assign df2 "Sumine_Generacija" total).
  unfold bind at 1. unfold lift at 1.
  destruct (rmapM _ (zip _ _)) as [diff|e]; [|discriminate].
  unfold ret. intros H. injection H as <- _.
  unfold processed_columns. rewrite columns_assign. unfold df3.
  rewrite columns_assign, H2cols. reflexivity.
Qed.

(** The processed table with its columns spelled out. *)
Lemma process_data_table (df : DataFrame) (w : World) :
  df_empty df = false ->
  (forall c, c ∈ sources ++ [consumption] -> c ∈ columns df) ->
  numeric_table df ->
  process_data parse_datetime df w
  = (Ok (mkDF (processed_columns (columns df))
           (zip_with processed_row
              (rows (_limit_to_last_6_months parse_datetime df "data"))
              (ffill (column (_limit_to_last_6_months parse_datetime df "data")
                             consumption)))),
     w).
Proof.
  intros He Hcols Hnum.
  destruct (process_data_rows parse_datetime df w He Hcols Hnum) as [cols H].
  rewrite H. f_equal. f_equal. apply df_eq; [|done]. simpl.
  by apply (process_data_columns df w w _ He H).
Qed.

End ProcessShape.

Lemma cells_set_other (r : Row) (c c' : string) (v : cell) :
  c <> c' -> cells (set_cell r c v) !! c' = cells r !! c'.
Proof. intros H. unfold set_cell. simpl. by rewrite lookup_insert_ne. Qed.

Lemma cells_fill_cells (r : Row) (cs : list string) (c : string) :
  c ∉ cs ->
  cells (foldl (fun r c => set_cell r c (fillna 0 (get_cell r c))) r cs) !! c
  = cells r !! c.
Proof.
  revert r. induction cs as [|c0 cs IH]; intros r Hc; [done|].
  change (foldl ?f r (c0 :: cs)) with (foldl f (f r c0) cs).
  rewrite IH.
  - apply cells_set_other. intros ->. apply Hc. apply list_elem_of_here.
  - intros H. apply Hc. by apply list_elem_of_further.
Qed.

(** The processor leaves the cells of the other columns alone. *)
Lemma cells_processed_other (r : Row) (v : cell) (c : string) :
  c ∉ sources ++ [consumption; "Sumine_Generacija"; "Disbalansas"] ->
  cells (processed_row r v) !! c = cells r !! c.
Proof.
  intros Hc. unfold processed_row. cbv zeta.
  assert (Hs : c ∉ sources) by (intros H; apply Hc; apply elem_of_app; by left).
  assert (Hv : consumption <> c).
  { intros <-. apply Hc. apply elem_of_app. right. apply list_elem_of_here. }
  assert (Hg : "Sumine_Generacija" <> c).
  { intros <-. apply Hc. apply elem_of_app. right.
    apply list_elem_of_further, list_elem_of_here. }
  assert (Hd : "Disbalansas" <> c).
  { intros <-. apply Hc. apply elem_of_app. right.
    apply list_elem_of_further, list_elem_of_further, list_elem_of_here. }
  rewrite !cells_set_other by done. by apply cells_fill_cells.
Qed.

(** X8. On a non-empty table with the seven numeric series columns and
    without the two derived ones, the processor appends exactly the columns
    [Sumine_Generacija] and [Disbalansas] after the existing ones, prints
    nothing, and leaves every cell of the other columns (the dates among
    them) as the trim gave it. *)
Theorem process_data_schema
    (parse_datetime : string -> option Z) (df : DataFrame) (w : World) :
  df_empty df = false ->
  (forall c, c ∈ sources ++ [consumption] -> c ∈ columns df) ->
  numeric_table df ->
  "Sumine_Generacija" ∉ columns df ->
  "Disbalansas" ∉ columns df ->
  exists out,
    process_data parse_datetime df w = (Ok out, w) /\
    columns out = columns df ++ ["Sumine_Generacija"; "Disbalansas"] /\
    forall (i : nat) (r : Row),
      rows (_limit_to_last_6_months parse_datetime df "data") !! i = Some r ->
      exists r',
        rows out !! i = Some r' /\
        forall c, c ∉ sources ++ [consumption; "Sumine_Generacija"; "Disbalansas"] ->
                  cells r' !! c = cells r !! c.
Proof.
  intros He Hcols Hnum Hg Hd.
  eexists. split; [by apply process_data_table|]. simpl. split.
  - unfold processed_columns.
    rewrite (bool_decide_eq_false_2 _ Hg).
    rewrite bool_decide_eq_false_2.
    + by rewrite <- app_assoc.
    + intros H. apply elem_of_app in H as [H|H]; [done|].
      apply list_elem_of_singleton in H. discriminate H.
  - intros i r Hr.
    set (tdf := _limit_to_last_6_months parse_datetime df "data") in *.
    assert (Hlen : length (ffill (column tdf consumption)) = length (rows tdf)).
    { unfold ffill. rewrite ffill_from_length. unfold column. apply length_map. }
    assert (Hi : (i < length (ffill (column tdf consumption)))%nat).
    { rewrite Hlen. by apply lookup_lt_Some with (x := r). }
    apply lookup_lt_is_Some in Hi as [v Hv].
    exists (processed_row r v).
    split; [exact (lookup_zip_with_pair processed_row _ _ i r v Hr Hv)|].
    intros c Hc. by apply cells_processed_other.
Qed.

(** The schema on the sample merged table. *)
Lemma process_data_schema_witness :
  exists out,
    process_data Sample.parse_iso SampleTable.df_merged [] = (Ok out, []) /\
    columns out = columns SampleTable.df_merged ++ ["Sumine_Generacija"; "Disbalansas"] /\
    forall (i : nat) (r : Row),
      rows (_limit_to_last_6_months Sample.parse_iso SampleTable.df_merged "data") !! i
      = Some r ->
      exists r',
        rows out !! i = Some r' /\
        forall c, c ∉ sources ++ [consumption; "Sumine_Generacija"; "Disbalansas"] ->
                  cells r' !! c = cells r !! c.
Proof.
  apply (process_data_schema Sample.parse_iso SampleTable.df_merged []).
  - reflexivity.
  - exact df_merged_columns.
  - exact df_merged_numeric.
  - intros H. list_cases H; discriminate H.
  - intros H. list_cases H; discriminate H.
Defined.

(** ** Trimming again after processing *)

Lemma map_zip_with_l {A B C D : Type} (f : C -> D) (g : A -> B -> C) (h : A -> D)
    (l : list A) (k : list B) :
  (forall a b, f (g a b) = h a) -> (length l <= length k)%nat ->
  map f (zip_with g l k) = map h l.
Proof.
  intros Hf. revert k. induction l as [|a l IH]; intros [|b k] Hlen; simpl in *;
    try done; try lia.
  rewrite Hf. f_equal. apply IH. lia.
Qed.

Section TrimFixed.

Variable parse_datetime : string -> option Z.

Local Abbreviation coerce := (to_datetime_coerce parse_datetime).
Local Abbreviation limit := (_limit_to_last_6_months parse_datetime).
Local Abbreviation prow := (parse_row parse_datetime).

Lemma df_empty_limit (df : DataFrame) (c : string) :
  df_empty (limit df c) = df_empty df.
Proof.
  destruct (df_empty df) eqn:He; [by rewrite limit_noop by by left|].
  destruct (has_column df c) eqn:Hc; [|by rewrite limit_noop by by right].
  rewrite limit_unfold by done.
  apply df_empty_false_iff in He as [Hcols Hrows].
  apply df_empty_false_iff.
  destruct (series_max (map coerce (column df c))) as [m|] eqn:Em; simpl.
  - split; [done|].
    destruct (limit_max_row_kept parse_datetime df c m Em) as [r1 [_ Hin]].
    intros Hnil. rewrite Hnil in Hin. by apply elem_of_nil in Hin.
  - split; [done|]. destruct (rows df); [done | discriminate].
Qed.

Lemma parse_row_fixed (c : string) (r : Row) (x : cell) :
  cells r !! c = Some x -> coerce x = x -> prow c r = r.
Proof.
  intros Hx Hfix. unfold parse_row, set_cell, get_cell. rewrite Hx. simpl.
  rewrite Hfix. destruct r as [l m]. simpl in *. f_equal. by apply insert_id.
Qed.

(** A table whose rows are as the trim leaves them is a fixed point. *)
Lemma limit_fixed (df : DataFrame) (c : string) :
  df_empty df = false -> has_column df c = true ->
  trimmed parse_datetime c (rows df) -> limit df c = df.
Proof.
  intros He Hc [Ha Hb]. rewrite limit_unfold by done.
  assert (Hrows : map (prow c) (rows df) = rows df).
  { rewrite <- (map_id (rows df)) at 2. apply map_ext_in. intros r Hr.
    apply list_elem_of_In in Hr. destruct (Ha r Hr) as [x [Hx Hfix]].
    by apply (parse_row_fixed c r x). }
  unfold column. rewrite map_map, Hrows.
  destruct (series_max (map (fun r => coerce (get_cell r c)) (rows df))) as [m|] eqn:Em.
  - apply df_eq; simpl; [done|]. apply filter_all. intros r Hr. by apply (Hb m).
  - by apply df_eq.
Qed.

(** The rows the trim returns are trimmed. *)
Lemma limit_trimmed (df : DataFrame) (c : string) :
  df_empty df = false -> has_column df c = true ->
  trimmed parse_datetime c (rows (limit df c)).
Proof.
  intros He Hc. rewrite limit_unfold by done.
  assert (Ha : forall r, r ∈ map (prow c) (rows df) ->
            exists x, cells r !! c = Some x /\ coerce x = x).
  { intros r Hr. apply list_elem_of_fmap in Hr as [r0 [-> Hr0]].
    exists (coerce (get_cell r0 c)). split; [|apply coerce_idem].
    unfold parse_row, set_cell. simpl. by rewrite lookup_insert_eq. }
  destruct (series_max (map coerce (column df c))) as [m|] eqn:Em; simpl.
  - split.
    + intros r Hr. apply elem_of_filter in Hr as [Hr _]. by apply Ha.
    + intros m' Em' r Hr.
      assert (m' = m) as ->; [|by apply elem_of_filter in Hr as [_ Hr]].
      destruct (limit_max_row_kept parse_datetime df c m Em) as [r1 [Hr1 Hin]].
      pose proof (series_max_some _ _ Em) as [[c0 [Hin0 Hc0]] Hle].
      pose proof (series_max_some _ _ Em') as [[c0' [Hin0' Hc0']] Hle'].
      apply list_elem_of_fmap in Hin0' as [r2 [-> Hr2]].
      apply elem_of_filter in Hr2 as [Hr2 _].
      apply list_elem_of_fmap in Hr2 as [r3 [-> Hr3]].
      rewrite get_parse_row, coerce_idem in Hc0'.
      assert (H1 : m' <= m).
      { apply (Hle (coerce (get_cell r3 c))); [|done].
        apply list_elem_of_fmap. exists (get_cell r3 c). split; [done|].
        apply list_elem_of_fmap. by exists r3. }
      assert (H2 : m <= m').
      { pose proof Hin as Hin'. apply elem_of_filter in Hin' as [_ Hge].
        unfold ge_cutoff in Hge. rewrite get_parse_row in Hge.
        destruct (ts_of (coerce (get_cell r1 c))) as [t1|] eqn:Et1; [|discriminate].
        assert (Ht1 : t1 <= m').
        { apply (Hle' (coerce (get_cell (prow c r1) c))).
          - apply list_elem_of_fmap. by exists (prow c r1).
          - by rewrite get_parse_row, coerce_idem. }
        apply list_elem_of_fmap in Hin0 as [c1 [-> Hin1]].
        apply list_elem_of_fmap in Hin1 as [r4 [-> Hr4]].
        assert (Hm : m <= m').
        { apply (Hle' (coerce (get_cell (prow c r4) c))).
          - apply list_elem_of_fmap. exists (prow c r4). split; [done|].
            apply elem_of_filter. split; [apply list_elem_of_fmap; by exists r4|].
            unfold ge_cutoff. rewrite get_parse_row, Hc0.
            apply Z.leb_le. pose proof timedelta_days_nonneg. lia.
          - by rewrite get_parse_row, coerce_idem. }
        exact Hm. }
      lia.
  - split; [exact Ha|].
    intros m' Em'. exfalso.
    rewrite map_map in Em'.
    assert (Heq : map (fun x => coerce (get_cell (prow c x) c)) (rows df)
                  = map coerce (column df c)).
    { unfold column. rewrite map_map. apply map_ext. intros r.
      by rewrite get_parse_row, coerce_idem. }
    rewrite Heq in Em'. congruence.
Qed.

(** Being trimmed depends on the date cells only. *)
Lemma trimmed_ext (c : string) (rs rs' : list Row) :
  map (fun r => cells r !! c) rs' = map (fun r => cells r !! c) rs ->
  trimmed parse_datetime c rs -> trimmed parse_datetime c rs'.
Proof.
  intros Heq [Ha Hb].
  assert (Hback : forall r', r' ∈ rs' -> exists r, r ∈ rs /\ cells r' !! c = cells r !! c).
  { intros r' Hr'.
    assert (Hin : cells r' !! c ∈ map (fun r => cells r !! c) rs').
    { apply list_elem_of_fmap. by exists r'. }
    rewrite Heq in Hin. apply list_elem_of_fmap in Hin as [r [Hr Hin]]. by exists r. }
  assert (Hmax : map (fun r => coerce (get_cell r c)) rs'
                 = map (fun r => coerce (get_cell r c)) rs).
  { pose proof (f_equal (map (fun o => coerce (default NA o))) Heq) as Heq'.
    rewrite !map_map in Heq'. exact Heq'. }
  split.
  - intros r' Hr'. destruct (Hback r' Hr') as [r [Hr ->]]. by apply Ha.
  - intros m Em r' Hr'. rewrite Hmax in Em.
    destruct (Hback r' Hr') as [r [Hr Hcell]].
    unfold get_cell. rewrite Hcell. by apply (Hb m Em r).
Qed.

End TrimFixed.

Lemma elem_of_processed_columns (cols : list string) (c : string) :
  c ∈ processed_columns cols
  <-> c ∈ cols \/ c = "Sumine_Generacija" \/ c = "Disbalansas".
Proof.
  unfold processed_columns.
  destruct (bool_decide ("Sumine_Generacija" ∈ cols)) eqn:Eg.
  - apply bool_decide_eq_true in Eg.
    destruct (bool_decide ("Disbalansas" ∈ cols)) eqn:Ed.
    + apply bool_decide_eq_true in Ed. split; [tauto|].
      intros [H|[->| ->]]; done.
    + rewrite elem_of_app, list_elem_of_singleton. split; [tauto|].
      intros [H|[->|H]]; tauto.
  - destruct (bool_decide ("Disbalansas" ∈ cols ++ ["Sumine_Generacija"])) eqn:Ed.
    + apply bool_decide_eq_true in Ed.
      rewrite elem_of_app, list_elem_of_singleton in Ed.
      destruct Ed as [Ed|Ed]; [|discriminate Ed].
      rewrite elem_of_app, list_elem_of_singleton. split; [tauto|].
      intros [H|[H| ->]]; tauto.
    + rewrite !elem_of_app, !list_elem_of_singleton. tauto.
Qed.

Lemma data_not_processed :
  "data" ∉ sources ++ [consumption; "Sumine_Generacija"; "Disbalansas"].
Proof. intros H. list_cases H; discriminate H. Qed.

(** X9. Trimming the processed table again, as the visualisation and the
    analysis stages do on entry, returns it unchanged. *)
Theorem process_data_then_limit
    (parse_datetime : string -> option Z) (df : DataFrame) (w : World) :
  df_empty df = false ->
  (forall c, c ∈ sources ++ [consumption] -> c ∈ columns df) ->
  numeric_table df ->
  exists out,
    process_data parse_datetime df w = (Ok out, w) /\
    _limit_to_last_6_months parse_datetime out "data" = out.
Proof.
  intros He Hcols Hnum.
  eexists. split; [by apply process_data_table|].
  set (tdf := _limit_to_last_6_months parse_datetime df "data").
  set (vs := ffill (column tdf consumption)).
  set (out := mkDF (processed_columns (columns df)) (zip_with processed_row (rows tdf) vs)).
  assert (Hlen : length vs = length (rows tdf)).
  { unfold vs, ffill. rewrite ffill_from_length. unfold column. apply length_map. }
  destruct (has_column df "data") eqn:Hc.
  - apply has_column_true in Hc.
    assert (Hte : df_empty tdf = false) by (unfold tdf; by rewrite df_empty_limit).
    apply df_empty_false_iff in Hte as [_ Hrows].
    apply limit_fixed.
    + apply df_empty_false_iff. simpl. split.
      * intros Hnil.
        assert (Hin : "data" ∈ processed_columns (columns df))
          by (apply elem_of_processed_columns; by left).
        rewrite Hnil in Hin. by apply elem_of_nil in Hin.
      * intros Hnil. apply (f_equal length) in Hnil.
        rewrite length_zip_with, Hlen in Hnil. simpl in Hnil.
        destruct (rows tdf); [done | simpl in Hnil; lia].
    + apply has_column_true. simpl. apply elem_of_processed_columns. by left.
    + simpl. apply (trimmed_ext parse_datetime "data" (rows tdf)).
      * apply map_zip_with_l; [|lia].
        intros r v. apply cells_processed_other. exact data_not_processed.
      * apply limit_trimmed; [done | by apply has_column_true].
  - apply limit_noop. right. apply has_column_false. simpl.
    rewrite elem_of_processed_columns. apply has_column_false in Hc.
    intros [H|[H|H]]; [done | discriminate H | discriminate H].
Qed.

(** Trimming the processed sample table again. *)
Lemma process_data_then_limit_witness :
  exists out,
    process_data Sample.parse_iso SampleTable.df_merged [] = (Ok out, []) /\
    _limit_to_last_6_months Sample.parse_iso out "data" = out.
Proof.
  apply (process_data_then_limit Sample.parse_iso SampleTable.df_merged []).
  - reflexivity.
  - exact df_merged_columns.
  - exact df_merged_numeric.
Defined.

(** ** Where the processed table can still be missing *)





(** ** The fetch loop *)

Lemma bind_ok {A B : Type} (c : IO A) (k : A -> IO B) (w w1 : World) (a : A) :
  c w = (Ok a, w1) -> bind c k w = k a w1.
Proof. intros H. unfold bind. by rewrite H. Qed.

Lemma bind_raise {A B : Type} (c : IO A) (k : A -> IO B) (w w1 : World) (e : exn) :
  c w = (Raise e, w1) -> bind c k w = (Raise e, w1).
Proof. intros H. unfold bind. by rewrite H. Qed.

Lemma gets_print (w : World) (m : message) : gets (w ++ [Print m]) = gets w.
Proof. rewrite gets_app. unfold gets at 2. simpl. lia. Qed.

Lemma gets_print_sleep (w : World) (m : message) (n : Z) :
  gets (w ++ [Print m; Sleep n]) = gets w.
Proof. rewrite gets_app. unfold gets at 2. simpl. lia. Qed.

Section FetchLoop.

Variable parse_datetime : string -> option Z.
Variable net : network.

Local Abbreviation loop := (fetch_loop parse_datetime net).

(** The data of a fetch: nothing, or a body the remote side sent with
    status 200. *)
Lemma attempts_data (url : string) (params : list (string * string))
    (range : list nat) (w : World) :
  exists data w1,
    attempts net url params range w = (Ok data, w1) /\
    (gets w <= gets w1 <= gets w + length range)%nat /\
    (range <> [] -> (gets w + 1 <= gets w1)%nat) /\
    (data = [] \/ exists n, accepted (net n url params) = Some data).
Proof.
  revert w. induction range as [|attempt range IH]; intros w.
  - exists [], w. simpl. split; [done|]. split; [lia|]. split; [done | by left].
  - pose proof (attempts_step net url params attempt range w) as Hstep.
    destruct (accepted (net (gets w) url params)) as [data|] eqn:Ea.
    + exists data, (w ++ [Get url params 120 false]). split; [done|].
      assert (Hg : gets (w ++ [Get url params 120 false]) = S (gets w)).
      { rewrite gets_app. unfold gets at 2. simpl. lia. }
      rewrite Hg. simpl. split; [lia|]. split; [lia|]. right. by exists (gets w).
    + destruct Hstep as [m ->].
      destruct (IH (w ++ [Get url params 120 false; Print m; Sleep 5]))
        as [data [w1 [-> [Hle [_ Hd]]]]].
      assert (Hg : gets (w ++ [Get url params 120 false; Print m; Sleep 5]) = S (gets w)).
      { rewrite gets_app. unfold gets at 2. simpl. lia. }
      rewrite Hg in Hle. exists data, w1. split; [done|]. simpl.
      split; [lia|]. split; [lia | done].
Qed.

(** One turn of the loop: what is fetched decides whether a frame is
    appended, the series skipped, or the run aborted. *)
Lemma fetch_loop_step (start_date end_date ds_id name : string)
    (ds : list (string * string)) (all_dfs : list Series) (w : World) :
  exists data w1,
    (gets w + 1 <= gets w1 <= gets w + 3)%nat /\
    (data = [] \/ exists n url params, accepted (net n url params) = Some data) /\
    loop start_date end_date ((ds_id, name) :: ds) all_dfs w
    = match data with
      | [] => loop start_date end_date ds all_dfs (w1 ++ [Print (NoData name); Sleep 1])
      | _ :: _ =>
          if has_field "ltu" data && has_field "value" data then
            match normalize_frame parse_datetime (frame_of data) with
            | Ok df =>
                loop start_date end_date ds (all_dfs ++ [mkSeries name df])
                     (w1 ++ [Print (Received (length df)); Sleep 1])
            | Raise e => (Raise e, w1)
            end
          else loop start_date end_date ds all_dfs (w1 ++ [Print UnexpectedColumns; Sleep 1])
      end.
Proof.
  set (cat := if String.prefix "1" ds_id then "gamyba" else "vartojimas").
  destruct (attempts_data (dataset_url cat ds_id) (dataset_params start_date end_date)
              (seq 0 3) (w ++ [Print (Reading name ds_id)]))
    as [data [w1 [Hf [Hle [Hge Hd]]]]].
  rewrite gets_print in Hle, Hge. simpl in Hle.
  exists data, w1. split; [split; [apply Hge; done | lia]|]. split.
  { destruct Hd as [Hd|[n Hd]]; [by left|]. right.
    by exists n, (dataset_url cat ds_id), (dataset_params start_date end_date). }
  change (loop start_date end_date ((ds_id, name) :: ds) all_dfs w)
    with ((_ <- print (Reading name ds_id) ;;
           data <- fetch_dataset net cat ds_id start_date end_date ;;
           all_dfs <-
             match data with
             | _ :: _ =>
                 if has_field "ltu" data && has_field "value" data then
                   df <- lift (normalize_frame parse_datetime (frame_of data)) ;;
                   _ <- print (Received (length df)) ;;
                   ret (all_dfs ++ [mkSeries name df])
                 else
                   _ <- print UnexpectedColumns ;;
                   ret all_dfs
             | [] =>
                 _ <- print (NoData name) ;;
                 ret all_dfs
             end ;;
           _ <- sleep 1 ;;
           loop start_date end_date ds all_dfs) w).
  rewrite (bind_ok _ _ w (w ++ [Print (Reading name ds_id)]) tt) by reflexivity.
  rewrite (bind_ok _ _ _ w1 data) by exact Hf.
  destruct data as [|rec0 data].
  - unfold bind, print, sleep, ret. by rewrite <- app_assoc.
  - destruct (has_field "ltu" (rec0 :: data) && has_field "value" (rec0 :: data)).
    + destruct (normalize_frame parse_datetime (frame_of (rec0 :: data))) as [df|e].
      * unfold bind, lift, print, sleep, ret. by rewrite <- app_assoc.
      * reflexivity.
    + unfold bind, print, sleep, ret. by rewrite <- app_assoc.
Qed.

End FetchLoop.

Lemma drop_duplicates_nonempty {V : Type} (l : list (option Z * V)) :
  l <> [] -> drop_duplicates l <> [].
Proof.
  destruct l as [|e l]; [done|]. intros _. unfold drop_duplicates.
  change (drop_duplicates_from [] (e :: l))
    with (if bool_decide (e.1 ∈ @nil (option Z)) then drop_duplicates_from [] l
          else e :: drop_duplicates_from [e.1] l).
  by rewrite bool_decide_eq_false_2 by apply not_elem_of_nil.
Qed.

Lemma length_rows_merge (dfs : list Series) :
  length (rows (merge dfs)) = length (index_union dfs).
Proof.
  rewrite rows_merge, length_imap.
  rewrite (Permutation_length (sort_index_perm (concat_outer dfs))).
  unfold concat_outer. apply length_map.
Qed.

Lemma index_union_nonempty (dfs : list Series) (s : Series) :
  s ∈ dfs -> entries s <> [] -> index_union dfs <> [].
Proof.
  intros Hs Hne Hnil. destruct (entries s) as [|e l] eqn:E; [done|].
  assert (Hin : e.1 ∈ index_union dfs).
  { apply index_union_keys. exists s. split; [done|]. rewrite E. simpl.
    apply list_elem_of_here. }
  rewrite Hnil in Hin. by apply elem_of_nil in Hin.
Qed.

(** A frame the normalisation returns for a non-empty series has a unique,
    non-empty index. *)
Lemma normalize_frame_index (parse_datetime : string -> option Z)
    (df : list (cell * cell)) (out : list (option Z * cell)) :
  df <> [] -> normalize_frame parse_datetime df = Ok out ->
  NoDup (map fst out) /\ out <> [].
Proof.
  intros Hne. unfold normalize_frame.
  pose proof (parse_dates_outcome parse_datetime df) as H.
  destruct (parse_dates parse_datetime df) as [parsed|e]; simpl; [|discriminate].
  intros Heq. injection Heq as <-. destruct H as [Hlen _]. split.
  - apply drop_duplicates_from_NoDup.
  - apply drop_duplicates_nonempty. intros ->. simpl in Hlen.
    destruct df; [done | discriminate Hlen].
Qed.

Section FetchLoopFacts.

Variable parse_datetime : string -> option Z.
Variable net : network.

Local Abbreviation loop := (fetch_loop parse_datetime net).

Lemma fetch_loop_requests (start_date end_date : string) (ds : list (string * string))
    (all_dfs : list Series) (w : World) :
  (gets w <= gets (snd (loop start_date end_date ds all_dfs w))
   <= gets w + 3 * length ds)%nat /\
  (forall res, fst (loop start_date end_date ds all_dfs w) = Ok res ->
               (gets w + length ds
                <= gets (snd (loop start_date end_date ds all_dfs w)))%nat).
Proof.
  revert all_dfs w. induction ds as [|[ds_id name] ds IH]; intros all_dfs w.
  - simpl. unfold ret. simpl. split; [lia|]. intros _ _. lia.
  - destruct (fetch_loop_step parse_datetime net start_date end_date ds_id name ds all_dfs w)
      as [data [w1 [Hg [_ ->]]]].
    cbn [length].
    destruct data as [|rec0 data].
    + destruct (IH all_dfs (w1 ++ [Print (NoData name); Sleep 1])) as [Hb Hok].
      rewrite gets_print_sleep in Hb, Hok. split; [lia|].
      intros res Hres. specialize (Hok res Hres). lia.
    + destruct (has_field "ltu" (rec0 :: data) && has_field "value" (rec0 :: data)).
      * destruct (normalize_frame parse_datetime (frame_of (rec0 :: data))) as [df|e].
        -- destruct (IH (all_dfs ++ [mkSeries name df])
                        (w1 ++ [Print (Received (length df)); Sleep 1])) as [Hb Hok].
           rewrite gets_print_sleep in Hb, Hok. split; [lia|].
           intros res Hres. specialize (Hok res Hres). lia.
        -- simpl. split; [lia|]. intros res Hres. discriminate Hres.
      * destruct (IH all_dfs (w1 ++ [Print UnexpectedColumns; Sleep 1])) as [Hb Hok].
        rewrite gets_print_sleep in Hb, Hok. split; [lia|].
        intros res Hres. specialize (Hok res Hres). lia.
Qed.

(** The frames the loop appends: taken in registry order, each with a
    unique, non-empty index. *)
Lemma fetch_loop_frames (start_date end_date : string) (ds : list (string * string))
    (all_dfs res : list Series) (w w' : World) :
  loop start_date end_date ds all_dfs w = (Ok res, w') ->
  exists new,
    res = all_dfs ++ new /\
    sublist (map series_name new) (map snd ds) /\
    Forall (fun s => NoDup (map fst (entries s)) /\ entries s <> []) new.
Proof.
  revert all_dfs w. induction ds as [|[ds_id name] ds IH]; intros all_dfs w.
  - simpl. unfold ret. intros H. injection H as <- _. exists [].
    rewrite app_nil_r. split; [done|]. split; constructor.
  - destruct (fetch_loop_step parse_datetime net start_date end_date ds_id name ds all_dfs w)
      as [data [w1 [_ [_ ->]]]].
    assert (Hskip : forall w2, loop start_date end_date ds all_dfs w2 = (Ok res, w') ->
              exists new, res = all_dfs ++ new /\
                sublist (map series_name new) (map snd ((ds_id, name) :: ds)) /\
                Forall (fun s => NoDup (map fst (entries s)) /\ entries s <> []) new).
    { intros w2 H. apply IH in H as [new [-> [Hsub Hall]]]. exists new.
      split; [done|]. split; [|done]. simpl. by apply sublist_cons. }
    destruct data as [|rec0 data]; [apply Hskip|].
    destruct (has_field "ltu" (rec0 :: data) && has_field "value" (rec0 :: data));
      [|apply Hskip].
    destruct (normalize_frame parse_datetime (frame_of (rec0 :: data))) as [df|e] eqn:En;
      [|discriminate].
    intros H. apply IH in H as [new [-> [Hsub Hall]]].
    exists (mkSeries name df :: new). split; [by rewrite <- app_assoc|]. split.
    + simpl. by apply sublist_skip.
    + constructor; [|done]. simpl.
      apply (normalize_frame_index parse_datetime (frame_of (rec0 :: data))); [done|exact En].
Qed.

(** With nothing usable from the remote side the loop appends no frame. *)
Lemma fetch_loop_unusable (start_date end_date : string) (ds : list (string * string))
    (all_dfs : list Series) (w : World) :
  (forall n url params, unusable (net n url params)) ->
  exists w', loop start_date end_date ds all_dfs w = (Ok all_dfs, w').
Proof.
  intros Hun. revert w. induction ds as [|[ds_id name] ds IH]; intros w.
  - by exists w.
  - destruct (fetch_loop_step parse_datetime net start_date end_date ds_id name ds all_dfs w)
      as [data [w1 [_ [Hd ->]]]].
    destruct data as [|rec0 data]; [apply IH|].
    destruct Hd as [Hd|[n [url [params Hd]]]]; [discriminate Hd|].
    specialize (Hun n url params). unfold unusable in Hun. rewrite Hd in Hun.
    destruct Hun as [Hun|Hun]; [discriminate Hun|].
    rewrite Hun. apply IH.
Qed.

End FetchLoopFacts.

Lemma process_data_ok_columns
    (parse_datetime : string -> option Z) (df out : DataFrame) (w w' : World) :
  df_empty df = false ->
  process_data parse_datetime df w = (Ok out, w') ->
  forall c, c ∈ sources ++ [consumption] -> c ∈ columns df.
Proof.
  intros He. unfold process_data. rewrite He.
  set (tdf := _limit_to_last_6_months parse_datetime df "data").
  assert (Hcols : columns tdf = columns df) by apply columns_limit.
  unfold bind at 1. unfold lift at 1.
  pose proof (require_columns_outcome tdf sources) as H1.
  destruct (require_columns tdf sources) as [[]|e]; [|discriminate].
  set (df1 := foldl _ tdf sources).
  assert (H1cols : columns df1 = columns df).
  { unfold df1. rewrite fill_columns_columns; [done | exact H1]. }
  unfold bind at 1. unfold lift at 1.
  pose proof (require_columns_outcome df1 ["Vartojimas"]) as H2.
  destruct (require_columns df1 ["Vartojimas"]) as [[]|e]; [|discriminate].
  intros _ c Hc. apply elem_of_app in Hc as [Hc|Hc].
  - rewrite <- Hcols. by apply H1.
  - apply list_elem_of_singleton in Hc as ->. rewrite <- H1cols.
    apply H2. apply list_elem_of_here.
Qed.

(** ** The fetch stage and the script as a whole *)

Section FetchAll.

Variable parse_datetime : string -> option Z.
Variable net : network.
Variable now : Z.
Variable strftime : Z -> string.

Local Abbreviation fetch_all := (fetch_all_data parse_datetime net now strftime).
Local Abbreviation start_date := (strftime (now - timedelta_days SIX_MONTH_DAYS)).
Local Abbreviation end_date := (strftime now).

Lemma fetch_all_data_unfold (w : World) :
  fetch_all w
  = match fetch_loop parse_datetime net start_date end_date datasets []
            (w ++ [Print (ReadingRange start_date end_date)]) with
    | (Ok [], w') => (Ok (mkDF [] []), w')
    | (Ok all_dfs, w') =>
        (Ok (_limit_to_last_6_months parse_datetime (merge all_dfs) "data"), w')
    | (Raise e, w') => (Raise e, w')
    end.
Proof.
  unfold fetch_all_data. cbv zeta. unfold bind at 1. unfold print at 1.
  unfold bind.
  destruct (fetch_loop parse_datetime net start_date end_date datasets [] _)
    as [[all_dfs|e] w']; [|done].
  by destruct all_dfs.
Qed.

(** X11. When no answer of the remote side is usable (every attempt fails,
    or the accepted body is empty or lacks one of the two fields), the
    fetch stage returns the empty table and the script prints its failure
    line and stops there: the processor is not run. *)
Theorem fetch_all_data_nothing_usable (w : World) :
  (forall n url params, unusable (net n url params)) ->
  exists w',
    fetch_all w = (Ok (mkDF [] []), w') /\
    main parse_datetime net now strftime w
    = (Ok (mkDF [] []), w' ++ [Print PipelineFailed]).
Proof.
  intros Hun.
  destruct (fetch_loop_unusable parse_datetime net start_date end_date datasets []
              (w ++ [Print (ReadingRange start_date end_date)]) Hun) as [w' Hloop].
  assert (Hf : fetch_all w = (Ok (mkDF [] []), w'))
    by (by rewrite fetch_all_data_unfold, Hloop).
  exists w'. split; [exact Hf|].
  unfold main. by rewrite (bind_ok _ _ w w' (mkDF [] []) Hf).
Qed.

(** X12. The fetch stage issues at most 21 requests, whether it returns or
    raises, and at least 7 when it returns a table. *)
Theorem fetch_all_data_requests (w : World) :
  (gets w <= gets (snd (fetch_all w)) <= gets w + 21)%nat /\
  (forall df, fst (fetch_all w) = Ok df -> (gets w + 7 <= gets (snd (fetch_all w)))%nat).
Proof.
  rewrite fetch_all_data_unfold.
  pose proof (fetch_loop_requests parse_datetime net start_date end_date datasets []
                (w ++ [Print (ReadingRange start_date end_date)])) as [Hb Hok].
  rewrite gets_print in Hb, Hok.
  change (length datasets) with 7%nat in Hb, Hok.
  destruct (fetch_loop parse_datetime net start_date end_date datasets [] _)
    as [[all_dfs|e] w'] eqn:E; simpl in *.
  - assert (H7 : (gets w + 7 <= gets w')%nat) by (by apply (Hok all_dfs)).
    destruct all_dfs; simpl; (split; [lia | intros _ _; lia]).
  - split; [lia|]. intros df Hdf. discriminate Hdf.
Qed.

(** X13. The frames the loop hands to the merge carry distinct series
    names, in registry order and none of them [data], and each has a
    unique, non-empty index: the outer join and the index reset are always
    applied to frames they accept. *)
Theorem fetch_loop_merge_ready (sd ed : string) (all_dfs : list Series) (w w' : World) :
  fetch_loop parse_datetime net sd ed datasets [] w = (Ok all_dfs, w') ->
  sublist (map series_name all_dfs) (map snd datasets) /\
  NoDup (map series_name all_dfs) /\
  ("data" ∉ map series_name all_dfs) /\
  Forall (fun s => NoDup (map fst (entries s)) /\ entries s <> []) all_dfs.
Proof.
  intros H. apply fetch_loop_frames in H as [new [-> [Hsub Hall]]]. simpl.
  split; [done|]. split; [|split; [|done]].
  - eapply sublist_NoDup; [|exact Hsub].
    apply (bool_decide_unpack _). vm_compute. reflexivity.
  - intros Hin. apply (elem_of_sublist _ _ _ Hin) in Hsub.
    list_cases Hsub; discriminate Hsub.
Qed.

(** X14. A table the fetch stage returns is either the empty table or has
    rows, the column [data] first, and after it the names of the fetched
    series in registry order. *)
Theorem fetch_all_data_shape (w : World) (df : DataFrame) :
  fst (fetch_all w) = Ok df ->
  df = mkDF [] [] \/
  (df_empty df = false /\
   exists names, names <> [] /\ sublist names (map snd datasets) /\
                 columns df = "data" :: names).
Proof.
  rewrite fetch_all_data_unfold.
  destruct (fetch_loop parse_datetime net start_date end_date datasets [] _)
    as [[all_dfs|e] w'] eqn:E; [|discriminate].
  destruct all_dfs as [|s all_dfs]; simpl; intros H; injection H as <-; [by left|].
  right. apply fetch_loop_frames in E as [new [Hnew [Hsub Hall]]]. simpl in Hnew.
  subst new. split.
  - rewrite df_empty_limit. apply df_empty_false_iff. split; [done|].
    intros Hnil. apply (f_equal length) in Hnil. rewrite length_rows_merge in Hnil.
    apply Forall_cons in Hall as [[_ Hne] _].
    apply (index_union_nonempty (s :: all_dfs) s); [apply list_elem_of_here | done|].
    by destruct (index_union (s :: all_dfs)).
  - exists (map series_name (s :: all_dfs)). split; [done|]. split; [done|].
    by rewrite columns_limit.
Qed.

(** X15. The script returns a non-empty table only when all seven series
    were fetched: a returned table with rows has the six generation columns
    and the consumption column. *)
Theorem main_needs_all_series (w w' : World) (out : DataFrame) :
  main parse_datetime net now strftime w = (Ok out, w') ->
  df_empty out = false ->
  forall c, c ∈ sources ++ [consumption] -> c ∈ columns out.
Proof.
  unfold main. unfold bind at 1.
  destruct (fetch_all w) as [[df|e] w1]; [|discriminate].
  destruct (df_empty df) eqn:He; simpl.
  - unfold bind, print, ret. intros H. injection H as <- _. congruence.
  - intros H _ c Hc.
    rewrite (process_data_columns parse_datetime df w1 w' out He H).
    apply elem_of_processed_columns. left.
    by apply (process_data_ok_columns parse_datetime df out w1 w' He H).
Qed.

End FetchAll.

(** A remote side whose records lack the [value] field: the run ends with
    the empty table. *)
Lemma fetch_all_data_nothing_usable_witness :
  exists w',
    fetch_all_data Sample.parse_iso SampleNet2.wrong_shape Scenario.now Scenario.strftime []
    = (Ok (mkDF [] []), w') /\
    main Sample.parse_iso SampleNet2.wrong_shape Scenario.now Scenario.strftime []
    = (Ok (mkDF [] []), w' ++ [Print PipelineFailed]).
Proof.
  apply (fetch_all_data_nothing_usable Sample.parse_iso SampleNet2.wrong_shape
           Scenario.now Scenario.strftime []).
  intros n url params. unfold unusable. simpl. right. vm_compute. reflexivity.
Defined.

(** The frames of the run with the solar and the consumption series. *)
Lemma fetch_loop_merge_ready_witness :
  exists all_dfs w',
    fetch_loop Sample.parse_iso Scenario.two_series "2023-09-10" "2024-03-10" datasets [] []
    = (Ok all_dfs, w') /\
    sublist (map series_name all_dfs) (map snd datasets) /\
    NoDup (map series_name all_dfs) /\
    ("data" ∉ map series_name all_dfs) /\
    Forall (fun s => NoDup (map fst (entries s)) /\ entries s <> []) all_dfs.
Proof.
  assert (H : exists all_dfs w',
            fetch_loop Sample.parse_iso Scenario.two_series "2023-09-10" "2024-03-10"
                       datasets [] []
            = (Ok all_dfs, w'))
    by (eexists _, _; vm_compute; reflexivity).
  destruct H as [all_dfs [w' H]]. exists all_dfs, w'. split; [exact H|].
  exact (fetch_loop_merge_ready Sample.parse_iso Scenario.two_series
           "2023-09-10" "2024-03-10" all_dfs [] w' H).
Defined.

(** The table of the run with the solar and the consumption series. *)
Lemma fetch_all_data_shape_witness :
  exists df,
    fst (fetch_all_data Sample.parse_iso Scenario.two_series Scenario.now Scenario.strftime [])
    = Ok df /\
    (df = mkDF [] [] \/
     (df_empty df = false /\
      exists names, names <> [] /\ sublist names (map snd datasets) /\
                    columns df = "data" :: names)).
Proof.
  assert (H : exists df,
            fst (fetch_all_data Sample.parse_iso Scenario.two_series
                                Scenario.now Scenario.strftime [])
            = Ok df)
    by (eexists; vm_compute; reflexivity).
  destruct H as [df H]. exists df. split; [exact H|].
  exact (fetch_all_data_shape Sample.parse_iso Scenario.two_series
           Scenario.now Scenario.strftime [] df H).
Defined.

(** The run in which all seven series are fetched. *)
Lemma main_needs_all_series_witness :
  exists out w',
    main Sample.parse_iso Scenario.seven_series Scenario.now Scenario.strftime []
    = (Ok out, w') /\
    df_empty out = false /\
    forall c, c ∈ sources ++ [consumption] -> c ∈ columns out.
Proof.
  assert (H : exists out w',
            main Sample.parse_iso Scenario.seven_series Scenario.now Scenario.strftime []
            = (Ok out, w') /\ df_empty out = false).
  { eexists _, _. split; [vm_compute; reflexivity|]. vm_compute. reflexivity. }
  destruct H as [out [w' [H He]]]. exists out, w'. split; [exact H|]. split; [exact He|].
  exact (main_needs_all_series Sample.parse_iso Scenario.seven_series
           Scenario.now Scenario.strftime [] w' out H He).
Defined.


(** ** Hydro activity *)

Lemma zip_with_take_r {A B C : Type} (f : A -> B -> C) (l : list A) (k : list B) :
  zip_with f l (take (length l) k) = zip_with f l k.
Proof.
  revert k. induction l as [|a l IH]; intros [|b k]; simpl; try done. by rewrite IH.
Qed.

Lemma hidro_start_rows (s : list bool) : hidro_start true s = starts_from false s.
Proof.
  unfold hidro_start, shift_fill_false. rewrite zip_with_take_r.
  generalize false. induction s as [|a s IH]; intros prev; simpl; [done|].
  by rewrite IH.
Qed.

Lemma hidro_start_object (s : list bool) : hidro_start false s = s.
Proof.
  unfold hidro_start, shift_fill_false, invert. rewrite zip_with_take_r.
  assert (H : forall prev : bool, zip_with (fun a _ : bool => a && true) s (prev :: s) = s).
  { induction s as [|a s IH]; intros prev; simpl; [done|].
    rewrite IH. by destruct a. }
  apply H.
Qed.

Lemma count_true_cons (a : bool) (s : list bool) :
  count_true (a :: s) = (if a then 1 else 0) + count_true s.
Proof. unfold count_true. destruct a; simpl; lia. Qed.

Lemma count_true_nonneg (s : list bool) : 0 <= count_true s.
Proof. unfold count_true. lia. Qed.

Lemma count_true_length (s : list bool) : count_true s <= Z.of_nat (length s).
Proof.
  induction s as [|a s IH]; [done|]. rewrite count_true_cons.
  destruct a; simpl length; lia.
Qed.

Lemma starts_from_le (prev : bool) (s : list bool) :
  count_true (starts_from prev s) <= count_true s.
Proof.
  revert prev. induction s as [|a s IH]; intros prev; simpl; [done|].
  rewrite !count_true_cons. specialize (IH a). destruct a, prev; simpl; lia.
Qed.

Lemma starts_from_pos (s : list bool) :
  0 < count_true s -> 0 < count_true (starts_from false s).
Proof.
  induction s as [|a s IH]; simpl; [done|].
  rewrite !count_true_cons. destruct a; simpl.
  - intros _. pose proof (count_true_nonneg (starts_from true s)). lia.
  - intros H. apply IH. lia.
Qed.

Lemma starts_from_spaced (prev : bool) (s : list bool) :
  2 * count_true (starts_from prev s)
  <= Z.of_nat (length s) + (if prev then 0 else 1).
Proof.
  revert prev. induction s as [|a s IH]; intros prev; simpl starts_from.
  - unfold count_true. simpl. destruct prev; lia.
  - rewrite count_true_cons. specialize (IH a). simpl length.
    destruct a, prev; simpl; lia.
Qed.

(** X16. When the hydro statistics are computed, whichever way the
    installed pandas reads the negation of line 239: the number of starts is
    at most the number of active rows, which is at most the number of rows
    of the trimmed table, and there is a start as soon as there is an active
    row.  Where the filled column is cast back to booleans two starts are
    never adjacent, so twice the starts is at most the number of rows plus
    one; where it is not, every active row counts as a start. *)
Theorem hidro_statistics_bounds
    (downcast : bool) (parse_datetime : string -> option Z) (df : DataFrame)
    (total_starts total_hours : Z) :
  hidro_statistics downcast parse_datetime df = Ok (total_starts, total_hours) ->
  0 <= total_starts <= total_hours /\
  total_hours
  <= Z.of_nat (length (rows (_limit_to_last_6_months parse_datetime df "data"))) /\
  (0 < total_hours -> 0 < total_starts) /\
  (downcast = true ->
   2 * total_starts
   <= Z.of_nat (length (rows (_limit_to_last_6_months parse_datetime df "data"))) + 1) /\
  (downcast = false -> total_starts = total_hours).
Proof.
  unfold hidro_statistics. cbv zeta.
  set (tdf := _limit_to_last_6_months parse_datetime df "data").
  destruct (require_columns tdf ["Hidro"]) as [[]|e]; simpl; [|discriminate].
  destruct (rmapM gt_zero (column tdf "Hidro")) as [active|e] eqn:Ea; simpl; [|discriminate].
  intros H. injection H as <- <-.
  assert (Hlen : length active = length (rows tdf)).
  { assert (Hgen : forall (l : list cell) (bs : list bool),
              rmapM gt_zero l = Ok bs -> length bs = length l).
    { induction l as [|c l IH]; intros bs Hbs; simpl in Hbs.
      - by injection Hbs as <-.
      - destruct (gt_zero c); simpl in Hbs; [|discriminate].
        destruct (rmapM gt_zero l) as [bs'|]; simpl in Hbs; [|discriminate].
        injection Hbs as <-. simpl. by rewrite (IH bs'). }
    rewrite (Hgen _ _ Ea). unfold column. apply length_map. }
  rewrite <- Hlen.
  pose proof (count_true_nonneg active).
  pose proof (count_true_length active).
  destruct downcast.
  - rewrite hidro_start_rows.
    pose proof (starts_from_le false active).
    pose proof (count_true_nonneg (starts_from false active)).
    pose proof (starts_from_spaced false active).
    split; [lia|]. split; [lia|]. split; [apply starts_from_pos|].
    split; [intros _; lia | discriminate].
  - rewrite hidro_start_object.
    split; [lia|]. split; [lia|]. split; [done|].
    split; [discriminate | done].
Qed.

(** Two runs of activity over five active hours: two starts where the filled
    column is cast back to booleans, five where it is not. *)
Lemma hidro_statistics_bounds_witness :
  (hidro_statistics true Sample.parse_iso SampleHydro.df_hydro = Ok (2, 5) /\
   0 <= 2 <= 5 /\
   5 <= Z.of_nat (length (rows (_limit_to_last_6_months Sample.parse_iso
                                   SampleHydro.df_hydro "data"))) /\
   (0 < 5 -> 0 < 2) /\
   (true = true ->
    2 * 2 <= Z.of_nat (length (rows (_limit_to_last_6_months Sample.parse_iso
                                        SampleHydro.df_hydro "data"))) + 1) /\
   (true = false -> 2 = 5)) /\
  (hidro_statistics false Sample.parse_iso SampleHydro.df_hydro = Ok (5, 5) /\
   0 <= 5 <= 5 /\
   5 <= Z.of_nat (length (rows (_limit_to_last_6_months Sample.parse_iso
                                   SampleHydro.df_hydro "data"))) /\
   (0 < 5 -> 0 < 5) /\
   (false = true ->
    2 * 5 <= Z.of_nat (length (rows (_limit_to_last_6_months Sample.parse_iso
                                        SampleHydro.df_hydro "data"))) + 1) /\
   (false = false -> 5 = 5)).
Proof.
  assert (H : hidro_statistics true Sample.parse_iso SampleHydro.df_hydro = Ok (2, 5))
    by (vm_compute; reflexivity).
  assert (H' : hidro_statistics false Sample.parse_iso SampleHydro.df_hydro = Ok (5, 5))
    by (vm_compute; reflexivity).
  split.
  - split; [exact H|].
    exact (hidro_statistics_bounds true Sample.parse_iso SampleHydro.df_hydro 2 5 H).
  - split; [exact H'|].
    exact (hidro_statistics_bounds false Sample.parse_iso SampleHydro.df_hydro 5 5 H').
Defined.

(** ** The hour of the week *)

Example dayofweek_epoch : dayofweek 0 = 3.
Proof. reflexivity. Qed.

Example hour_of_week_sunday_noon : hour_of_week Scenario.now = 6 * 24 + 12.
Proof. reflexivity. Qed.

(** X17. The hour of the week of a timestamp lies between 0 and 167, it
    determines the weekday and the hour it was built from, and it is the
    same one week later. *)
Theorem hour_of_week_range (t : Z) :
  0 <= hour_of_week t < 168 /\
  hour_of_week t / 24 = dayofweek t /\
  hour_of_week t mod 24 = hour t /\
  hour_of_week (t + timedelta_days 7) = hour_of_week t.
Proof.
  unfold hour_of_week.
  assert (Hd : 0 <= dayofweek t < 7) by (unfold dayofweek; apply Z.mod_pos_bound; lia).
  assert (Hh : 0 <= hour t < 24) by (unfold hour; apply Z.mod_pos_bound; lia).
  split; [lia|]. split; [|split].
  - symmetry. apply (Z.div_unique _ 24 _ (hour t)); lia.
  - symmetry. apply (Z.mod_unique _ 24 (dayofweek t)); lia.
  - assert (Hday : dayofweek (t + timedelta_days 7) = dayofweek t).
    { unfold dayofweek, timedelta_days.
      rewrite Z.div_add by lia.
      replace (t / 86400000000000 + 7 + 3) with (t / 86400000000000 + 3 + 1 * 7) by lia.
      by rewrite Z.mod_add by lia. }
    assert (Hhour : hour (t + timedelta_days 7) = hour t).
    { unfold hour, timedelta_days.
      replace (7 * 86400000000000) with (168 * 3600000000000) by lia.
      rewrite Z.div_add by lia.
      replace (t / 3600000000000 + 168) with (t / 3600000000000 + 7 * 24) by lia.
      by rewrite Z.mod_add by lia. }
    by rewrite Hday, Hhour.
Qed.

(** ** Monthly sums and pie charts *)

Lemma rmapM_inv {A B : Type} (f : A -> result B) (l : list A) (out : list B) :
  rmapM f l = Ok out -> Forall2 (fun a b => f a = Ok b) l out.
Proof.
  revert out. induction l as [|a l IH]; intros out H; simpl in H.
  - injection H as <-. constructor.
  - destruct (f a) as [b|] eqn:Ea; simpl in H; [|discriminate].
    destruct (rmapM f l) as [bs|]; simpl in H; [|discriminate].
    injection H as <-. constructor; [done | by apply IH].
Qed.

Lemma period_eqb_eq (a b : option Z) :
  period_eqb a b = true <-> exists x, a = Some x /\ b = Some x.
Proof.
  destruct a as [x|], b as [y|]; simpl; split; try discriminate;
    try (intros [z [H1 H2]]; discriminate).
  - intros H. apply Z.eqb_eq in H as ->. by exists y.
  - intros [z [H1 H2]]. injection H1 as ->. injection H2 as ->. apply Z.eqb_refl.
Qed.

Lemma unique_NoDup (l : list (option Z)) : NoDup (unique l).
Proof. apply drop_duplicates_from_NoDup. Qed.

Lemma elem_of_unique (l : list (option Z)) (k : option Z) : k ∈ unique l <-> k ∈ l.
Proof.
  unfold unique, drop_duplicates. rewrite drop_duplicates_from_keys, map_map. simpl.
  rewrite map_id. split; [tauto|]. intros H. split; [done | apply not_elem_of_nil].
Qed.

Lemma column_month_data (df : DataFrame) (month : option Z) (s : string) :
  column (month_data df month) s
  = map (fun r => get_cell r s)
        (List.filter (fun r => period_eqb (to_period_M (get_cell r "data")) month) (rows df)).
Proof.
  unfold column at 1, month_data.
  by rewrite (rows_select_map df "data" (fun c => period_eqb (to_period_M c) month)).
Qed.

Lemma period_eqb_NaT (a : option Z) : period_eqb a None = false.
Proof. by destruct a. Qed.

Lemma filter_none {A : Type} (p : A -> bool) (l : list A) :
  (forall a, p a = false) -> List.filter p l = [].
Proof. intros H. induction l as [|a l IH]; simpl; [done|]. by rewrite H. Qed.

Lemma filter_disjoint_app {A : Type} (p q : A -> bool) (l : list A) :
  (forall a, p a = true -> q a = false) ->
  Permutation (List.filter p l ++ List.filter q l) (List.filter (fun a => p a || q a) l).
Proof.
  intros H. induction l as [|a l IH]; simpl; [done|].
  destruct (p a) eqn:Ep; simpl.
  - rewrite (H a Ep). by apply perm_skip.
  - destruct (q a); [|done].
    etransitivity; [symmetry; apply Permutation_middle|]. by apply perm_skip.
Qed.

(** Over months without repetition, the rows of each month laid end to end
    are the rows whose month is among them, each once. *)
Lemma concat_months {R : Type} (key : R -> option Z) (U : list (option Z)) (rs : list R) :
  NoDup U ->
  Permutation (concat (map (fun m => List.filter (fun r => period_eqb (key r) m) rs) U))
              (List.filter (fun r => existsb (period_eqb (key r)) U) rs).
Proof.
  induction 1 as [|m U Hm Hnd IH]; simpl.
  - by rewrite filter_none.
  - etransitivity; [apply Permutation_app_head, IH|].
    apply filter_disjoint_app. intros r E.
    apply not_true_is_false. intros Ex. apply Hm.
    apply existsb_exists in Ex as [m' [Hin Hm']].
    apply period_eqb_eq in E as [y [Hy ->]]. rewrite Hy in Hm'.
    apply period_eqb_eq in Hm' as [z [Hz ->]].
    injection Hz as ->. by apply list_elem_of_In.
Qed.

Lemma rows_month_data (df : DataFrame) (month : option Z) :
  rows (month_data df month)
  = List.filter (fun r => period_eqb (to_period_M (get_cell r "data")) month) (rows df).
Proof.
  unfold month_data.
  apply (rows_select_map df "data" (fun c => period_eqb (to_period_M c) month)).
Qed.

(** X18. The monthly tables partition the dated rows: the months the loop
    runs over are distinct, the table of a month holds exactly the rows of
    the input that carry a date of that month, and the rows of all the
    monthly tables together are the dated rows of the input, each one once;
    a row without a date is in no monthly table. *)
Theorem month_data_partition (df : DataFrame) :
  NoDup (unique (map to_period_M (column df "data"))) /\
  (forall (month : option Z) (r : Row),
     r ∈ rows (month_data df month) <->
     r ∈ rows df /\ dated r = true /\ to_period_M (get_cell r "data") = month) /\
  Permutation
    (concat (map (fun month => rows (month_data df month))
                 (unique (map to_period_M (column df "data")))))
    (List.filter dated (rows df)).
Proof.
  set (key := fun r : Row => to_period_M (get_cell r "data")).
  set (U := unique (map to_period_M (column df "data"))).
  split; [apply unique_NoDup|]. split.
  - intros month r. rewrite rows_month_data, elem_of_filter. unfold dated. fold (key r).
    rewrite period_eqb_eq. split.
    + intros [Hr [x [Hk ->]]]. rewrite Hk. done.
    + intros [Hr [Hd <-]]. split; [done|]. destruct (key r) as [x|]; [by exists x | done].
  - rewrite (map_ext (fun month => rows (month_data df month))
               (fun m => List.filter (fun r => period_eqb (key r) m) (rows df)))
      by (intros m; apply rows_month_data).
    rewrite (concat_months key U (rows df)) by apply unique_NoDup.
    assert (E : List.filter (fun r => existsb (period_eqb (key r)) U) (rows df)
                = List.filter dated (rows df)); [|by rewrite E].
    apply filter_ext_elem. intros r Hr. unfold dated. fold (key r).
    destruct (key r) as [x|] eqn:Ek.
    + apply existsb_exists. exists (Some x). split; [|simpl; apply Z.eqb_refl].
      apply list_elem_of_In. apply elem_of_unique.
      apply list_elem_of_fmap. exists (get_cell r "data"). split; [done|].
      apply list_elem_of_fmap. by exists r.
    + apply not_true_is_false. intros Hex. apply existsb_exists in Hex as [m [_ Hm]].
      discriminate Hm.
Qed.

(** The partition of the sample table of two months and one undated row. *)
Lemma month_data_partition_witness :
  NoDup (unique (map to_period_M (column SampleMonths.df_months "data"))) /\
  (forall (month : option Z) (r : Row),
     r ∈ rows (month_data SampleMonths.df_months month) <->
     r ∈ rows SampleMonths.df_months /\ dated r = true /\
     to_period_M (get_cell r "data") = month) /\
  Permutation
    (concat (map (fun month => rows (month_data SampleMonths.df_months month))
                 (unique (map to_period_M (column SampleMonths.df_months "data")))))
    (List.filter dated (rows SampleMonths.df_months)).
Proof. exact (month_data_partition SampleMonths.df_months). Defined.

(** The sample table: March holds rows 0 and 1, April row 2, and the undated
    row 3 is in no monthly table. *)
Example month_data_sample :
  unique (map to_period_M (column SampleMonths.df_months "data"))
  = [Some 650; Some 651; None] /\
  map (fun month => map label (rows (month_data SampleMonths.df_months month)))
      (unique (map to_period_M (column SampleMonths.df_months "data")))
  = [[0; 1]; [2]; []] /\
  map label (List.filter dated (rows SampleMonths.df_months)) = [0; 1; 2].
Proof. repeat split; vm_compute; reflexivity. Qed.

(** The slices of a month that a successful [monthly_sums] returns. *)
Lemma monthly_sums_slices (df : DataFrame) (month : option Z) (sums : list (string * Z)) :
  monthly_sums df month = Ok sums ->
  forall s v, (s, v) ∈ sums -> s ∈ sources /\ monthly_sum df month s = Ok v.
Proof.
  unfold monthly_sums.
  destruct (require_columns (month_data df month) sources) as [[]|e]; [|discriminate].
  intros H.
  change (rmapM (fun s => rbind (monthly_sum df month s) (fun v => Ok (s, v))) sources
          = Ok sums) in H.
  revert H. generalize sources. intros cs H. apply rmapM_inv in H.
  induction H as [|s0 p l out Hp _ IH]; intros s v Hin.
  - by apply elem_of_nil in Hin.
  - apply elem_of_cons in Hin as [Heq|Hin].
    + destruct (monthly_sum df month s0) as [v0|] eqn:E; simpl in Hp; [|discriminate].
      injection Hp as <-. injection Heq as -> ->.
      split; [apply list_elem_of_here | done].
    + destruct (IH s v Hin) as [Hs Hv]. split; [by apply list_elem_of_further | done].
Qed.

(** X19. Every pie chart that is saved belongs to a calendar month of its
    own (no two charts share a month, none is for undated rows), has at
    least one slice, and each slice is a generation source with its
    monthly sum, which is positive. *)
Theorem pie_charts_slices
    (parse_datetime : string -> option Z) (df : DataFrame)
    (charts : list (option Z * list (string * Z))) :
  pie_charts parse_datetime df = Ok charts ->
  NoDup (map fst charts) /\
  forall month slices,
    (month, slices) ∈ charts ->
    month <> None /\ slices <> [] /\
    forall s v, (s, v) ∈ slices ->
      s ∈ sources /\ 0 < v /\
      monthly_sum (_limit_to_last_6_months parse_datetime df "data") month s = Ok v.
Proof.
  unfold pie_charts. cbv zeta.
  set (tdf := _limit_to_last_6_months parse_datetime df "data").
  destruct (require_columns tdf ["data"]) as [[]|e]; simpl; [|discriminate].
  set (U := unique (map to_period_M (column tdf "data"))).
  destruct (rmapM _ U) as [all|e] eqn:Eall; simpl; [|discriminate].
  intros H. injection H as <-.
  apply rmapM_inv in Eall.
  assert (Hfst : map fst all = U).
  { clear -Eall. induction Eall as [|m ch U all Hch _ IH]; simpl; [done|].
    destruct (monthly_sums tdf m) as [sums|]; simpl in Hch; [|discriminate].
    injection Hch as <-. simpl. by rewrite IH. }
  assert (Hall : forall month slices, (month, slices) ∈ all ->
            exists sums, monthly_sums tdf month = Ok sums /\
                         slices = List.filter (fun p => 0 <? p.2) sums).
  { clear -Eall. induction Eall as [|m ch U all Hch _ IH]; intros month slices Hin.
    - by apply elem_of_nil in Hin.
    - apply elem_of_cons in Hin as [Hin|Hin]; [|by apply IH].
      destruct (monthly_sums tdf m) as [sums|] eqn:E; simpl in Hch; [|discriminate].
      injection Hch as <-. injection Hin as -> ->. by exists sums. }
  split.
  - assert (Hsub : sublist
                     (map fst (List.filter (fun ch => negb (bool_decide (ch.2 = []))) all))
                     (map fst all))
      by (apply (fmap_sublist fst), sublist_List_filter).
    eapply sublist_NoDup; [|exact Hsub]. rewrite Hfst. apply unique_NoDup.
  - intros month slices Hin. apply elem_of_filter in Hin as [Hin Hne].
    simpl in Hne. apply negb_true_iff, bool_decide_eq_false in Hne.
    destruct (Hall month slices Hin) as [sums [Hsums ->]].
    assert (Hslice : forall s v, (s, v) ∈ List.filter (fun p => 0 <? p.2) sums ->
              s ∈ sources /\ 0 < v /\ monthly_sum tdf month s = Ok v).
    { intros s v Hsv. apply elem_of_filter in Hsv as [Hsv Hpos]. simpl in Hpos.
      apply Z.ltb_lt in Hpos.
      destruct (monthly_sums_slices tdf month sums Hsums s v Hsv) as [Hs Hv]. done. }
    split; [|split; [done | exact Hslice]].
    intros ->. apply Hne.
    destruct (List.filter (fun p => 0 <? p.2) sums) as [|[s v] l] eqn:E; [done|].
    exfalso. destruct (Hslice s v) as [_ [Hpos Hv]]; [apply list_elem_of_here|].
    unfold monthly_sum in Hv. rewrite column_month_data in Hv.
    rewrite filter_none in Hv by (intros r; apply period_eqb_NaT).
    simpl in Hv. injection Hv as <-. lia.
Qed.

(** The two charts of the sample table. *)
Lemma pie_charts_slices_witness :
  exists charts,
    pie_charts Sample.parse_iso SampleMonths.df_months = Ok charts /\
    NoDup (map fst charts) /\
    forall month slices,
      (month, slices) ∈ charts ->
      month <> None /\ slices <> [] /\
      forall s v, (s, v) ∈ slices ->
        s ∈ sources /\ 0 < v /\
        monthly_sum (_limit_to_last_6_months Sample.parse_iso SampleMonths.df_months "data")
                    month s = Ok v.
Proof.
  assert (H : exists charts, pie_charts Sample.parse_iso SampleMonths.df_months = Ok charts)
    by (eexists; vm_compute; reflexivity).
  destruct H as [charts H]. exists charts. split; [exact H|].
  exact (pie_charts_slices Sample.parse_iso SampleMonths.df_months charts H).
Defined.

Example pie_charts_sample :
  pie_charts Sample.parse_iso SampleMonths.df_months
  = Ok [ (Some 650, [("Saules", 10); ("Kitu", 2); ("Hidro", 3); ("Vejo", 2)]);
         (Some 651, [("Saules", 9); ("Vejo", 5)]) ].
Proof. vm_compute. reflexivity. Qed.

(** ** The statements above on sample inputs *)

(** A frame whose dates are a string that parses and a missing value: the
    normalisation returns, and the date strings of the input are the
    parseable ones. *)
Lemma normalize_frame_value_error_witness :
  exists out,
    normalize_frame Sample.parse_iso [(Str "2024-03-01", Num 1); (NA, Num 2)] = Ok out /\
    (length out <= 2)%nat /\
    forall s v, (Str s, v) ∈ [(Str "2024-03-01", Num 1); (NA, Num 2)] ->
                Sample.parse_iso s <> None.
Proof.
  assert (Hdates : forall (z : Z) (v : cell),
             (Num z, v) ∉ [(Str "2024-03-01", Num 1); (NA, Num 2)]).
  { intros z v Hin. list_cases Hin; discriminate. }
  pose proof (normalize_frame_value_error Sample.parse_iso
                [(Str "2024-03-01", Num 1); (NA, Num 2)] Hdates) as H.
  destruct (normalize_frame Sample.parse_iso [(Str "2024-03-01", Num 1); (NA, Num 2)])
    as [out|e] eqn:E.
  - exists out. split; [reflexivity | exact H].
  - exfalso. vm_compute in E. discriminate E.
Defined.

(** The shape of the merge of series A and B. *)
Lemma merge_shape_witness :
  columns (merge [SampleSeries.A; SampleSeries.B]) = ["data"; "A"; "B"] /\
  length (rows (merge [SampleSeries.A; SampleSeries.B])) = 3%nat /\
  map label (rows (merge [SampleSeries.A; SampleSeries.B])) = [0; 1; 2] /\
  (forall r, r ∈ rows (merge [SampleSeries.A; SampleSeries.B]) -> is_Some (cells r !! "B")).
Proof.
  destruct (merge_shape [SampleSeries.A; SampleSeries.B]) as [Hc [Hl [Hlab Hcell]]].
  split; [exact Hc|]. split; [rewrite Hl; vm_compute; reflexivity|].
  split; [vm_compute; reflexivity|].
  intros r Hr. apply Hcell; [exact Hr|]. rewrite Hc.
  apply list_elem_of_In. simpl. tauto.
Defined.

(** What the trim keeps of the sample table with string dates. *)
Lemma limit_to_last_6_months_keeps_witness :
  columns (_limit_to_last_6_months Sample.parse_iso Sample.df_dates "data")
  = columns Sample.df_dates /\
  df_empty (_limit_to_last_6_months Sample.parse_iso Sample.df_dates "data") = false /\
  sublist (map label (rows (_limit_to_last_6_months Sample.parse_iso Sample.df_dates "data")))
          [0; 1; 2; 3; 4; 5] /\
  (forall r, r ∈ rows (_limit_to_last_6_months Sample.parse_iso Sample.df_dates "data") ->
     exists r0, r0 ∈ rows Sample.df_dates /\ label r = label r0 /\
                cells r !! "Saules" = cells r0 !! "Saules").
Proof.
  destruct (limit_to_last_6_months_keeps Sample.parse_iso Sample.df_dates "data")
    as [Hc [He [Hs Hr]]].
  split; [exact Hc|]. split; [exact He|]. split; [exact Hs|].
  intros r Hin. destruct (Hr r Hin) as [r0 [Hr0 [Hl Hcells]]].
  exists r0. split; [exact Hr0|]. split; [exact Hl|]. apply Hcells. discriminate.
Defined.

(** The run with two series fetched issues seven requests. *)
Lemma fetch_all_data_requests_witness :
  exists df,
    fst (fetch_all_data Sample.parse_iso Scenario.two_series Scenario.now Scenario.strftime [])
    = Ok df /\
    (7 <= gets (snd (fetch_all_data Sample.parse_iso Scenario.two_series
                                    Scenario.now Scenario.strftime [])) <= 21)%nat.
Proof.
  assert (H : exists df,
            fst (fetch_all_data Sample.parse_iso Scenario.two_series
                                Scenario.now Scenario.strftime [])
            = Ok df)
    by (eexists; vm_compute; reflexivity).
  destruct H as [df H]. exists df. split; [exact H|].
  destruct (fetch_all_data_requests Sample.parse_iso Scenario.two_series
              Scenario.now Scenario.strftime []) as [[_ Hle] Hge].
  specialize (Hge df H). change (gets []) with 0%nat in Hle, Hge. lia.
Defined.
